(** * PHANTOM: authorization and execution pipeline

    A shallow embedding of the four Solidity contracts of the repository
    (PhantomVault, PhantomAccount, PhantomAccountFactory, PhantomPaymaster)
    and the properties of their authorization logic.

    Conventions.
    - [uint256], [address], [bytes32] and [bytes4] are integers in [Z];
      checked arithmetic of Solidity 0.8 is written out ([checked_add]
      reverts with [Panic 0x11] on overflow).
    - [bytes] are [list byte]; big-endian words are read with [be_to_Z].
    - a [mapping] is a [gmap] read with the total lookup [!!!], whose default
      is the zero-initialised value of the struct, as in contract storage.
    - a call runs in the [result] monad: [Ok] carries the new state, [Revert]
      the error; a reverted call leaves the state unchanged ([commit]).
    - [msg.sender] and [block.timestamp] are explicit arguments.
    - hashing and signature recovery are the primitives of the platform and
      of the imported libraries; they are the fields of [Primitives]. *)

From Stdlib Require Import ZArith Lia String.
From Stdlib Require Import Strings.Byte.
From stdpp Require Import gmap list.

Local Open Scope Z_scope.

(** ** Machine data *)

Abbreviation address := Z (only parsing).
Abbreviation bytes32 := Z (only parsing).
Abbreviation bytes4 := Z (only parsing).
Abbreviation uint256 := Z (only parsing).
Abbreviation bytes := (list byte) (only parsing).

Definition MAX_UINT256 : Z := 2 ^ 256 - 1.
Definition ADDRESS_MODULUS : Z := 2 ^ 160.

Definition byte_to_Z (b : byte) : Z := Z.of_N (Byte.to_N b).

Definition byte_of_Z (z : Z) : byte :=
  match Byte.of_N (Z.to_N (z mod 256)) with
  | Some b => b
  | None => x00
  end.

(** Big-endian reading of a byte string. *)
Definition be_to_Z (bs : bytes) : Z :=
  fold_left (fun acc b => acc * 256 + byte_to_Z b) bs 0.

(** Big-endian writing of [z] on [n] bytes. *)
Fixpoint Z_to_be (n : nat) (z : Z) : bytes :=
  match n with
  | O => []
  | S n' => Z_to_be n' (z / 256) ++ [byte_of_Z z]
  end.

(** [data[from:to]] *)
Definition slice (from to : nat) (data : bytes) : bytes :=
  take (to - from)%nat (drop from data).

(** The 32-byte word at offset [p] of a calldata byte string, as the
    [calldataload] instruction reads it (bytes past the end read as zero,
    which is also what the padding of a canonically encoded [bytes] holds). *)
Definition calldataload (data : bytes) (p : nat) : Z :=
  be_to_Z (take 32 (drop p data ++ repeat x00 32)).

(** ** Results of a call *)

Inductive result (E A : Type) : Type :=
| Ok (a : A)
| Revert (e : E).
Arguments Ok {E A} a.
Arguments Revert {E A} e.

#[global] Instance result_ret {E} : MRet (result E) := fun _ a => Ok a.
#[global] Instance result_bind {E} : MBind (result E) :=
  fun _ _ f m => match m with Ok a => f a | Revert e => Revert e end.
#[global] Instance result_fmap {E} : FMap (result E) :=
  fun _ _ f m => match m with Ok a => Ok (f a) | Revert e => Revert e end.

Definition require {E} (cond : bool) (e : E) : result E unit :=
  if cond then Ok tt else Revert e.

Definition is_ok {E A} (r : result E A) : bool :=
  match r with Ok _ => true | Revert _ => false end.

(** Reading a [mapping] of words or flags: a missing key reads as zero. *)
Definition word_at (m : gmap Z Z) (k : Z) : Z := default 0 (m !! k).
Definition flag_at (m : gmap Z bool) (k : Z) : bool := default false (m !! k).

(** A transaction either commits its new state or leaves the old one. *)
Definition commit {E S} (r : result E S) (old : S) : S :=
  match r with Ok s => s | Revert _ => old end.

(** ** Data model *)

Module Vault.

Record Portfolio := mkPortfolio {
  owner : address;
  protectedDataId : bytes32;
  lastAnalysis : uint256;
  riskScore : uint256;
  autoRebalance : bool;
  rebalanceThreshold : uint256;
  createdAt : uint256
}.

Record Strategy := mkStrategy {
  strategyHash : bytes32;
  targetAssets : list address;
  allocations : list uint256;
  teeSignature : bytes;
  validUntil : uint256;
  executed : bool
}.

Record RiskReport := mkRiskReport {
  portfolioScore : uint256;
  concentrationRisk : uint256;
  protocolRisk : uint256;
  correlationRisk : uint256;
  liquidityRisk : uint256;
  leverageRatio : uint256;
  timestamp : uint256;
  teeAttestation : bytes
}.

#[global] Instance Portfolio_inhabited : Inhabited Portfolio :=
  populate (mkPortfolio 0 0 0 0 false 0 0).
#[global] Instance Strategy_inhabited : Inhabited Strategy :=
  populate (mkStrategy 0 [] [] [] 0 false).
#[global] Instance RiskReport_inhabited : Inhabited RiskReport :=
  populate (mkRiskReport 0 0 0 0 0 0 0 []).

End Vault.

Module Account.

Record SessionKey := mkSessionKey {
  key : address;
  validUntil : uint256;
  spendLimit : uint256;
  spent : uint256;
  allowedTargets : list address;
  allowedSelectors : list bytes4;
  active : bool
}.

#[global] Instance SessionKey_inhabited : Inhabited SessionKey :=
  populate (mkSessionKey 0 0 0 0 [] [] false).

End Account.

(** The [PackedUserOperation] of the account-abstraction interfaces. *)
Record PackedUserOperation := mkUserOp {
  sender : address;
  nonce : uint256;
  initCode : bytes;
  callData : bytes;
  accountGasLimits : bytes32;
  preVerificationGas : uint256;
  gasFees : bytes32;
  paymasterAndData : bytes;
  signature : bytes
}.

(** ** Platform and library primitives *)

Class Primitives := {
  (** [keccak256] of a byte string *)
  keccak256 : bytes -> bytes32;
  (** the [ecrecover] precompile: hash, v, r, s; the zero address when no
      signer is recovered *)
  ecrecover : bytes32 -> Z -> bytes32 -> bytes32 -> address;
  (** OpenZeppelin's [ECDSA.recover(hash, signature)]; [None] when it reverts
      (bad length, high s, no signer) *)
  ECDSA_recover : bytes32 -> bytes -> option address;
  (** [abi.encode(msg.sender, targetAssets, allocations, block.timestamp)] *)
  abi_encode_strategy_key : address -> list address -> list uint256 -> uint256 -> bytes;
  (** [abi.encode(report)] *)
  abi_encode_report : Vault.RiskReport -> bytes;
  (** [abi.encode(user, report)] *)
  abi_encode_user_report : address -> Vault.RiskReport -> bytes;
  (** [abi.encode(user, strategyHash, targetAssets)] *)
  abi_encode_user_strategy : address -> bytes32 -> list address -> bytes;
  (** [abi.encode(sender, nonce, callDataHash, chainid, this, validUntil, validAfter)] *)
  abi_encode_sponsorship : address -> uint256 -> bytes32 -> uint256 -> address -> Z -> Z -> bytes;
  (** [abi.encodeCall(PhantomAccount.initialize, (owner))] *)
  encodeCall_initialize : address -> bytes;
  (** [abi.encode(implementation, data)], the constructor arguments of the proxy *)
  abi_encode_proxy_args : address -> bytes -> bytes;
  (** [type(ERC1967Proxy).creationCode] *)
  ERC1967Proxy_creationCode : bytes;
  (** runtime code of a deployed ERC1967 proxy; never empty *)
  ERC1967Proxy_runtimeCode : bytes;
  ERC1967Proxy_runtimeCode_nonempty : ERC1967Proxy_runtimeCode <> []
}.

Definition list_byte_of_string (s : string) : bytes :=
  List.map (fun a => byte_of_Z (Z.of_nat (Ascii.nat_of_ascii a))) (list_ascii_of_string s).

(** ["\x19Ethereum Signed Message:\n32"], 28 bytes. *)
Definition ETH_SIGNED_PREFIX : bytes :=
  byte_of_Z 25 :: list_byte_of_string "Ethereum Signed Message:" ++ [byte_of_Z 10]
    ++ list_byte_of_string "32".

Section Hashing.
Context {prims : Primitives}.

(** [keccak256(abi.encodePacked("\x19Ethereum Signed Message:\n32", h))],
    also [MessageHashUtils.toEthSignedMessageHash]. *)
Definition toEthSignedMessageHash (h : bytes32) : bytes32 :=
  keccak256 (ETH_SIGNED_PREFIX ++ Z_to_be 32 h).

(** OpenZeppelin's [Create2.computeAddress(salt, bytecodeHash, deployer)],
    which is the rule of the CREATE2 instruction. *)
Definition Create2_computeAddress (salt : uint256) (bytecodeHash : bytes32)
    (deployer : address) : address :=
  keccak256 ([byte_of_Z 255] ++ Z_to_be 20 deployer ++ Z_to_be 32 salt
               ++ Z_to_be 32 bytecodeHash) mod ADDRESS_MODULUS.
End Hashing.

(** ** PhantomVault *)

Module PhantomVault.
Import Vault.

Inductive error :=
| PortfolioNotFound
| StrategyExpired
| StrategyAlreadyExecuted
| InvalidTEESignature
| RebalanceTooFrequent
| UnauthorizedCaller
| InvalidParameters
| InsufficientBalance
| EnforcedPause                              (* Pausable *)
| ExpectedPause                              (* Pausable *)
| OwnableUnauthorizedAccount (a : address)   (* Ownable *)
| Panic (code : Z)                           (* checked arithmetic *)
| Error (msg : string).                      (* require(cond, msg) *)

Inductive event :=
| PortfolioCreated (owner : address) (protectedDataId : bytes32) (timestamp : uint256)
| PortfolioUpdated (owner : address) (newProtectedDataId : bytes32) (timestamp : uint256)
| RiskAnalysisCompleted (owner : address) (riskScore timestamp : uint256) (reportHash : bytes32)
| StrategySubmitted (owner : address) (strategyHash : bytes32) (validUntil : uint256)
| StrategyExecuted (owner : address) (strategyHash : bytes32) (timestamp : uint256)
| AutoRebalanceTriggered (owner : address) (strategyHash : bytes32) (deviation : uint256)
| TrustedIAppUpdated (oldIApp newIApp : address)
| TrustedWorkerpoolUpdated (oldPool newPool : address)
| FeesUpdated (newFeeBps : uint256) (newRecipient : address)
| Paused (account : address)
| Unpaused (account : address).

Record state := mkState {
portfolios : gmap Z Portfolio;
strategies : gmap Z Strategy;
riskHistory : gmap Z (list RiskReport);
trustedIApp : address;
trustedWorkerpool : address;
minRebalanceInterval : uint256;
executionFeeBps : uint256;
feeRecipient : address;
totalPortfolios : uint256;
totalStrategiesExecuted : uint256;
admin : address;          (* Ownable's owner *)
paused : bool;            (* Pausable *)
events : list event
}.

Definition set_portfolios (v : gmap Z Portfolio) (s : state) : state :=
mkState v (strategies s) (riskHistory s) (trustedIApp s) (trustedWorkerpool s)
  (minRebalanceInterval s) (executionFeeBps s) (feeRecipient s) (totalPortfolios s)
  (totalStrategiesExecuted s) (admin s) (paused s) (events s).
Definition set_strategies (v : gmap Z Strategy) (s : state) : state :=
mkState (portfolios s) v (riskHistory s) (trustedIApp s) (trustedWorkerpool s)
  (minRebalanceInterval s) (executionFeeBps s) (feeRecipient s) (totalPortfolios s)
  (totalStrategiesExecuted s) (admin s) (paused s) (events s).
Definition set_riskHistory (v : gmap Z (list RiskReport)) (s : state) : state :=
mkState (portfolios s) (strategies s) v (trustedIApp s) (trustedWorkerpool s)
  (minRebalanceInterval s) (executionFeeBps s) (feeRecipient s) (totalPortfolios s)
  (totalStrategiesExecuted s) (admin s) (paused s) (events s).
Definition set_trustedIApp (v : address) (s : state) : state :=
mkState (portfolios s) (strategies s) (riskHistory s) v (trustedWorkerpool s)
  (minRebalanceInterval s) (executionFeeBps s) (feeRecipient s) (totalPortfolios s)
  (totalStrategiesExecuted s) (admin s) (paused s) (events s).
Definition set_trustedWorkerpool (v : address) (s : state) : state :=
mkState (portfolios s) (strategies s) (riskHistory s) (trustedIApp s) v
  (minRebalanceInterval s) (executionFeeBps s) (feeRecipient s) (totalPortfolios s)
  (totalStrategiesExecuted s) (admin s) (paused s) (events s).
Definition set_minRebalanceInterval (v : uint256) (s : state) : state :=
mkState (portfolios s) (strategies s) (riskHistory s) (trustedIApp s) (trustedWorkerpool s)
  v (executionFeeBps s) (feeRecipient s) (totalPortfolios s)
  (totalStrategiesExecuted s) (admin s) (paused s) (events s).
Definition set_fees (bps : uint256) (recipient : address) (s : state) : state :=
mkState (portfolios s) (strategies s) (riskHistory s) (trustedIApp s) (trustedWorkerpool s)
  (minRebalanceInterval s) bps recipient (totalPortfolios s)
  (totalStrategiesExecuted s) (admin s) (paused s) (events s).
Definition set_totalPortfolios (v : uint256) (s : state) : state :=
mkState (portfolios s) (strategies s) (riskHistory s) (trustedIApp s) (trustedWorkerpool s)
  (minRebalanceInterval s) (executionFeeBps s) (feeRecipient s) v
  (totalStrategiesExecuted s) (admin s) (paused s) (events s).
Definition set_totalStrategiesExecuted (v : uint256) (s : state) : state :=
mkState (portfolios s) (strategies s) (riskHistory s) (trustedIApp s) (trustedWorkerpool s)
  (minRebalanceInterval s) (executionFeeBps s) (feeRecipient s) (totalPortfolios s)
  v (admin s) (paused s) (events s).
Definition set_paused (v : bool) (s : state) : state :=
mkState (portfolios s) (strategies s) (riskHistory s) (trustedIApp s) (trustedWorkerpool s)
  (minRebalanceInterval s) (executionFeeBps s) (feeRecipient s) (totalPortfolios s)
  (totalStrategiesExecuted s) (admin s) v (events s).
Definition emit (e : event) (s : state) : state :=
mkState (portfolios s) (strategies s) (riskHistory s) (trustedIApp s) (trustedWorkerpool s)
  (minRebalanceInterval s) (executionFeeBps s) (feeRecipient s) (totalPortfolios s)
  (totalStrategiesExecuted s) (admin s) (paused s) (events s ++ [e]).

(** The state without its event log. *)
Definition ledger (s : state) :=
  (portfolios s, strategies s, riskHistory s, trustedIApp s, trustedWorkerpool s,
   minRebalanceInterval s, executionFeeBps s, feeRecipient s, totalPortfolios s,
   totalStrategiesExecuted s, admin s, paused s).

Definition set_executed (v : bool) (x : Strategy) : Strategy :=
mkStrategy (strategyHash x) (targetAssets x) (allocations x) (teeSignature x)
  (validUntil x) v.

Definition HOURS : Z := 3600.

(** [a + b] on [uint256]: reverts with [Panic(0x11)] on overflow. *)
Definition checked_add (a b : uint256) : result error uint256 :=
if a + b <=? MAX_UINT256 then Ok (a + b) else Revert (Panic 17).

(** Modifiers. [nonReentrant] never trips: no function of the vault calls out
  ([_executeRebalance] is empty), so the guard is always released between
  calls and is left out of the state. *)
Definition whenNotPaused (s : state) : result error unit :=
require (negb (paused s)) EnforcedPause.
Definition whenPaused (s : state) : result error unit :=
require (paused s) ExpectedPause.
Definition onlyOwner (msg_sender : address) (s : state) : result error unit :=
require (msg_sender =? admin s) (OwnableUnauthorizedAccount msg_sender).

(** The constructor: [Ownable(msg.sender)], the three addresses, and the
  initialisers of the state variables. *)
Definition constructor (msg_sender _trustedIApp _trustedWorkerpool _feeRecipient : address)
  : state :=
mkState ∅ ∅ ∅ _trustedIApp _trustedWorkerpool (1 * HOURS) 10 _feeRecipient 0 0
  msg_sender false [].

Section Functions.
Context {prims : Primitives}.

Definition createPortfolio (msg_sender : address) (now : uint256)
    (protectedDataId : bytes32) (autoRebalance : bool) (rebalanceThreshold : uint256)
    (s : state) : result error state :=
  whenNotPaused s;;
  require (negb (protectedDataId =? 0)) InvalidParameters;;
  require (negb (5000 <? rebalanceThreshold)) InvalidParameters;;
  let s1 := set_portfolios
    (<[msg_sender := mkPortfolio msg_sender protectedDataId 0 0 autoRebalance
                       rebalanceThreshold now]> (portfolios s)) s in
  n ← checked_add (totalPortfolios s1) 1;
  let s2 := set_totalPortfolios n s1 in
  mret (emit (PortfolioCreated msg_sender protectedDataId now) s2).

Definition updatePortfolio (msg_sender : address) (now : uint256)
    (newProtectedDataId : bytes32) (autoRebalance : bool) (rebalanceThreshold : uint256)
    (s : state) : result error state :=
  whenNotPaused s;;
  let portfolio := portfolios s !!! msg_sender in
  require (negb (owner portfolio =? 0)) PortfolioNotFound;;
  let dataId := if negb (newProtectedDataId =? 0) then newProtectedDataId
                else protectedDataId portfolio in
  let portfolio' := mkPortfolio (owner portfolio) dataId (lastAnalysis portfolio)
                      (riskScore portfolio) autoRebalance rebalanceThreshold
                      (createdAt portfolio) in
  let s1 := set_portfolios (<[msg_sender := portfolio']> (portfolios s)) s in
  mret (emit (PortfolioUpdated msg_sender newProtectedDataId now) s1).

Definition _recoverSigner (messageHash : bytes32) (signature : bytes)
    : result error address :=
  require (length signature =? 65)%nat (Error "Invalid signature length");;
  let r := calldataload signature 0 in
  let s := calldataload signature 32 in
  let v := calldataload signature 64 / 2 ^ 248 in   (* byte(0, word) *)
  mret (ecrecover messageHash v r s).

Definition _verifyTEESignature (trusted : address) (user : address) (report : RiskReport)
    (signature : bytes) : result error bool :=
  let messageHash := toEthSignedMessageHash (keccak256 (abi_encode_user_report user report)) in
  recovered ← _recoverSigner messageHash signature;
  mret (recovered =? trusted).

Definition _verifyStrategySignature (trusted : address) (user : address)
    (strategy : Strategy) (signature : bytes) : result error bool :=
  let messageHash := toEthSignedMessageHash
    (keccak256 (abi_encode_user_strategy user (strategyHash strategy)
                  (targetAssets strategy))) in
  recovered ← _recoverSigner messageHash signature;
  mret (recovered =? trusted).

(** Placeholder of the source: no effect. *)
Definition _executeRebalance (h : bytes32) (s : state) : state := s.

Definition submitRiskAnalysis (msg_sender : address) (now : uint256) (user : address)
    (report : RiskReport) (teeSig : bytes) (s : state) : result error state :=
  whenNotPaused s;;
  ok ← _verifyTEESignature (trustedIApp s) user report teeSig;
  require ok InvalidTEESignature;;
  let portfolio := portfolios s !!! user in
  require (negb (owner portfolio =? 0)) PortfolioNotFound;;
  let portfolio' := mkPortfolio (owner portfolio) (protectedDataId portfolio) now
                      (portfolioScore report) (autoRebalance portfolio)
                      (rebalanceThreshold portfolio) (createdAt portfolio) in
  let s1 := set_portfolios (<[user := portfolio']> (portfolios s)) s in
  let s2 := set_riskHistory (<[user := (riskHistory s1 !!! user) ++ [report]]> (riskHistory s1)) s1 in
  mret (emit (RiskAnalysisCompleted user (portfolioScore report) now
                (keccak256 (abi_encode_report report))) s2).

Definition submitStrategy (msg_sender : address) (now : uint256)
    (targetAssets : list address) (allocations : list uint256) (teeSig : bytes)
    (validityPeriod : uint256) (s : state) : result error (state * bytes32) :=
  whenNotPaused s;;
  require (length targetAssets =? length allocations)%nat InvalidParameters;;
  require (negb (24 * HOURS <? validityPeriod)) InvalidParameters;;
  let portfolio := portfolios s !!! msg_sender in
  require (negb (owner portfolio =? 0)) PortfolioNotFound;;
  let h := keccak256 (abi_encode_strategy_key msg_sender targetAssets allocations now) in
  deadline ← checked_add now validityPeriod;
  let s1 := set_strategies
    (<[h := mkStrategy h targetAssets allocations teeSig deadline false]> (strategies s)) s in
  mret (emit (StrategySubmitted msg_sender h deadline) s1, h).

Definition executeStrategy (msg_sender : address) (now : uint256) (h : bytes32)
    (s : state) : result error state :=
  whenNotPaused s;;
  let strategy := strategies s !!! h in
  require (negb (strategyHash strategy =? 0)) InvalidParameters;;
  require (negb (executed strategy)) StrategyAlreadyExecuted;;
  require (negb (validUntil strategy <? now)) StrategyExpired;;
  let s1 := set_strategies (<[h := set_executed true strategy]> (strategies s)) s in
  n ← checked_add (totalStrategiesExecuted s1) 1;
  let s2 := set_totalStrategiesExecuted n s1 in
  let s3 := _executeRebalance h s2 in
  mret (emit (StrategyExecuted msg_sender h now) s3).

Definition triggerAutoRebalance (msg_sender : address) (now : uint256) (user : address)
    (deviation : uint256) (strategy : Strategy) (teeSig : bytes) (s : state)
    : result error state :=
  whenNotPaused s;;
  let portfolio := portfolios s !!! user in
  require (autoRebalance portfolio) UnauthorizedCaller;;
  require (negb (deviation <? rebalanceThreshold portfolio)) InvalidParameters;;
  earliest ← checked_add (lastAnalysis portfolio) (minRebalanceInterval s);
  require (negb (now <? earliest)) RebalanceTooFrequent;;
  ok ← _verifyStrategySignature (trustedIApp s) user strategy teeSig;
  require ok InvalidTEESignature;;
  let h := strategyHash strategy in
  let s1 := set_strategies (<[h := strategy]> (strategies s)) s in
  let s2 := set_strategies (<[h := set_executed true (strategies s1 !!! h)]> (strategies s1)) s1 in
  n ← checked_add (totalStrategiesExecuted s2) 1;
  let s3 := set_totalStrategiesExecuted n s2 in
  let s4 := _executeRebalance h s3 in
  mret (emit (AutoRebalanceTriggered user h deviation) s4).

(** View functions *)
Definition getPortfolio (user : address) (s : state) : Portfolio := portfolios s !!! user.

Definition isStrategyValid (now : uint256) (h : bytes32) (s : state) : bool :=
  let strategy := strategies s !!! h in
  negb (strategyHash strategy =? 0) && negb (executed strategy)
    && (now <=? validUntil strategy).

(** Admin functions *)
Definition setTrustedIApp (msg_sender _trustedIApp : address) (s : state)
    : result error state :=
  onlyOwner msg_sender s;;
  mret (set_trustedIApp _trustedIApp (emit (TrustedIAppUpdated (trustedIApp s) _trustedIApp) s)).

Definition setTrustedWorkerpool (msg_sender _pool : address) (s : state)
    : result error state :=
  onlyOwner msg_sender s;;
  mret (set_trustedWorkerpool _pool (emit (TrustedWorkerpoolUpdated (trustedWorkerpool s) _pool) s)).

Definition setFees (msg_sender : address) (_feeBps : uint256) (_feeRecipient : address)
    (s : state) : result error state :=
  onlyOwner msg_sender s;;
  require (_feeBps <=? 100) (Error "Fee too high");;
  mret (emit (FeesUpdated _feeBps _feeRecipient) (set_fees _feeBps _feeRecipient s)).

Definition setMinRebalanceInterval (msg_sender : address) (_interval : uint256) (s : state)
    : result error state :=
  onlyOwner msg_sender s;;
  mret (set_minRebalanceInterval _interval s).

Definition pause (msg_sender : address) (s : state) : result error state :=
  onlyOwner msg_sender s;;
  whenNotPaused s;;
  mret (emit (Paused msg_sender) (set_paused true s)).

Definition unpause (msg_sender : address) (s : state) : result error state :=
  onlyOwner msg_sender s;;
  whenPaused s;;
  mret (emit (Unpaused msg_sender) (set_paused false s)).

(** External calls of the vault, and a ledger history as a list of calls,
    each with its sender and block timestamp. *)
Inductive call :=
| CreatePortfolio (protectedDataId : bytes32) (autoRebalance : bool) (threshold : uint256)
| UpdatePortfolio (newProtectedDataId : bytes32) (autoRebalance : bool) (threshold : uint256)
| SubmitRiskAnalysis (user : address) (report : RiskReport) (teeSig : bytes)
| SubmitStrategy (targetAssets : list address) (allocations : list uint256)
    (teeSig : bytes) (validityPeriod : uint256)
| ExecuteStrategy (h : bytes32)
| TriggerAutoRebalance (user : address) (deviation : uint256) (strategy : Strategy)
    (teeSig : bytes)
| SetTrustedIApp (a : address)
| SetTrustedWorkerpool (a : address)
| SetFees (bps : uint256) (recipient : address)
| SetMinRebalanceInterval (interval : uint256)
| Pause
| Unpause.

Definition is_submit (c : call) : bool :=
  match c with SubmitStrategy _ _ _ _ => true | _ => false end.
Definition is_trigger (c : call) : bool :=
  match c with TriggerAutoRebalance _ _ _ _ => true | _ => false end.
Definition is_execute (c : call) : bool :=
  match c with ExecuteStrategy _ => true | _ => false end.

Definition exec (msg_sender : address) (now : uint256) (c : call) (s : state)
    : result error state :=
  match c with
  | CreatePortfolio d a t => createPortfolio msg_sender now d a t s
  | UpdatePortfolio d a t => updatePortfolio msg_sender now d a t s
  | SubmitRiskAnalysis u r sg => submitRiskAnalysis msg_sender now u r sg s
  | SubmitStrategy ts als sg p => fst <$> submitStrategy msg_sender now ts als sg p s
  | ExecuteStrategy h => executeStrategy msg_sender now h s
  | TriggerAutoRebalance u d st sg => triggerAutoRebalance msg_sender now u d st sg s
  | SetTrustedIApp a => setTrustedIApp msg_sender a s
  | SetTrustedWorkerpool a => setTrustedWorkerpool msg_sender a s
  | SetFees b r => setFees msg_sender b r s
  | SetMinRebalanceInterval i => setMinRebalanceInterval msg_sender i s
  | Pause => pause msg_sender s
  | Unpause => unpause msg_sender s
  end.

Record tx := mkTx { tx_sender : address; tx_time : uint256; tx_call : call }.

Definition step (t : tx) (s : state) : state :=
  commit (exec (tx_sender t) (tx_time t) (tx_call t) s) s.

Definition run (txs : list tx) (s : state) : state :=
  fold_left (fun s t => step t s) txs s.
End Functions.

End PhantomVault.

(** ** Histories of the vault

    What a transaction does to the record filed under a fingerprint, read
    in the state the transaction runs in, and histories in which no
    transaction does it. *)

Module VaultHistory.
Import Vault PhantomVault.

Section Functions.
Context {prims : Primitives}.

(** [t] is a [submitStrategy] call that succeeds in [s] and returns [k]. *)
Definition submits (k : bytes32) (t : tx) (s : state) : bool :=
  match tx_call t with
  | SubmitStrategy ts als sg p =>
      match submitStrategy (tx_sender t) (tx_time t) ts als sg p s with
      | Ok (_, h) => h =? k
      | Revert _ => false
      end
  | _ => false
  end.

(** [t] is a [triggerAutoRebalance] call that succeeds in [s] with a
    strategy whose hash is [k]. *)
Definition triggers (k : bytes32) (t : tx) (s : state) : bool :=
  match tx_call t with
  | TriggerAutoRebalance u d st sg =>
      is_ok (triggerAutoRebalance (tx_sender t) (tx_time t) u d st sg s)
      && (strategyHash st =? k)
  | _ => false
  end.

(** No transaction of the history satisfies [p] in the state it runs in. *)
Fixpoint never (p : tx -> state -> bool) (txs : list tx) (s : state) : bool :=
  match txs with
  | [] => true
  | t :: rest => negb (p t s) && never p rest (step t s)
  end.
End Functions.

End VaultHistory.

(** ** PhantomAccount *)

Module PhantomAccount.
Import Account.

Inductive error :=
| NotOwner
| NotOwnerOrEntryPoint
| InvalidSessionKey
| SessionKeyExpired
| SpendLimitExceeded
| TargetNotAllowed
| SelectorNotAllowed
| ExecutionFailed
| InvalidInitialization        (* Initializable *)
| ECDSAInvalidSignature        (* ECDSA.recover reverted *)
| AbiDecodingFailed            (* abi.decode reverted *)
| Panic (code : Z).

Inductive event :=
| SessionKeyCreated (key : address) (validUntil spendLimit : uint256)
| SessionKeyRevoked (key : address)
| Initialized (version : Z).

Record state := mkState {
  entryPoint : address;       (* immutable *)
  phantomVault : address;     (* immutable *)
  initialized : bool;         (* Initializable *)
  owner : address;
  sessionKeys : gmap Z SessionKey;
  activeSessionKeys : list address;
  events : list event
}.

Definition set_initialized (v : bool) (s : state) : state :=
  mkState (entryPoint s) (phantomVault s) v (owner s) (sessionKeys s) (activeSessionKeys s)
    (events s).
Definition set_owner (v : address) (s : state) : state :=
  mkState (entryPoint s) (phantomVault s) (initialized s) v (sessionKeys s)
    (activeSessionKeys s) (events s).
Definition set_sessionKeys (v : gmap Z SessionKey) (s : state) : state :=
  mkState (entryPoint s) (phantomVault s) (initialized s) (owner s) v (activeSessionKeys s)
    (events s).
Definition push_activeSessionKeys (k : address) (s : state) : state :=
  mkState (entryPoint s) (phantomVault s) (initialized s) (owner s) (sessionKeys s)
    (activeSessionKeys s ++ [k]) (events s).
Definition emit (e : event) (s : state) : state :=
  mkState (entryPoint s) (phantomVault s) (initialized s) (owner s) (sessionKeys s)
    (activeSessionKeys s) (events s ++ [e]).

Definition set_active (v : bool) (k : SessionKey) : SessionKey :=
  mkSessionKey (key k) (validUntil k) (spendLimit k) (spent k) (allowedTargets k)
    (allowedSelectors k) v.

(** Constants of the account-abstraction library: [SIG_VALIDATION_FAILED]
    of Helpers.sol, and the selector of
    [BaseAccount.execute(address,uint256,bytes)]. *)
Definition SIG_VALIDATION_FAILED : uint256 := 1.
Definition execute_selector : bytes4 := 0xb61d27f6.

Definition checked_add (a b : uint256) : result error uint256 :=
  if a + b <=? MAX_UINT256 then Ok (a + b) else Revert (Panic 17).

Definition onlyOwner (msg_sender : address) (s : state) : result error unit :=
  require (msg_sender =? owner s) NotOwner.

(** Storage of a proxy before [initialize] runs. *)
Definition fresh (anEntryPoint _phantomVault : address) : state :=
  mkState anEntryPoint _phantomVault false 0 ∅ [] [].

Definition initialize (_owner : address) (s : state) : result error state :=
  require (negb (initialized s)) InvalidInitialization;;
  let s1 := set_initialized true s in
  let s2 := set_owner _owner s1 in
  mret (emit (Initialized 1) s2).

(** [abi.decode(word, (address))]: reverts when the upper 96 bits are set. *)
Definition abi_decode_address (word : bytes) : result error address :=
  let w := be_to_Z word in
  if w <? ADDRESS_MODULUS then Ok w else Revert AbiDecodingFailed.

(** The loop of [_validateSessionKeyOp] over [session.allowedTargets]. *)
Fixpoint targetAllowed (targets : list address) (target : address) : bool :=
  match targets with
  | [] => false
  | t :: rest => if t =? target then true else targetAllowed rest target
  end.

Definition _validateSessionKeyOp (session : SessionKey) (userOp : PackedUserOperation)
    : result error bool :=
  if (length (callData userOp) <? 4)%nat then mret false else
  let selector := be_to_Z (slice 0 4 (callData userOp)) in
  if selector =? execute_selector then
    if (length (callData userOp) <? 36)%nat then mret false else
    target ← abi_decode_address (slice 4 36 (callData userOp));
    if negb (targetAllowed (allowedTargets session) target) then mret false
    else mret true
  else mret true.

Section Functions.
Context {prims : Primitives}.

Definition _validateSignature (now : uint256) (userOp : PackedUserOperation)
    (userOpHash : bytes32) (s : state) : result error uint256 :=
  let hash := toEthSignedMessageHash userOpHash in
  if (length (signature userOp) <? 65)%nat then mret SIG_VALIDATION_FAILED else
  match ECDSA_recover hash (signature userOp) with
  | None => Revert ECDSAInvalidSignature
  | Some recovered =>
      if recovered =? owner s then mret 0 else
      let session := sessionKeys s !!! recovered in
      if active session && (now <=? validUntil session) then
        ok ← _validateSessionKeyOp session userOp;
        if negb ok then mret SIG_VALIDATION_FAILED else mret 0
      else mret SIG_VALIDATION_FAILED
  end.

Definition createSessionKey (msg_sender : address) (key : address)
    (validUntil spendLimit : uint256) (allowedTargets : list address)
    (allowedSelectors : list bytes4) (s : state) : result error state :=
  onlyOwner msg_sender s;;
  let s1 := set_sessionKeys
    (<[key := mkSessionKey key validUntil spendLimit 0 allowedTargets allowedSelectors true]>
       (sessionKeys s)) s in
  let s2 := push_activeSessionKeys key s1 in
  mret (emit (SessionKeyCreated key validUntil spendLimit) s2).

(** [bytes4(keccak256(sig))] *)
Definition selector_of (sig : string) : bytes4 :=
  keccak256 (list_byte_of_string sig) / 2 ^ 224.

Definition createPhantomSessionKey (msg_sender : address) (now : uint256) (key : address)
    (duration : uint256) (s : state) : result error state :=
  onlyOwner msg_sender s;;
  let targets := [phantomVault s] in
  let selectors := [selector_of "executeStrategy(bytes32)";
                    selector_of "submitStrategy(address[],uint256[],bytes,uint256)"] in
  expiry ← checked_add now duration;
  let s1 := set_sessionKeys
    (<[key := mkSessionKey key expiry MAX_UINT256 0 targets selectors true]>
       (sessionKeys s)) s in
  let s2 := push_activeSessionKeys key s1 in
  mret (emit (SessionKeyCreated key expiry MAX_UINT256) s2).

Definition revokeSessionKey (msg_sender : address) (key : address) (s : state)
    : result error state :=
  onlyOwner msg_sender s;;
  let s1 := set_sessionKeys
    (<[key := set_active false (sessionKeys s !!! key)]> (sessionKeys s)) s in
  mret (emit (SessionKeyRevoked key) s1).

Definition getSessionKey (key : address) (s : state) : SessionKey := sessionKeys s !!! key.

Definition isSessionKeyActive (now : uint256) (key : address) (s : state) : bool :=
  let session := sessionKeys s !!! key in
  active session && (now <=? validUntil session).
End Functions.

End PhantomAccount.

(** ** PhantomAccountFactory *)

Module PhantomAccountFactory.

Inductive error :=
| FailedDeployment                               (* CREATE2 on an occupied address *)
| ERC1967InvalidImplementation (a : address)     (* the implementation has no code *)
| InitializerReverted (e : PhantomAccount.error)
| Panic (code : Z).

Inductive event :=
| AccountCreated (owner : address) (account : address) (salt : uint256).

(** The factory together with the part of the chain it acts on: the code at
    each address and the storage of the agents it deployed. *)
Record state := mkState {
  this : address;
  accountImplementation : address;   (* immutable *)
  entryPoint : address;              (* immutable *)
  phantomVault : address;            (* immutable *)
  ownerToAccount : gmap Z address;
  totalAccounts : uint256;
  code : gmap Z bytes;
  accounts : gmap Z PhantomAccount.state;
  events : list event
}.

Definition checked_add (a b : uint256) : result error uint256 :=
  if a + b <=? MAX_UINT256 then Ok (a + b) else Revert (Panic 17).

Section Functions.
Context {prims : Primitives}.

(** Init code of [new ERC1967Proxy(implementation, data)]. *)
Definition proxy_initCode (implementation : address) (data : bytes) : bytes :=
  ERC1967Proxy_creationCode ++ abi_encode_proxy_args implementation data.

Definition getAddress (owner : address) (salt : uint256) (s : state) : address :=
  Create2_computeAddress salt
    (keccak256 (ERC1967Proxy_creationCode
                  ++ abi_encode_proxy_args (accountImplementation s)
                       (encodeCall_initialize owner)))
    (this s).

(** [new ERC1967Proxy{salt: salt}(implementation, abi.encodeCall(initialize, (owner)))]:
    CREATE2 puts the contract at the address derived from the deployer, the
    salt and the hash of the init code, and fails when that address already
    holds code; the constructor of the proxy requires code at the
    implementation and delegate-calls [initialize(owner)] on the fresh
    storage. *)
Definition new_ERC1967Proxy (salt : uint256) (implementation : address) (owner : address)
    (s : state) : result error (state * address) :=
  let initCode := proxy_initCode implementation (encodeCall_initialize owner) in
  let addr := Create2_computeAddress salt (keccak256 initCode) (this s) in
  require (length (code s !!! addr) =? 0)%nat FailedDeployment;;
  require (0 <? length (code s !!! implementation))%nat
    (ERC1967InvalidImplementation implementation);;
  match PhantomAccount.initialize owner
          (PhantomAccount.fresh (entryPoint s) (phantomVault s)) with
  | Revert e => Revert (InitializerReverted e)
  | Ok acct =>
      mret (mkState (this s) (accountImplementation s) (entryPoint s) (phantomVault s)
              (ownerToAccount s) (totalAccounts s)
              (<[addr := ERC1967Proxy_runtimeCode]> (code s))
              (<[addr := acct]> (accounts s)) (events s), addr)
  end.

Definition createAccount (owner : address) (salt : uint256) (s : state)
    : result error (state * address) :=
  let addr := getAddress owner salt s in
  if (0 <? length (code s !!! addr))%nat then mret (s, addr) else
  '(s1, account) ← new_ERC1967Proxy salt (accountImplementation s) owner s;
  n ← checked_add (totalAccounts s1) 1;
  mret (mkState (this s1) (accountImplementation s1) (entryPoint s1) (phantomVault s1)
          (<[owner := account]> (ownerToAccount s1)) n (code s1) (accounts s1)
          (events s1 ++ [AccountCreated owner account salt]), account).

Definition accountExists (owner : address) (s : state) : bool :=
  negb (word_at (ownerToAccount s) owner =? 0).

(** Addresses of the agents the factory deployed, from its event log. *)
Definition deployed (s : state) : list address :=
  List.map (fun e => match e with AccountCreated _ a _ => a end) (events s).

(** Every logged agent sits at the derived address of its owner and salt. *)
Definition events_consistent (s : state) : Prop :=
  Forall (fun e => match e with AccountCreated o a sl => a = getAddress o sl s end)
    (events s).

(** Every logged agent is logged once and has code. *)
Definition deployed_once (s : state) : Prop :=
  NoDup (deployed s) /\ forall a, In a (deployed s) -> code s !!! a <> [].

Definition step (c : address * uint256) (s : state) : state :=
  match createAccount c.1 c.2 s with
  | Ok (s', _) => s'
  | Revert _ => s
  end.

Definition run (calls : list (address * uint256)) (s : state) : state :=
  fold_left (fun s c => step c s) calls s.
End Functions.

End PhantomAccountFactory.

(** ** PhantomPaymaster *)

Module PhantomPaymaster.

Inductive error :=
| InvalidSignature
| DailyLimitExceeded
| SelectorNotWhitelisted
| InvalidTarget
| OwnableUnauthorizedAccount (a : address)
| ECDSAInvalidSignature        (* ECDSA.recover reverted *)
| SliceOutOfBounds             (* calldata slice past the end *)
| Panic (code : Z)
| Error (msg : string).

Inductive event :=
| SignerUpdated (oldSigner newSigner : address)
| SelectorWhitelisted (selector : bytes4) (status : bool).

Record state := mkState {
  this : address;
  chainid : uint256;
  entryPoint : address;        (* BasePaymaster, immutable *)
  admin : address;             (* Ownable's owner *)
  verifyingSigner : address;
  phantomVault : address;
  sponsoredTxCount : gmap Z uint256;
  maxDailySponsored : uint256;
  dailyResetTime : gmap Z uint256;
  whitelistedSelectors : gmap Z bool;
  events : list event
}.

Definition set_verifyingSigner (v : address) (s : state) : state :=
  mkState (this s) (chainid s) (entryPoint s) (admin s) v (phantomVault s)
    (sponsoredTxCount s) (maxDailySponsored s) (dailyResetTime s) (whitelistedSelectors s)
    (events s).
Definition set_phantomVault (v : address) (s : state) : state :=
  mkState (this s) (chainid s) (entryPoint s) (admin s) (verifyingSigner s) v
    (sponsoredTxCount s) (maxDailySponsored s) (dailyResetTime s) (whitelistedSelectors s)
    (events s).
Definition set_sponsoredTxCount (v : gmap Z uint256) (s : state) : state :=
  mkState (this s) (chainid s) (entryPoint s) (admin s) (verifyingSigner s) (phantomVault s)
    v (maxDailySponsored s) (dailyResetTime s) (whitelistedSelectors s) (events s).
Definition set_maxDailySponsored (v : uint256) (s : state) : state :=
  mkState (this s) (chainid s) (entryPoint s) (admin s) (verifyingSigner s) (phantomVault s)
    (sponsoredTxCount s) v (dailyResetTime s) (whitelistedSelectors s) (events s).
Definition set_dailyResetTime (v : gmap Z uint256) (s : state) : state :=
  mkState (this s) (chainid s) (entryPoint s) (admin s) (verifyingSigner s) (phantomVault s)
    (sponsoredTxCount s) (maxDailySponsored s) v (whitelistedSelectors s) (events s).
Definition set_whitelistedSelectors (v : gmap Z bool) (s : state) : state :=
  mkState (this s) (chainid s) (entryPoint s) (admin s) (verifyingSigner s) (phantomVault s)
    (sponsoredTxCount s) (maxDailySponsored s) (dailyResetTime s) v (events s).
Definition emit (e : event) (s : state) : state :=
  mkState (this s) (chainid s) (entryPoint s) (admin s) (verifyingSigner s) (phantomVault s)
    (sponsoredTxCount s) (maxDailySponsored s) (dailyResetTime s) (whitelistedSelectors s)
    (events s ++ [e]).

(** Constants of the account-abstraction library:
    [UserOperationLib.PAYMASTER_DATA_OFFSET] and the packing of
    [_packValidationData(sigFailed, validUntil, validAfter)]. *)
Definition PAYMASTER_DATA_OFFSET : nat := 52.
Definition _packValidationData (sigFailed : bool) (validUntil validAfter : Z) : uint256 :=
  Z.lor (Z.lor (if sigFailed then 1 else 0) (Z.shiftl validUntil 160))
        (Z.shiftl validAfter 208).

Definition DAYS : Z := 86400.

Definition checked_add (a b : uint256) : result error uint256 :=
  if a + b <=? MAX_UINT256 then Ok (a + b) else Revert (Panic 17).

Definition onlyOwner (msg_sender : address) (s : state) : result error unit :=
  require (msg_sender =? admin s) (OwnableUnauthorizedAccount msg_sender).

(** [_getTarget]: the word at offset 16 of the call data, held in a variable
    of type [address]; the comparison with [phantomVault] sees its low 160
    bits. *)
Definition _getTarget (callData : bytes) : address :=
  if (36 <=? length callData)%nat then calldataload callData 16 mod ADDRESS_MODULUS
  else 0.

(** [_getSelector]: the word at offset 0, held in a variable of type
    [bytes4]; the mapping key is its high 4 bytes. *)
Definition _getSelector (callData : bytes) : bytes4 :=
  if (4 <=? length callData)%nat then calldataload callData 0 / 2 ^ 224
  else 0.

Definition _checkAndUpdateDailyLimit (now : uint256) (user : address) (s : state)
    : result error state :=
  let resetTime := word_at (dailyResetTime s) user in
  windowEnd ← checked_add resetTime (1 * DAYS);
  if windowEnd <? now then
    let s1 := set_dailyResetTime (<[user := now]> (dailyResetTime s)) s in
    mret (set_sponsoredTxCount (<[user := 1]> (sponsoredTxCount s1)) s1)
  else
    if maxDailySponsored s <=? word_at (sponsoredTxCount s) user then
      Revert DailyLimitExceeded
    else
      n ← checked_add (word_at (sponsoredTxCount s) user) 1;
      mret (set_sponsoredTxCount (<[user := n]> (sponsoredTxCount s)) s).

Section Functions.
Context {prims : Primitives}.

(** [bytes4(keccak256(sig))] *)
Definition selector_of (sig : string) : bytes4 :=
  keccak256 (list_byte_of_string sig) / 2 ^ 224.

Definition constructor (_this _chainid _entryPoint _owner _verifyingSigner _phantomVault : address)
    : state :=
  mkState _this _chainid _entryPoint _owner _verifyingSigner _phantomVault ∅ 10 ∅
    (<[selector_of "submitStrategy(address[],uint256[],bytes,uint256)" := true]>
      (<[selector_of "executeStrategy(bytes32)" := true]>
        (<[selector_of "updatePortfolio(bytes32,bool,uint256)" := true]>
          (<[selector_of "createPortfolio(bytes32,bool,uint256)" := true]> ∅))))
    [].

Definition getHash (userOp : PackedUserOperation) (validUntil validAfter : Z) (s : state)
    : bytes32 :=
  keccak256 (abi_encode_sponsorship (sender userOp) (nonce userOp)
               (keccak256 (callData userOp)) (chainid s) (this s) validUntil validAfter).

(** The result of a successful validation: the context for [_postOp], that
    is [abi.encode(userOp.sender, maxCost)], and the validation data. *)
Record validation := mkValidation {
  context : address * uint256;
  validationData : uint256
}.

Definition _validatePaymasterUserOp (now : uint256) (userOp : PackedUserOperation)
    (userOpHash : bytes32) (maxCost : uint256) (s : state)
    : result error (state * validation) :=
  require (PAYMASTER_DATA_OFFSET <=? length (paymasterAndData userOp))%nat SliceOutOfBounds;;
  let paymasterData := drop PAYMASTER_DATA_OFFSET (paymasterAndData userOp) in
  require (77 <=? length paymasterData)%nat (Error "Invalid paymaster data length");;
  let signature := slice 0 65 paymasterData in
  let validUntil := be_to_Z (slice 65 71 paymasterData) in
  let validAfter := be_to_Z (slice 71 77 paymasterData) in
  let hash := getHash userOp validUntil validAfter s in
  match ECDSA_recover (toEthSignedMessageHash hash) signature with
  | None => Revert ECDSAInvalidSignature
  | Some recovered =>
      require (recovered =? verifyingSigner s) InvalidSignature;;
      let target := _getTarget (callData userOp) in
      require (target =? phantomVault s) InvalidTarget;;
      let selector := _getSelector (callData userOp) in
      require (flag_at (whitelistedSelectors s) selector) SelectorNotWhitelisted;;
      s1 ← _checkAndUpdateDailyLimit now (sender userOp) s;
      mret (s1, mkValidation (sender userOp, maxCost)
                  (_packValidationData false validUntil validAfter))
  end.

(** [BasePaymaster.validatePaymasterUserOp]: only the EntryPoint may call. *)
Definition validatePaymasterUserOp (msg_sender : address) (now : uint256)
    (userOp : PackedUserOperation) (userOpHash : bytes32) (maxCost : uint256) (s : state)
    : result error (state * validation) :=
  require (msg_sender =? entryPoint s) (Error "Sender not EntryPoint");;
  _validatePaymasterUserOp now userOp userOpHash maxCost s.

Definition setVerifyingSigner (msg_sender _newSigner : address) (s : state)
    : result error state :=
  onlyOwner msg_sender s;;
  mret (set_verifyingSigner _newSigner (emit (SignerUpdated (verifyingSigner s) _newSigner) s)).

Definition setPhantomVault (msg_sender _vault : address) (s : state) : result error state :=
  onlyOwner msg_sender s;;
  mret (set_phantomVault _vault s).

Definition setMaxDailySponsored (msg_sender : address) (_max : uint256) (s : state)
    : result error state :=
  onlyOwner msg_sender s;;
  mret (set_maxDailySponsored _max s).

Definition whitelistSelector (msg_sender : address) (_selector : bytes4) (_status : bool)
    (s : state) : result error state :=
  onlyOwner msg_sender s;;
  mret (emit (SelectorWhitelisted _selector _status)
          (set_whitelistedSelectors (<[_selector := _status]> (whitelistedSelectors s)) s)).

Inductive call :=
| ValidatePaymasterUserOp (userOp : PackedUserOperation) (userOpHash : bytes32)
    (maxCost : uint256)
| SetVerifyingSigner (a : address)
| SetPhantomVault (a : address)
| SetMaxDailySponsored (m : uint256)
| WhitelistSelector (selector : bytes4) (status : bool).

Definition exec (msg_sender : address) (now : uint256) (c : call) (s : state)
    : result error state :=
  match c with
  | ValidatePaymasterUserOp op h cost =>
      fst <$> validatePaymasterUserOp msg_sender now op h cost s
  | SetVerifyingSigner a => setVerifyingSigner msg_sender a s
  | SetPhantomVault a => setPhantomVault msg_sender a s
  | SetMaxDailySponsored m => setMaxDailySponsored msg_sender m s
  | WhitelistSelector sel b => whitelistSelector msg_sender sel b s
  end.

Record tx := mkTx { tx_sender : address; tx_time : uint256; tx_call : call }.

Definition step (t : tx) (s : state) : state :=
  commit (exec (tx_sender t) (tx_time t) (tx_call t) s) s.

Definition run (txs : list tx) (s : state) : state :=
  fold_left (fun s t => step t s) txs s.

(** The cap is at least 1 and no count exceeds it. *)
Definition within_cap (s : state) : Prop :=
  1 <= maxDailySponsored s /\
  forall u, word_at (sponsoredTxCount s) u <= maxDailySponsored s.

(** A history in which the administrator never sets the daily cap below 1
    nor below a count already reached. A [setMaxDailySponsored] sent by
    anyone else is refused and is not constrained. *)
Fixpoint cap_respected (txs : list tx) (s : state) : Prop :=
  match txs with
  | [] => True
  | t :: rest =>
      match tx_call t with
      | SetMaxDailySponsored m =>
          tx_sender t = admin s ->
          1 <= m /\ forall u, word_at (sponsoredTxCount s) u <= m
      | _ => True
      end /\ cap_respected rest (step t s)
  end.
End Functions.

End PhantomPaymaster.

(** ** A reference instance of the primitives

    Used only to run the model on concrete inputs. It stands for no
    cryptography: the digest is a polynomial checksum, and the signature of
    a hash [h] by the address [a] is the 65 bytes [r = a], [s = h],
    [v = 27]. Every general theorem below is stated for an arbitrary
    instance of [Primitives]. *)

Module Reference.

Definition digest (bs : bytes) : bytes32 :=
  fold_left (fun acc b => (acc * 1000003 + byte_to_Z b + 1) mod 2 ^ 256) bs 1469598103.

Definition recover_vrs (h : bytes32) (v : Z) (r s : bytes32) : address :=
  if (s =? h) && (v =? 27) then r mod ADDRESS_MODULUS else 0.

Definition recover (h : bytes32) (sig : bytes) : option address :=
  if (length sig =? 65)%nat then
    let signer := recover_vrs h (calldataload sig 64 / 2 ^ 248) (calldataload sig 0)
                    (calldataload sig 32) in
    if signer =? 0 then None else Some signer
  else None.

Definition sign (signer : address) (h : bytes32) : bytes :=
  Z_to_be 32 signer ++ Z_to_be 32 h ++ [byte_of_Z 27].

Definition words (ws : list Z) : bytes := flat_map (Z_to_be 32) ws.

Definition array (xs : list Z) : list Z := Z.of_nat (length xs) :: xs.

Definition report_words (r : Vault.RiskReport) : list Z :=
  [Vault.portfolioScore r; Vault.concentrationRisk r; Vault.protocolRisk r;
   Vault.correlationRisk r; Vault.liquidityRisk r; Vault.leverageRatio r;
   Vault.timestamp r].

Definition primitives : Primitives := {|
  keccak256 := digest;
  ecrecover := recover_vrs;
  ECDSA_recover := recover;
  abi_encode_strategy_key := fun a ts als t => words (a :: array ts ++ array als ++ [t]);
  abi_encode_report := fun r => words (report_words r) ++ Vault.teeAttestation r;
  abi_encode_user_report := fun u r => words (u :: report_words r) ++ Vault.teeAttestation r;
  abi_encode_user_strategy := fun u h ts => words (u :: h :: array ts);
  abi_encode_sponsorship := fun a n h c t vu va => words [a; n; h; c; t; vu; va];
  encodeCall_initialize := fun o => Z_to_be 4 0xc4d66de8 ++ Z_to_be 32 o;
  abi_encode_proxy_args := fun i d => words [i; 64; Z.of_nat (length d)] ++ d;
  ERC1967Proxy_creationCode := [byte_of_Z 96; byte_of_Z 128; byte_of_Z 96; byte_of_Z 64];
  ERC1967Proxy_runtimeCode := [byte_of_Z 96; byte_of_Z 128];
  ERC1967Proxy_runtimeCode_nonempty := ltac:(discriminate)
|}.

End Reference.

(** ** Concrete ledger histories

    Inputs on which the model is run: a vault deployed by [deployer], a user
    [alice] who creates a portfolio and submits a strategy at time 1000, and
    a stranger [bob]. *)

Module VaultScenario.
Import Vault PhantomVault.

Definition prims : Primitives := Reference.primitives.

Definition deployer : address := 900.
Definition iApp : address := 500.
Definition alice : address := 100.
Definition bob : address := 555.

Definition s0 : state := constructor deployer iApp 501 502.

Definition create : tx := mkTx alice 1000 (CreatePortfolio 77 true 500).
Definition submit : tx := mkTx alice 1000 (SubmitStrategy [11; 12] [6000; 4000] [] 3600).

(** The fingerprint [submit] returns. *)
Definition fingerprint : bytes32 :=
  @keccak256 prims (@abi_encode_strategy_key prims alice [11; 12] [6000; 4000] 1000).

Definition execute : tx := mkTx bob 1000 (ExecuteStrategy fingerprint).

Definition s_created : state := @run prims [create] s0.
Definition s_submitted : state := @run prims [create; submit] s0.
Definition s_executed : state := @run prims [create; submit; execute] s0.

(** A strategy record carrying the same fingerprint, attested by the iApp
    for [alice], as [triggerAutoRebalance] takes it. *)
Definition attested : Strategy := mkStrategy fingerprint [11; 12] [6000; 4000] [] 4600 false.
Definition attestation : list byte :=
  Reference.sign iApp
    (@toEthSignedMessageHash prims
       (@keccak256 prims (@abi_encode_user_strategy prims alice fingerprint [11; 12]))).
Definition trigger_late : tx :=
  mkTx bob 9000 (TriggerAutoRebalance alice 600 attested attestation).

(** Calls that do not concern [fingerprint]: a portfolio of [bob], and the
    same strategy submitted by [alice] at another time, which files it
    under another fingerprint. *)
Definition create_bob : tx := mkTx bob 1100 (CreatePortfolio 5 false 10).
Definition submit_later : tx :=
  mkTx alice 1200 (SubmitStrategy [11; 12] [6000; 4000] [] 3600).

End VaultScenario.

(** An agent owned by [owner], with one session key scoped to the vault and
    to the selector of [executeStrategy(bytes32)], and two operations signed
    by that key. *)

Module AccountScenario.
Import Account PhantomAccount.

Definition prims : Primitives := Reference.primitives.

Definition owner : address := 100.
Definition vault : address := 300.
Definition sessionKey : address := 700.
Definition mallory : address := 666.

(** Selectors of the vault, as four-byte numbers. *)
Definition sel_executeStrategy : bytes4 := 0x11111111.
Definition sel_updatePortfolio : bytes4 := 0x22222222.

Definition s0 : state :=
  commit (initialize owner (fresh 400 vault)) (fresh 400 vault).

Definition s_key : state :=
  commit (createSessionKey owner sessionKey 5000 0 [vault] [sel_executeStrategy] s0) s0.

Definition userOpHash : bytes32 := 424242.

(** [execute(target, 0, data)] where [data] starts with [inner]. *)
Definition execute_call (target : address) (inner : bytes4) : list byte :=
  Z_to_be 4 execute_selector ++ Z_to_be 32 target ++ Z_to_be 32 0 ++ Z_to_be 32 96
    ++ Z_to_be 32 36 ++ Z_to_be 4 inner ++ Z_to_be 32 1 ++ Z_to_be 28 0.

Definition signed_by (k : address) (data : list byte) : PackedUserOperation :=
  mkUserOp 800 0 [] data 0 0 0 []
    (Reference.sign k (@toEthSignedMessageHash prims userOpHash)).

(** The session key calls [updatePortfolio] on the vault: allowed target,
    selector outside the allowed list. *)
Definition op_other_selector : PackedUserOperation :=
  signed_by sessionKey (execute_call vault sel_updatePortfolio).

(** The session key sends call data that is not an [execute] call (its
    first four bytes are not the selector of [execute]) and names [mallory]
    where a target would stand. *)
Definition op_not_execute : PackedUserOperation :=
  signed_by sessionKey (Z_to_be 4 0x12345678 ++ Z_to_be 32 mallory ++ Z_to_be 32 0).

End AccountScenario.

(** A paymaster with its default configuration, and operations of the
    user [user] co-signed by the verifying signer. *)

Module PaymasterScenario.
Import PhantomPaymaster.

Definition prims : Primitives := Reference.primitives.

Definition this : address := 600.
Definition entryPoint : address := 400.
Definition admin : address := 900.
Definition signer : address := 500.
Definition vault : address := 300.
Definition user : address := 800.

Definition s0 : state := @constructor prims this 1 entryPoint admin signer vault.

Definition sel_executeStrategy : bytes4 := @selector_of prims "executeStrategy(bytes32)".

(** [data] as the call data of an operation of [user], with the paymaster
    fields: the paymaster address, two 16-byte gas limits, the co-signature
    over the hash of the operation, and the validity window. *)
Definition sponsored (data : list byte) (validUntil validAfter : Z) : PackedUserOperation :=
  let unsigned := mkUserOp user 0 [] data 0 0 0 [] [] in
  mkUserOp user 0 [] data 0 0 0
    (Z_to_be 20 this ++ Z_to_be 32 0
       ++ Reference.sign signer
            (@toEthSignedMessageHash prims (@getHash prims unsigned validUntil validAfter s0))
       ++ Z_to_be 6 validUntil ++ Z_to_be 6 validAfter)
    [].

(** [execute(vault, 0, executeStrategy(1))]: the agent's call to the vault. *)
Definition op_execute_vault : PackedUserOperation :=
  sponsored (AccountScenario.execute_call vault sel_executeStrategy) 9999999 0.

(** Call data that starts with the selector of [executeStrategy] and holds
    the 20 bytes of the vault address at offset 28. *)
Definition op_crafted : PackedUserOperation :=
  sponsored (Z_to_be 4 sel_executeStrategy ++ Z_to_be 24 0 ++ Z_to_be 20 vault) 9999999 0.

Definition validate (now : Z) (op : PackedUserOperation) : tx :=
  mkTx entryPoint now (ValidatePaymasterUserOp op 0 1000).

(** The administrator also whitelists the selector of [execute]. *)
Definition s_whitelisted : state :=
  @run prims [mkTx admin 50 (WhitelistSelector PhantomAccount.execute_selector true)] s0.

End PaymasterScenario.

(** A factory whose implementation (at 1001) is deployed, on a chain where
    no address it derives holds code yet. *)

Module FactoryScenario.
Import PhantomAccountFactory.

Definition prims : Primitives := Reference.primitives.

Definition s0 : state := mkState 1000 1001 400 300 ∅ 0 {[1001 := [byte_of_Z 96]]} ∅ [].
Definition alice : address := 100.
Definition bob : address := 555.

End FactoryScenario.

(** ** Further functions of the contracts

    The view functions, the histories of the execution agent and the
    deployment script, over the state records above. *)

Module PhantomVaultViews.
Import Vault PhantomVault.

Definition getRiskHistory (user : address) (s : state) : list RiskReport :=
  riskHistory s !!! user.

Definition getLatestRiskReport (user : address) (s : state) : RiskReport :=
  let history := riskHistory s !!! user in
  if (length history =? 0)%nat then mkRiskReport 0 0 0 0 0 0 0 []
  else history !!! (length history - 1)%nat.

(** The administrative settings of the vault. *)
Definition config (s : state) :=
  (trustedIApp s, trustedWorkerpool s, minRebalanceInterval s, executionFeeBps s,
   feeRecipient s, paused s, admin s).

(** The calls guarded by [whenNotPaused]. *)
Definition is_guarded (c : call) : bool :=
  match c with
  | CreatePortfolio _ _ _ | UpdatePortfolio _ _ _ | SubmitRiskAnalysis _ _ _
  | SubmitStrategy _ _ _ _ | ExecuteStrategy _ | TriggerAutoRebalance _ _ _ _ => true
  | _ => false
  end.

Definition is_PortfolioCreated (e : event) : bool :=
  match e with PortfolioCreated _ _ _ => true | _ => false end.

(** The two events that go with an increment of [totalStrategiesExecuted]. *)
Definition is_execution (e : event) : bool :=
  match e with
  | StrategyExecuted _ _ _ | AutoRebalanceTriggered _ _ _ => true
  | _ => false
  end.

Definition count (p : event -> bool) (log : list event) : Z :=
  Z.of_nat (length (List.filter p log)).

(** Every record sits under its own hash, or is empty. *)
Definition keyed (s : state) : Prop :=
  forall k, strategyHash (strategies s !!! k) = 0 \/ strategyHash (strategies s !!! k) = k.

End PhantomVaultViews.

(** The deployment script [DeployPhantom.run]: the vault is deployed with
    the zero address as trusted iApp, to be set later, and the paymaster with
    the deployer as owner and as verifying signer. *)

Module DeployPhantom.

Definition ENTRY_POINT : address := 0x0000000071727De22E5E9d8BAf0edAc6f37da032.
Definition IEXEC_WORKERPOOL : address := 0x2C06263943180Cc024dAFfeEe15612DB6e5fD248.

Definition vault (deployer : address) : PhantomVault.state :=
  PhantomVault.constructor deployer 0 IEXEC_WORKERPOOL deployer.

Definition paymaster {prims : Primitives} (deployer this chainid vaultAddress : address)
    : PhantomPaymaster.state :=
  PhantomPaymaster.constructor this chainid ENTRY_POINT deployer deployer vaultAddress.

End DeployPhantom.

(** Histories of an execution agent: its initializer and the three
    key-management functions. *)

Module AccountHistory.
Import Account PhantomAccount.

Inductive call :=
| Initialize (_owner : address)
| CreateSessionKey (key : address) (validUntil spendLimit : uint256)
    (allowedTargets : list address) (allowedSelectors : list bytes4)
| CreatePhantomSessionKey (key : address) (duration : uint256)
| RevokeSessionKey (key : address).

Record tx := mkTx { tx_sender : address; tx_time : uint256; tx_call : call }.

Section Functions.
Context {prims : Primitives}.

Definition exec (msg_sender : address) (now : uint256) (c : call) (s : state)
    : result error state :=
  match c with
  | Initialize o => initialize o s
  | CreateSessionKey k v l ts sels => createSessionKey msg_sender k v l ts sels s
  | CreatePhantomSessionKey k d => createPhantomSessionKey msg_sender now k d s
  | RevokeSessionKey k => revokeSessionKey msg_sender k s
  end.

Definition step (t : tx) (s : state) : state :=
  commit (exec (tx_sender t) (tx_time t) (tx_call t) s) s.

Definition run (txs : list tx) (s : state) : state :=
  fold_left (fun s t => step t s) txs s.
End Functions.

End AccountHistory.

(** Successive limit checks for one user at one time. *)

Module PaymasterQuota.
Import PhantomPaymaster.

Fixpoint checks (n : nat) (now : uint256) (user : address) (s : state)
    : result error state :=
  match n with
  | O => Ok s
  | S n' => s' ← _checkAndUpdateDailyLimit now user s; checks n' now user s'
  end.

(** The settings only the administrator writes. *)
Definition config (s : state) :=
  (verifyingSigner s, phantomVault s, maxDailySponsored s, whitelistedSelectors s).

End PaymasterQuota.

(** Inputs for the further properties: a risk report for [alice] attested by
    the iApp, and a signature that recovers to no address. *)

Module CoverageScenario.
Import Vault PhantomVault.

Definition prims : Primitives := Reference.primitives.

Definition report : RiskReport := mkRiskReport 80 10 20 30 40 2 1500 [].

Definition report_attestation : list byte :=
  Reference.sign VaultScenario.iApp
    (@toEthSignedMessageHash prims
       (@keccak256 prims (@abi_encode_user_report prims VaultScenario.alice report))).

(** 65 bytes that are no signature of anything: [ecrecover] gives zero. *)
Definition garbage : list byte := Z_to_be 65 0.

(** The vault as the deployment script leaves it, with alice's portfolio. *)
Definition s_deployed : state :=
  @run prims [VaultScenario.create] (DeployPhantom.vault VaultScenario.deployer).

End CoverageScenario.

(** Readings of the agent's log and state used by the invariants. *)

Module AccountViews.
Import Account PhantomAccount.

(** Keys of the [SessionKeyCreated] events, in order. *)
Fixpoint created_keys (log : list event) : list address :=
  match log with
  | [] => []
  | SessionKeyCreated k _ _ :: rest => k :: created_keys rest
  | _ :: rest => created_keys rest
  end.

(** An operation signed with the 65 bytes [sig] whose call data is
    [execute(target, value, data)]. *)
Definition is_execute_call (userOp : PackedUserOperation) : Prop :=
  (36 <= length (callData userOp))%nat /\
  be_to_Z (slice 0 4 (callData userOp)) = execute_selector /\
  be_to_Z (slice 4 36 (callData userOp)) < ADDRESS_MODULUS.

End AccountViews.

(** Readings of the factory's state used by its invariants. *)

Module FactoryViews.
Import PhantomAccountFactory.

(** The agent a new deployment stores: the fresh storage of a proxy after
    [initialize(owner)]. *)
Definition deployed_agent (owner : address) (s : state) : PhantomAccount.state :=
  PhantomAccount.emit (PhantomAccount.Initialized 1)
    (PhantomAccount.set_owner owner
       (PhantomAccount.set_initialized true
          (PhantomAccount.fresh (entryPoint s) (phantomVault s)))).

(** Every logged agent has code and is stored, initialized and owned as
    logged; the counter is the length of the log. *)
Definition agents_stored (s : state) : Prop :=
  (forall o a salt, In (AccountCreated o a salt) (events s) ->
     code s !!! a <> [] /\
     exists agent, accounts s !! a = Some agent
       /\ PhantomAccount.owner agent = o /\ PhantomAccount.initialized agent = true) /\
  totalAccounts s = Z.of_nat (length (events s)).

End FactoryViews.

(** Inputs for the further properties of the sponsor: the paymaster after
    one sponsored operation of [user], and that operation with other gas
    fields, init code and signature. *)

Module SponsorScenario.
Import PhantomPaymaster.

Definition s_once : state :=
  @run PaymasterScenario.prims
    [PaymasterScenario.validate 100000 PaymasterScenario.op_crafted] PaymasterScenario.s0.

Definition op_regassed : PackedUserOperation :=
  mkUserOp (sender PaymasterScenario.op_crafted) (nonce PaymasterScenario.op_crafted)
    (Z_to_be 1 1) (callData PaymasterScenario.op_crafted) 7 8 9
    (paymasterAndData PaymasterScenario.op_crafted) (Z_to_be 65 2).

End SponsorScenario.

(** Inputs for the further properties of the agent: operations signed by
    the owner and by the session key, and the agent after the owner has
    issued the key with [createPhantomSessionKey] at time 1000 for an hour. *)

Module AgentScenario.
Import Account PhantomAccount.

Definition op_owner : PackedUserOperation :=
  AccountScenario.signed_by AccountScenario.owner
    (AccountScenario.execute_call AccountScenario.mallory AccountScenario.sel_updatePortfolio).

Definition op_key_vault : PackedUserOperation :=
  AccountScenario.signed_by AccountScenario.sessionKey
    (AccountScenario.execute_call AccountScenario.vault AccountScenario.sel_executeStrategy).

Definition s_automated : state :=
  commit (@createPhantomSessionKey AccountScenario.prims AccountScenario.owner 1000
            AccountScenario.sessionKey 3600 AccountScenario.s0) AccountScenario.s0.

End AgentScenario.

(** * Theorems *)

(** ** Facts about byte strings *)

Module BytesFacts.

Lemma byte_to_Z_range b : 0 <= byte_to_Z b < 256.
Proof.
  unfold byte_to_Z. pose proof (Byte.to_N_bounded b) as H. lia.
Qed.

Lemma byte_to_of_Z z : byte_to_Z (byte_of_Z z) = z mod 256.
Proof.
  unfold byte_of_Z, byte_to_Z.
  assert (Hr : 0 <= z mod 256 < 256) by (apply Z.mod_pos_bound; lia).
  destruct (Byte.of_N (Z.to_N (z mod 256))) as [b|] eqn:E.
  - apply Byte.to_of_N in E. rewrite E. lia.
  - apply Byte.of_N_None_iff in E. lia.
Qed.

Lemma be_to_Z_acc bs : forall acc,
  fold_left (fun acc b => acc * 256 + byte_to_Z b) bs acc
  = acc * 256 ^ Z.of_nat (length bs) + be_to_Z bs.
Proof.
  unfold be_to_Z. induction bs as [|b bs IH]; intros acc; simpl fold_left.
  - simpl. lia.
  - rewrite IH. rewrite (IH (0 * 256 + byte_to_Z b)).
    rewrite length_cons, Nat2Z.inj_succ, Z.pow_succ_r by lia. lia.
Qed.

Lemma be_to_Z_app a b :
  be_to_Z (a ++ b) = be_to_Z a * 256 ^ Z.of_nat (length b) + be_to_Z b.
Proof.
  unfold be_to_Z at 1. rewrite fold_left_app.
  rewrite be_to_Z_acc. reflexivity.
Qed.

Lemma be_to_Z_range bs : 0 <= be_to_Z bs < 256 ^ Z.of_nat (length bs).
Proof.
  induction bs as [|b bs IH] using rev_ind.
  - simpl. unfold be_to_Z. simpl. lia.
  - rewrite be_to_Z_app, length_app.
    change (256 ^ Z.of_nat (length [b])) with 256.
    replace (be_to_Z [b]) with (byte_to_Z b) by (unfold be_to_Z; simpl; lia).
    pose proof (byte_to_Z_range b).
    rewrite Nat2Z.inj_add, Z.pow_add_r by lia.
    change (256 ^ Z.of_nat (length [b])) with 256. lia.
Qed.

Lemma length_Z_to_be n : forall z, length (Z_to_be n z) = n.
Proof.
  induction n as [|n IH]; intros z; simpl; [reflexivity|].
  rewrite length_app, IH. simpl. lia.
Qed.

Lemma be_to_Z_to_be n : forall z, be_to_Z (Z_to_be n z) = z mod 256 ^ Z.of_nat n.
Proof.
  induction n as [|n IH]; intros z.
  - simpl. unfold be_to_Z. simpl. now rewrite Z.mod_1_r.
  - simpl Z_to_be. rewrite be_to_Z_app, IH.
    change (256 ^ Z.of_nat (length [byte_of_Z z])) with 256.
    replace (be_to_Z [byte_of_Z z]) with (z mod 256)
      by (unfold be_to_Z; simpl; rewrite byte_to_of_Z; lia).
    rewrite Nat2Z.inj_succ, Z.pow_succ_r by lia.
    rewrite Z.rem_mul_r by lia. lia.
Qed.

Lemma drop_Z_to_be n : forall k z,
  (k <= n)%nat -> drop k (Z_to_be n z) = Z_to_be (n - k) z.
Proof.
  induction n as [|n IH]; intros k z Hk.
  - replace k with 0%nat by lia. reflexivity.
  - destruct (decide (k = S n)) as [->|Hne].
    + rewrite Nat.sub_diag. simpl Z_to_be at 2.
      apply drop_ge. rewrite length_Z_to_be. lia.
    + simpl Z_to_be at 1. rewrite drop_app_le by (rewrite length_Z_to_be; lia).
      rewrite IH by lia. replace (S n - k)%nat with (S (n - k)) by lia. reflexivity.
Qed.

Lemma take_Z_to_be n : forall k z,
  (k <= n)%nat -> take k (Z_to_be n z) = Z_to_be k (z / 256 ^ Z.of_nat (n - k)).
Proof.
  induction n as [|n IH]; intros k z Hk.
  - replace k with 0%nat by lia. reflexivity.
  - destruct (decide (k = S n)) as [->|Hne].
    + rewrite Nat.sub_diag. change (256 ^ Z.of_nat 0) with 1. rewrite Z.div_1_r.
      apply take_ge. rewrite length_Z_to_be. lia.
    + simpl Z_to_be at 1. rewrite take_app_le by (rewrite length_Z_to_be; lia).
      rewrite IH by lia. f_equal.
      replace (S n - k)%nat with (S (n - k)) by lia.
      rewrite Nat2Z.inj_succ, Z.pow_succ_r by lia.
      rewrite Z.div_div by lia. reflexivity.
Qed.

(** The word at offset 16 of an ABI call [sel(target, value, ...)]: the 20
    address bytes of [target] followed by the 12 high bytes of [value]. *)
Lemma calldataload_16_of_call sel target value rest :
  calldataload (Z_to_be 4 sel ++ Z_to_be 32 target ++ Z_to_be 32 value ++ rest) 16
  = (target mod 2 ^ 160) * 2 ^ 96 + (value / 2 ^ 160) mod 2 ^ 96.
Proof.
  unfold calldataload.
  rewrite drop_app_ge by (rewrite length_Z_to_be; lia).
  rewrite length_Z_to_be. change (16 - 4)%nat with 12%nat.
  rewrite drop_app_le by (rewrite length_Z_to_be; lia).
  rewrite drop_Z_to_be by lia. change (32 - 12)%nat with 20%nat.
  rewrite <- ?app_assoc.
  rewrite take_app_ge by (rewrite length_Z_to_be; lia).
  rewrite length_Z_to_be. change (32 - 20)%nat with 12%nat.
  rewrite take_app_le by (rewrite length_Z_to_be; lia).
  rewrite take_Z_to_be by lia. change (32 - 12)%nat with 20%nat.
  rewrite be_to_Z_app, !be_to_Z_to_be, length_Z_to_be.
  change (256 ^ Z.of_nat 20) with (2 ^ 160).
  change (256 ^ Z.of_nat 12) with (2 ^ 96).
  reflexivity.
Qed.

End BytesFacts.

(** ** Properties of PhantomVault *)

Module VaultFacts.
Import Vault PhantomVault VaultHistory.

(** Unfolds the monadic plumbing of a call. *)
Ltac unfold_call :=
  unfold whenNotPaused, whenPaused, onlyOwner, PhantomVault.checked_add, require in *;
  unfold mbind, mret, fmap, result_bind, result_ret, result_fmap in *.

(** Splits on the next test of a call whose result is known. *)
Ltac split_tests :=
  repeat match goal with
  | H : context [if ?b then _ else _] |- _ => destruct b eqn:?; try discriminate H
  | H : context [match ?r with Ok _ => _ | Revert _ => _ end] |- _ =>
      destruct r eqn:?; try discriminate H
  end.

Section WithPrimitives.
Context {prims : Primitives}.

Lemma vault_run_cons t txs s : run (t :: txs) s = run txs (step t s).
Proof. reflexivity. Qed.

Lemma executeStrategy_ok msg_sender now h s s' :
  executeStrategy msg_sender now h s = Ok s' ->
  paused s = false /\
  strategyHash (strategies s !!! h) <> 0 /\
  executed (strategies s !!! h) = false /\
  now <= validUntil (strategies s !!! h) /\
  strategies s' = <[h := set_executed true (strategies s !!! h)]> (strategies s) /\
  paused s' = false.
Proof.
  unfold executeStrategy, _executeRebalance. unfold_call. intros H. split_tests.
  injection H as <-. simpl.
  repeat split; try reflexivity.
  - now destruct (paused s).
  - intros E. rewrite E in *. discriminate.
  - now destruct (executed _).
  - apply Z.ltb_ge. now destruct (_ <? _).
  - now destruct (paused s).
Qed.

Lemma executeStrategy_strategies msg_sender now h s :
  strategies (commit (executeStrategy msg_sender now h s) s) = strategies s \/
  (now <= validUntil (strategies s !!! h) /\ executed (strategies s !!! h) = false /\
   strategies (commit (executeStrategy msg_sender now h s) s)
     = <[h := set_executed true (strategies s !!! h)]> (strategies s)).
Proof.
  destruct (executeStrategy msg_sender now h s) as [s'|e] eqn:E; simpl; [|now left].
  apply executeStrategy_ok in E as (_ & _ & ? & ? & ? & _). right. auto.
Qed.

Lemma triggerAutoRebalance_strategies msg_sender now user deviation strategy sig s s' :
  triggerAutoRebalance msg_sender now user deviation strategy sig s = Ok s' ->
  strategies s' = <[strategyHash strategy := set_executed true strategy]> (strategies s).
Proof.
  unfold triggerAutoRebalance, _executeRebalance, _verifyStrategySignature. unfold_call.
  intros H. split_tests. injection H as <-. simpl.
  rewrite lookup_total_insert_eq. apply insert_insert_eq.
Qed.

(** Calls other than the three strategy calls leave the registry alone. *)
Lemma exec_other_strategies msg_sender now c s s' :
  is_submit c = false -> is_trigger c = false -> is_execute c = false ->
  exec msg_sender now c s = Ok s' -> strategies s' = strategies s.
Proof.
  intros Hs Ht He H. destruct c; try discriminate; simpl in H.
  all: unfold createPortfolio, updatePortfolio, submitRiskAnalysis, setTrustedIApp,
         setTrustedWorkerpool, setFees, setMinRebalanceInterval, pause, unpause,
         _verifyTEESignature in H;
       unfold_call; split_tests; injection H as <-; reflexivity.
Qed.

Lemma submitStrategy_strategies msg_sender now assets allocs sig period s s' h :
  submitStrategy msg_sender now assets allocs sig period s = Ok (s', h) ->
  exists deadline,
    strategies s' = <[h := mkStrategy h assets allocs sig deadline false]> (strategies s).
Proof.
  unfold submitStrategy. unfold_call. intros H. split_tests. injection H as <- <-.
  eexists. reflexivity.
Qed.

(** What one transaction does to the record filed under [k]: nothing; or
    it is a successful [submitStrategy] returning [k]; or a successful
    [triggerAutoRebalance] of a strategy with hash [k], which files that
    strategy as executed; or a successful [executeStrategy] of [k], in time
    and on an unexecuted record, which marks it executed. *)
Lemma step_record k t s :
  strategies (step t s) !!! k = strategies s !!! k \/
  submits k t s = true \/
  (triggers k t s = true /\
   exists st, strategyHash st = k /\ strategies (step t s) !!! k = set_executed true st) \/
  (executed (strategies s !!! k) = false /\ tx_time t <= validUntil (strategies s !!! k) /\
   strategies (step t s) !!! k = set_executed true (strategies s !!! k)).
Proof.
  unfold step, submits, triggers.
  destruct (exec _ _ _ s) as [s'|e] eqn:E; simpl; [|now left].
  destruct (is_submit (tx_call t)) eqn:Hs;
    [|destruct (is_trigger (tx_call t)) eqn:Ht;
      [|destruct (is_execute (tx_call t)) eqn:He]].
  - destruct (tx_call t); try discriminate Hs. simpl in E.
    unfold fmap, result_fmap in E.
    destruct (submitStrategy _ _ _ _ _ _ s) as [[s1 h]|] eqn:Es; [|discriminate E].
    injection E as <-. apply submitStrategy_strategies in Es as (deadline & ->).
    destruct (decide (h = k)) as [->|Hne].
    + right. left. apply Z.eqb_refl.
    + left. now rewrite lookup_total_insert_ne.
  - destruct (tx_call t); try discriminate Ht. simpl in E.
    pose proof (triggerAutoRebalance_strategies _ _ _ _ _ _ _ _ E) as ->.
    destruct (decide (strategyHash strategy = k)) as [Hk|Hne].
    + right. right. left. rewrite E. simpl. split; [now apply Z.eqb_eq|].
      exists strategy. split; [assumption|]. subst k. now rewrite lookup_total_insert_eq.
    + left. now rewrite lookup_total_insert_ne.
  - destruct (tx_call t); try discriminate He. simpl in E.
    apply executeStrategy_ok in E as (_ & _ & Hx & Hle & -> & _).
    destruct (decide (h = k)) as [->|Hne].
    + right. right. right. rewrite lookup_total_insert_eq. auto.
    + left. now rewrite lookup_total_insert_ne.
  - left. now rewrite (exec_other_strategies _ _ _ _ _ Hs Ht He E).
Qed.

(** The executed flag of a record survives every transaction but a
    successful [submitStrategy] that returns its fingerprint. *)
Lemma step_keeps_executed k t s :
  submits k t s = false ->
  executed (strategies s !!! k) = true ->
  executed (strategies (step t s) !!! k) = true.
Proof.
  intros Hs Hk.
  destruct (step_record k t s) as [->|[H|[(_ & st & _ & ->)|(H & _)]]];
    [assumption|congruence|reflexivity|congruence].
Qed.

Lemma run_keeps_executed txs : forall s k,
  never (submits k) txs s = true ->
  executed (strategies s !!! k) = true ->
  executed (strategies (run txs s) !!! k) = true.
Proof.
  induction txs as [|t txs IH]; intros s k Hall Hk; [assumption|].
  rewrite vault_run_cons. simpl in Hall.
  apply andb_true_iff in Hall as (Hs & Hrest). apply negb_true_iff in Hs.
  apply IH; [assumption|]. now apply step_keeps_executed.
Qed.

(** A known, executed record filed under a fingerprint other than zero stays
    known and executed. *)
Lemma run_known_executed h txs : forall s,
  h <> 0 ->
  never (submits h) txs s = true ->
  strategyHash (strategies s !!! h) <> 0 /\ executed (strategies s !!! h) = true ->
  strategyHash (strategies (run txs s) !!! h) <> 0
    /\ executed (strategies (run txs s) !!! h) = true.
Proof.
  induction txs as [|t txs IH]; intros s Hh Hall Hinv; [assumption|].
  rewrite vault_run_cons. simpl in Hall.
  apply andb_true_iff in Hall as (Hs & Hrest). apply negb_true_iff in Hs.
  apply IH; [assumption|assumption|]. destruct Hinv as (Hk & Hx).
  destruct (step_record h t s) as [->|[H|[(_ & st & Hst & ->)|(H & _)]]];
    [auto|congruence| |congruence].
  simpl. rewrite Hst. auto.
Qed.

(** Past its deadline, an unexecuted record is left as it is by every
    transaction but a successful [submitStrategy] or [triggerAutoRebalance]
    under its fingerprint. *)
Lemma step_expired_stays k t s :
  submits k t s = false -> triggers k t s = false ->
  validUntil (strategies s !!! k) < tx_time t ->
  executed (strategies s !!! k) = false ->
  strategies (step t s) !!! k = strategies s !!! k.
Proof.
  intros Hs Ht Hlate Hx.
  destruct (step_record k t s) as [H|[H|[(H & _)|(_ & H & _)]]];
    [assumption|congruence|congruence|lia].
Qed.

Lemma run_expired_stays k txs : forall s,
  never (submits k) txs s = true -> never (triggers k) txs s = true ->
  Forall (fun t => validUntil (strategies s !!! k) < tx_time t) txs ->
  executed (strategies s !!! k) = false ->
  strategies (run txs s) !!! k = strategies s !!! k.
Proof.
  induction txs as [|t txs IH]; intros s Hsub Htrig Hall Hx; [reflexivity|].
  rewrite vault_run_cons. simpl in Hsub, Htrig.
  apply andb_true_iff in Hsub as (Hs & Hsub). apply negb_true_iff in Hs.
  apply andb_true_iff in Htrig as (Ht & Htrig). apply negb_true_iff in Ht.
  inversion Hall as [|? ? Hlate Hrest]; subst.
  pose proof (step_expired_stays k t s Hs Ht Hlate Hx) as Hsame.
  rewrite IH; try assumption.
  - now rewrite Hsame.
  - now rewrite Hsame.
Qed.

End WithPrimitives.
End VaultFacts.

(** ** Claims about the vault *)

Module VaultClaims.
Import Vault PhantomVault VaultHistory VaultFacts.

(** C2, in the form the code satisfies. (i) A record whose [executed]
    flag is true keeps it over any history in which no [submitStrategy]
    succeeds and returns its fingerprint. (ii) An unexecuted record stays
    unexecuted over any history whose calls all come after its deadline and
    in which no [submitStrategy] succeeds and returns its fingerprint and no
    [triggerAutoRebalance] succeeds with a strategy of that hash.
    (iii) On an unpaused vault, [executeStrategy] on a known, unexecuted
    record after its deadline fails with [StrategyExpired]; (iv) on a known,
    executed record it fails with [StrategyAlreadyExecuted] at every time,
    before or after the deadline. *)
Theorem C2_executed_lifecycle {prims : Primitives} :
  (forall txs s k,
     never (submits k) txs s = true ->
     executed (strategies s !!! k) = true ->
     executed (strategies (run txs s) !!! k) = true) /\
  (forall txs s k,
     never (submits k) txs s = true -> never (triggers k) txs s = true ->
     Forall (fun t => validUntil (strategies s !!! k) < tx_time t) txs ->
     executed (strategies s !!! k) = false ->
     executed (strategies (run txs s) !!! k) = false) /\
  (forall msg_sender now h s,
     paused s = false ->
     strategyHash (strategies s !!! h) <> 0 ->
     executed (strategies s !!! h) = false ->
     validUntil (strategies s !!! h) < now ->
     executeStrategy msg_sender now h s = Revert StrategyExpired) /\
  (forall msg_sender now h s,
     paused s = false ->
     strategyHash (strategies s !!! h) <> 0 ->
     executed (strategies s !!! h) = true ->
     executeStrategy msg_sender now h s = Revert StrategyAlreadyExecuted).
Proof.
  split; [|split; [|split]].
  - intros txs s k. apply run_keeps_executed.
  - intros txs s k Hsub Htrig Hall Hx.
    now rewrite (run_expired_stays k txs s Hsub Htrig Hall Hx).
  - intros msg_sender now h s Hp Hh Hx Hlate.
    unfold executeStrategy. unfold_call. rewrite Hp, Hx. simpl.
    destruct (strategyHash (strategies s !!! h) =? 0) eqn:E.
    + apply Z.eqb_eq in E. contradiction.
    + simpl. apply Z.ltb_lt in Hlate. now rewrite Hlate.
  - intros msg_sender now h s Hp Hh Hx.
    unfold executeStrategy. unfold_call. rewrite Hp, Hx. simpl.
    destruct (strategyHash (strategies s !!! h) =? 0) eqn:E; [|reflexivity].
    apply Z.eqb_eq in E. contradiction.
Qed.

(** C2 on the scenario: the executed strategy stays executed over a
    history with a portfolio of bob, a submission under another fingerprint
    and a late [triggerAutoRebalance]; after the deadline (4600) the
    submitted strategy stays unexecuted over bob's portfolio, a submission
    under another fingerprint and an [executeStrategy], which fails with
    [StrategyExpired]. *)
Lemma C2_executed_lifecycle_witness :
  executed (strategies (@run VaultScenario.prims
                          [VaultScenario.create_bob; VaultScenario.submit_later;
                           VaultScenario.trigger_late]
                          VaultScenario.s_executed) !!! VaultScenario.fingerprint) = true /\
  executed (strategies (@run VaultScenario.prims
                          [mkTx VaultScenario.bob 5000 (CreatePortfolio 5 false 10);
                           mkTx VaultScenario.alice 6000
                             (SubmitStrategy [11; 12] [6000; 4000] [] 3600);
                           mkTx VaultScenario.bob 9000
                             (ExecuteStrategy VaultScenario.fingerprint)]
                          VaultScenario.s_submitted) !!! VaultScenario.fingerprint) = false /\
  executeStrategy VaultScenario.bob 9000 VaultScenario.fingerprint VaultScenario.s_submitted
    = Revert StrategyExpired.
Proof.
  destruct (@C2_executed_lifecycle VaultScenario.prims) as (H1 & H2 & H3 & _).
  split; [|split].
  - apply H1; vm_compute; reflexivity.
  - apply H2; [vm_compute; reflexivity|vm_compute; reflexivity| |vm_compute; reflexivity].
    constructor; [vm_compute; reflexivity|].
    constructor; [vm_compute; reflexivity|].
    constructor; [vm_compute; reflexivity|constructor].
  - apply H3; vm_compute; [reflexivity | discriminate | reflexivity | reflexivity].
Defined.

(** C2 as stated fails: (1) after its deadline an executed strategy is
    refused with [StrategyAlreadyExecuted], not [StrategyExpired];
    (2) submitting the same strategy again at the same timestamp resets
    [executed] to false; (3) [triggerAutoRebalance] marks a strategy executed
    after its deadline. *)
Lemma C2_counterexample :
  validUntil (strategies VaultScenario.s_executed !!! VaultScenario.fingerprint) = 4600 /\
  executeStrategy VaultScenario.bob 9000 VaultScenario.fingerprint VaultScenario.s_executed
    = Revert StrategyAlreadyExecuted /\
  executed (strategies VaultScenario.s_executed !!! VaultScenario.fingerprint) = true /\
  executed (strategies (@run VaultScenario.prims [VaultScenario.submit]
                          VaultScenario.s_executed) !!! VaultScenario.fingerprint) = false /\
  executed (strategies VaultScenario.s_submitted !!! VaultScenario.fingerprint) = false /\
  executed (strategies (@run VaultScenario.prims [VaultScenario.trigger_late]
                          VaultScenario.s_submitted) !!! VaultScenario.fingerprint) = true.
Proof. vm_compute. repeat split. Qed.


(** The bound [createPortfolio] does enforce: a threshold above 5000 is
    refused, and a successful call stores a threshold of at most 5000. *)
Lemma createPortfolio_threshold_bound msg_sender now id auto threshold s :
  (5000 < threshold -> paused s = false ->
   createPortfolio msg_sender now id auto threshold s = Revert InvalidParameters) /\
  (forall s', createPortfolio msg_sender now id auto threshold s = Ok s' ->
     rebalanceThreshold (getPortfolio msg_sender s') = threshold /\ threshold <= 5000).
Proof.
  unfold createPortfolio. unfold_call. split.
  - intros Hbig Hp. rewrite Hp. simpl. apply Z.ltb_lt in Hbig. rewrite Hbig.
    now destruct (id =? 0).
  - intros s' H. split_tests. injection H as <-. unfold getPortfolio. simpl.
    rewrite lookup_total_insert_eq. simpl. split; [reflexivity|].
    apply Z.ltb_ge. now destruct (5000 <? threshold).
Qed.
(** C4 (defect of [updatePortfolio]). On an unpaused vault, for a caller who
    owns a portfolio, [updatePortfolio] succeeds and stores the threshold it
    is given, whatever its value: the bound of 5000 that [createPortfolio]
    enforces is not checked. *)
Theorem C4_updatePortfolio_stores_any_threshold msg_sender now newId auto threshold s :
  paused s = false ->
  owner (portfolios s !!! msg_sender) <> 0 ->
  exists s',
    updatePortfolio msg_sender now newId auto threshold s = Ok s' /\
    rebalanceThreshold (getPortfolio msg_sender s') = threshold.
Proof.
  intros Hp Ho. unfold updatePortfolio. unfold_call. rewrite Hp. simpl.
  destruct (owner (portfolios s !!! msg_sender) =? 0) eqn:E.
  - apply Z.eqb_eq in E. contradiction.
  - simpl. eexists. split; [reflexivity|].
    unfold getPortfolio. simpl. now rewrite lookup_total_insert_eq.
Qed.

(** The failing input of C4: alice, whose portfolio was created with
    threshold 500, updates it to 6000. *)
Lemma C4_updatePortfolio_stores_any_threshold_witness :
  exists s',
    updatePortfolio VaultScenario.alice 2000 0 true 6000 VaultScenario.s_created = Ok s' /\
    rebalanceThreshold (getPortfolio VaultScenario.alice s') = 6000.
Proof.
  apply C4_updatePortfolio_stores_any_threshold.
  - vm_compute. reflexivity.
  - vm_compute. discriminate.
Defined.

(** C5, in the form the code satisfies. (i) [isStrategyValid] is true
    exactly when the record is known (its stored hash is not zero), not
    executed, and the time is at most its deadline. After a successful
    [executeStrategy], over any later history in which no [submitStrategy]
    succeeds and returns the fingerprint, (ii) the fingerprint is invalid at
    every time, and (iii) a further [executeStrategy] on it never succeeds:
    on an unpaused vault it fails with [StrategyAlreadyExecuted], for every
    fingerprint but the zero word. (iv) On a paused vault every
    [executeStrategy] fails with [EnforcedPause]. *)
Theorem C5_isValid_lifecycle {prims : Primitives} :
  (forall now h s,
     isStrategyValid now h s = true <->
     strategyHash (strategies s !!! h) <> 0 /\ executed (strategies s !!! h) = false
       /\ now <= validUntil (strategies s !!! h)) /\
  (forall msg_sender now h s s',
     executeStrategy msg_sender now h s = Ok s' ->
     forall txs t,
       never (submits h) txs s' = true ->
       isStrategyValid t h (run txs s') = false) /\
  (forall msg_sender now h s s',
     executeStrategy msg_sender now h s = Ok s' ->
     forall txs msg_sender' now',
       never (submits h) txs s' = true ->
       is_ok (executeStrategy msg_sender' now' h (run txs s')) = false /\
       (paused (run txs s') = false -> h <> 0 ->
        executeStrategy msg_sender' now' h (run txs s') = Revert StrategyAlreadyExecuted)) /\
  (forall msg_sender now h s,
     paused s = true -> executeStrategy msg_sender now h s = Revert EnforcedPause).
Proof.
  split; [|split; [|split]].
  - intros now h s. unfold isStrategyValid.
    rewrite !andb_true_iff, !negb_true_iff, Z.eqb_neq, Z.leb_le. tauto.
  - intros msg_sender now h s s' Hex txs t Hall.
    apply executeStrategy_ok in Hex as (_ & _ & _ & _ & Hs' & _).
    assert (Hx : executed (strategies s' !!! h) = true).
    { rewrite Hs'. now rewrite lookup_total_insert_eq. }
    pose proof (run_keeps_executed txs s' h Hall Hx) as Hrun.
    unfold isStrategyValid. rewrite Hrun. simpl. now rewrite andb_false_r.
  - intros msg_sender now h s s' Hex txs msg_sender' now' Hall.
    apply executeStrategy_ok in Hex as (_ & Hh & _ & _ & Hs' & _).
    assert (Hinv : strategyHash (strategies s' !!! h) <> 0
                   /\ executed (strategies s' !!! h) = true).
    { rewrite Hs', lookup_total_insert_eq. simpl. auto. }
    destruct Hinv as (Hk & Hx).
    pose proof (run_keeps_executed txs s' h Hall Hx) as Hrun.
    split.
    + unfold executeStrategy. unfold_call. rewrite Hrun.
      destruct (paused (run txs s')); [reflexivity|]. simpl.
      now destruct (strategyHash (strategies (run txs s') !!! h) =? 0).
    + intros Hp Hne.
      destruct (run_known_executed h txs s' Hne Hall (conj Hk Hx)) as (Hk' & _).
      unfold executeStrategy. unfold_call. rewrite Hp, Hrun. simpl.
      destruct (strategyHash (strategies (run txs s') !!! h) =? 0) eqn:E; [|reflexivity].
      apply Z.eqb_eq in E. contradiction.
  - intros msg_sender now h s Hp. unfold executeStrategy. unfold_call. now rewrite Hp.
Qed.

(** C5 on the history of the scenario: after bob has executed alice's
    strategy, it is invalid and cannot be executed again, also after a
    portfolio of bob, a submission under another fingerprint, a late
    [triggerAutoRebalance], and a pause lifted again. *)
Lemma C5_isValid_lifecycle_witness :
  isStrategyValid 1000 VaultScenario.fingerprint VaultScenario.s_submitted = true /\
  isStrategyValid 1000 VaultScenario.fingerprint
    (@run VaultScenario.prims
       [VaultScenario.create_bob; VaultScenario.submit_later; VaultScenario.trigger_late]
       VaultScenario.s_executed) = false /\
  executeStrategy VaultScenario.alice 9500 VaultScenario.fingerprint
    (@run VaultScenario.prims
       [VaultScenario.create_bob; VaultScenario.submit_later; VaultScenario.trigger_late;
        mkTx VaultScenario.deployer 9100 Pause; mkTx VaultScenario.deployer 9200 Unpause]
       VaultScenario.s_executed)
    = Revert StrategyAlreadyExecuted.
Proof.
  destruct (@C5_isValid_lifecycle VaultScenario.prims) as (H1 & H2 & H3 & _).
  assert (Hex : @executeStrategy VaultScenario.bob 1000 VaultScenario.fingerprint
                  VaultScenario.s_submitted = Ok VaultScenario.s_executed)
    by (vm_compute; reflexivity).
  split; [|split].
  - apply H1. vm_compute. repeat split; discriminate.
  - apply (H2 _ _ _ _ _ Hex). vm_compute. reflexivity.
  - apply (H3 _ _ _ _ _ Hex).
    + vm_compute. reflexivity.
    + vm_compute. reflexivity.
    + vm_compute. discriminate.
Defined.

(** C5 as stated fails: after a successful execution, submitting the same
    strategy again at the same timestamp makes the fingerprint valid again at
    later times and a second execution succeeds; and on a paused vault the
    second execution is refused with [EnforcedPause]. *)
Lemma C5_counterexample :
  isStrategyValid 1000 VaultScenario.fingerprint VaultScenario.s_executed = false /\
  isStrategyValid 2000 VaultScenario.fingerprint
    (@run VaultScenario.prims [VaultScenario.submit] VaultScenario.s_executed) = true /\
  is_ok (executeStrategy VaultScenario.bob 2000 VaultScenario.fingerprint
           (@run VaultScenario.prims [VaultScenario.submit] VaultScenario.s_executed)) = true /\
  executeStrategy VaultScenario.bob 2000 VaultScenario.fingerprint
    (@run VaultScenario.prims [mkTx VaultScenario.deployer 1500 Pause]
       VaultScenario.s_executed) = Revert EnforcedPause.
Proof. vm_compute. repeat split. Qed.

(** C6, in the form the code satisfies. A signature whose length is not
    65 bytes makes [_recoverSigner] revert with the message of its
    [require]; no address is returned, and both attestation checks revert
    with it. So [submitRiskAnalysis] with such a signature fails with
    [EnforcedPause] on a paused vault and with that revert otherwise; and
    [triggerAutoRebalance] with it never succeeds and never fails with
    [InvalidTEESignature]: it fails with that revert whenever the checks
    that precede the attestation pass. *)
Theorem C6_recoverSigner_reverts_on_length {prims : Primitives} messageHash signature :
  length signature <> 65%nat ->
  _recoverSigner messageHash signature = Revert (Error "Invalid signature length") /\
  (forall trusted user report,
     _verifyTEESignature trusted user report signature
       = Revert (Error "Invalid signature length")) /\
  (forall trusted user strategy,
     _verifyStrategySignature trusted user strategy signature
       = Revert (Error "Invalid signature length")) /\
  (forall msg_sender now user report s,
     submitRiskAnalysis msg_sender now user report signature s
       = Revert (if paused s then EnforcedPause else Error "Invalid signature length")) /\
  (forall msg_sender now user deviation strategy s,
     (exists e,
        triggerAutoRebalance msg_sender now user deviation strategy signature s = Revert e
        /\ e <> InvalidTEESignature) /\
     (paused s = false ->
      autoRebalance (portfolios s !!! user) = true ->
      rebalanceThreshold (portfolios s !!! user) <= deviation ->
      lastAnalysis (portfolios s !!! user) + minRebalanceInterval s <= MAX_UINT256 ->
      lastAnalysis (portfolios s !!! user) + minRebalanceInterval s <= now ->
      triggerAutoRebalance msg_sender now user deviation strategy signature s
        = Revert (Error "Invalid signature length"))).
Proof.
  intros Hlen.
  assert (H : forall h, _recoverSigner h signature = Revert (Error "Invalid signature length")).
  { intros h. unfold _recoverSigner. unfold_call.
    destruct (length signature =? 65)%nat eqn:E; [|reflexivity].
    apply Nat.eqb_eq in E. contradiction. }
  assert (Ht : forall trusted user report,
             _verifyTEESignature trusted user report signature
             = Revert (Error "Invalid signature length")).
  { intros. unfold _verifyTEESignature. unfold_call. now rewrite H. }
  assert (Hs : forall trusted user strategy,
             _verifyStrategySignature trusted user strategy signature
             = Revert (Error "Invalid signature length")).
  { intros. unfold _verifyStrategySignature. unfold_call. now rewrite H. }
  split; [apply H|]. split; [exact Ht|]. split; [exact Hs|]. split.
  - intros msg_sender now user report s. unfold submitRiskAnalysis. unfold_call.
    rewrite Ht. now destruct (paused s).
  - intros msg_sender now user deviation strategy s.
    unfold triggerAutoRebalance. unfold_call. rewrite Hs. split.
    + destruct (paused s); simpl; [eexists; split; [reflexivity|discriminate]|].
      destruct (autoRebalance (portfolios s !!! user)); simpl;
        [|eexists; split; [reflexivity|discriminate]].
      destruct (deviation <? rebalanceThreshold (portfolios s !!! user)); simpl;
        [eexists; split; [reflexivity|discriminate]|].
      destruct (lastAnalysis (portfolios s !!! user) + minRebalanceInterval s
                <=? MAX_UINT256); simpl;
        [|eexists; split; [reflexivity|discriminate]].
      destruct (now <? lastAnalysis (portfolios s !!! user) + minRebalanceInterval s);
        simpl; eexists; (split; [reflexivity|discriminate]).
    + intros Hp Ha Hd Hov Hint. rewrite Hp, Ha. simpl.
      apply Z.ltb_ge in Hd. rewrite Hd. simpl.
      apply Z.leb_le in Hov. rewrite Hov. simpl.
      apply Z.ltb_ge in Hint. rewrite Hint. reflexivity.
Qed.

(** C6 on the empty signature: the recovery reverts, and a risk report
    submitted with it on the unpaused vault is refused with that revert. *)
Lemma C6_recoverSigner_reverts_on_length_witness :
  @_recoverSigner VaultScenario.prims 7 [] = Revert (Error "Invalid signature length") /\
  @submitRiskAnalysis VaultScenario.prims VaultScenario.bob 2000 VaultScenario.alice
     (mkRiskReport 80 1 2 3 4 5 2000 []) [] VaultScenario.s_created
    = Revert (Error "Invalid signature length").
Proof.
  destruct (@C6_recoverSigner_reverts_on_length VaultScenario.prims 7 [])
    as (H1 & _ & _ & H4 & _); [simpl; discriminate|].
  split; [exact H1|].
  rewrite H4. vm_compute. reflexivity.
Defined.

(** C6 as stated fails: on the empty signature the recovery reverts and a
    risk report submitted with it is refused with that revert, not with
    [InvalidTEESignature]. *)
Lemma C6_counterexample :
  @_recoverSigner VaultScenario.prims 7 [] = Revert (Error "Invalid signature length") /\
  @submitRiskAnalysis VaultScenario.prims VaultScenario.bob 2000 VaultScenario.alice
     (mkRiskReport 80 1 2 3 4 5 2000 []) [] VaultScenario.s_created
    = Revert (Error "Invalid signature length").
Proof. vm_compute. split; reflexivity. Qed.

(** C9. [executeStrategy] decides without looking at the caller: from the
    same state at the same time two callers get the same error, or both
    succeed with the same ledger (all of the state but the event log, which
    records the caller) and the strategy marked executed. So whenever the
    strategy is valid, on an unpaused vault whose counter is not saturated,
    every caller succeeds. *)
Theorem C9_executeStrategy_ignores_caller (caller1 caller2 : Z) now h s :
  match executeStrategy caller1 now h s, executeStrategy caller2 now h s with
  | Ok s1, Ok s2 =>
      ledger s1 = ledger s2 /\ executed (strategies s1 !!! h) = true
  | Revert e1, Revert e2 => e1 = e2
  | _, _ => False
  end /\
  (paused s = false -> isStrategyValid now h s = true ->
   totalStrategiesExecuted s < MAX_UINT256 ->
   exists s1, executeStrategy caller1 now h s = Ok s1
              /\ executed (strategies s1 !!! h) = true).
Proof.
  unfold executeStrategy, isStrategyValid, _executeRebalance. unfold_call.
  destruct (paused s); simpl.
  { split; [reflexivity|discriminate]. }
  destruct (strategyHash (strategies s !!! h) =? 0); simpl.
  { split; [reflexivity|discriminate]. }
  destruct (executed (strategies s !!! h)); simpl.
  { split; [reflexivity|discriminate]. }
  destruct (validUntil (strategies s !!! h) <? now) eqn:Elate; simpl.
  { split; [reflexivity|]. intros _ Hv. apply Z.leb_le in Hv. apply Z.ltb_lt in Elate. lia. }
  destruct (totalStrategiesExecuted s + 1 <=? MAX_UINT256) eqn:Eov; simpl.
  - assert (Hx : forall c,
      executed (strategies (emit (StrategyExecuted c h now)
        (set_totalStrategiesExecuted (totalStrategiesExecuted s + 1)
          (set_strategies (<[h := set_executed true (strategies s !!! h)]> (strategies s)) s)))
        !!! h) = true).
    { intros c. simpl. now rewrite lookup_total_insert_eq. }
    split; [split; [reflexivity|apply (Hx caller1)]|].
    intros _ _ _. eexists. split; [reflexivity|apply (Hx caller1)].
  - split; [reflexivity|]. intros _ _ Hlt. apply Z.leb_gt in Eov. lia.
Qed.

(** C9 on the scenario: bob, who owns nothing, executes alice's strategy. *)
Lemma C9_executeStrategy_ignores_caller_witness :
  exists s1, executeStrategy VaultScenario.bob 1000 VaultScenario.fingerprint
               VaultScenario.s_submitted = Ok s1
             /\ executed (strategies s1 !!! VaultScenario.fingerprint) = true.
Proof.
  pose proof (C9_executeStrategy_ignores_caller VaultScenario.bob VaultScenario.alice
                1000 VaultScenario.fingerprint VaultScenario.s_submitted) as H.
  apply proj2 in H. apply H.
  - vm_compute. reflexivity.
  - vm_compute. reflexivity.
  - vm_compute. reflexivity.
Defined.

End VaultClaims.

(** ** Claims about the execution agent *)

Module AccountClaims.
Import Account PhantomAccount.

Ltac unfold_call :=
  unfold PhantomAccount.onlyOwner, PhantomAccount.checked_add, require in *;
  unfold mbind, mret, fmap, result_bind, result_ret, result_fmap in *.

Lemma targetAllowed_In targets target :
  targetAllowed targets target = true <-> In target targets.
Proof.
  induction targets as [|t rest IH]; simpl.
  - split; [discriminate|tauto].
  - destruct (t =? target) eqn:E.
    + apply Z.eqb_eq in E. tauto.
    + apply Z.eqb_neq in E. rewrite IH. split; [tauto|intros [?|?]; [contradiction|assumption]].
Qed.

(** The checks [_validateSignature] does make for a session key: an
    inactive or expired key is refused, and so is an [execute] call whose
    decoded target is not in the allowed-target list. *)
Lemma session_key_rejected {prims : Primitives} now userOp userOpHash s k :
  (65 <= length (signature userOp))%nat ->
  ECDSA_recover (toEthSignedMessageHash userOpHash) (signature userOp) = Some k ->
  k <> owner s ->
  active (sessionKeys s !!! k) = false
  \/ validUntil (sessionKeys s !!! k) < now
  \/ (length (callData userOp) < 4)%nat
  \/ (be_to_Z (slice 0 4 (callData userOp)) = execute_selector /\
      ((length (callData userOp) < 36)%nat
       \/ (be_to_Z (slice 4 36 (callData userOp)) < ADDRESS_MODULUS /\
           ~ In (be_to_Z (slice 4 36 (callData userOp)))
                (allowedTargets (sessionKeys s !!! k))))) ->
  _validateSignature now userOp userOpHash s = Ok SIG_VALIDATION_FAILED.
Proof.
  intros Hsig Hrec Hk Hcases. unfold _validateSignature.
  destruct (length (signature userOp) <? 65)%nat eqn:E1.
  { apply Nat.ltb_lt in E1. lia. }
  rewrite Hrec.
  destruct (k =? owner s) eqn:E2; [apply Z.eqb_eq in E2; contradiction|].
  destruct (active (sessionKeys s !!! k)) eqn:Ea; simpl; [|reflexivity].
  destruct (now <=? validUntil (sessionKeys s !!! k)) eqn:Et; [|reflexivity].
  apply Z.leb_le in Et.
  destruct Hcases as [H|[H|[H|(Hsel & H)]]]; [discriminate|lia| |].
  - unfold _validateSessionKeyOp. apply Nat.ltb_lt in H. now rewrite H.
  - unfold _validateSessionKeyOp.
    destruct (length (callData userOp) <? 4)%nat; [reflexivity|].
    rewrite Hsel, Z.eqb_refl.
    destruct H as [H|(Hword & Hnot)].
    + apply Nat.ltb_lt in H. now rewrite H.
    + destruct (length (callData userOp) <? 36)%nat; [reflexivity|].
      unfold abi_decode_address. apply Z.ltb_lt in Hword. rewrite Hword.
      unfold_call.
      destruct (targetAllowed _ _) eqn:Ht; [|reflexivity].
      apply targetAllowed_In in Ht. contradiction.
Qed.
(** C1 (defect of [_validateSessionKeyOp]). For an operation signed by an
    active, unexpired session key that is not the owner: (a) when the call
    data is an [execute] call whose decoded target is in the allowed-target
    list, the operation is authorized; (b) when the call data does not start
    with the selector of [execute], the operation is authorized too. Neither
    case looks at the allowed-selector list, and case (b) looks at no target. *)
Theorem C1_session_key_selectors_not_enforced {prims : Primitives}
    now userOp userOpHash s k :
  (65 <= length (signature userOp))%nat ->
  ECDSA_recover (toEthSignedMessageHash userOpHash) (signature userOp) = Some k ->
  k <> owner s ->
  active (sessionKeys s !!! k) = true ->
  now <= validUntil (sessionKeys s !!! k) ->
  (4 <= length (callData userOp))%nat ->
  ((36 <= length (callData userOp))%nat /\
   be_to_Z (slice 4 36 (callData userOp)) < ADDRESS_MODULUS /\
   In (be_to_Z (slice 4 36 (callData userOp))) (allowedTargets (sessionKeys s !!! k)))
  \/ be_to_Z (slice 0 4 (callData userOp)) <> execute_selector ->
  _validateSignature now userOp userOpHash s = Ok 0.
Proof.
  intros Hsig Hrec Hk Hact Hnow Hlen Hcases.
  unfold _validateSignature.
  destruct (length (signature userOp) <? 65)%nat eqn:E1.
  { apply Nat.ltb_lt in E1. lia. }
  rewrite Hrec.
  destruct (k =? owner s) eqn:E2; [reflexivity|].
  rewrite Hact. apply Z.leb_le in Hnow. rewrite Hnow. simpl.
  unfold _validateSessionKeyOp.
  destruct (length (callData userOp) <? 4)%nat eqn:E3.
  { apply Nat.ltb_lt in E3. lia. }
  destruct (be_to_Z (slice 0 4 (callData userOp)) =? execute_selector) eqn:E4;
    [|reflexivity].
  destruct Hcases as [(H36 & Hword & Hin)|Hne].
  - destruct (length (callData userOp) <? 36)%nat eqn:E5.
    { apply Nat.ltb_lt in E5. lia. }
    unfold abi_decode_address. apply Z.ltb_lt in Hword. rewrite Hword.
    unfold_call. apply targetAllowed_In in Hin. rewrite Hin. reflexivity.
  - apply Z.eqb_eq in E4. contradiction.
Qed.

(** The failing inputs of C1: the session key of the scenario is scoped to
    the selector of [executeStrategy]; it is authorized to call
    [updatePortfolio] on the vault, and to send call data that is not an
    [execute] call at all. *)
Lemma C1_session_key_selectors_not_enforced_witness :
  allowedSelectors (sessionKeys AccountScenario.s_key !!! AccountScenario.sessionKey)
    = [AccountScenario.sel_executeStrategy] /\
  be_to_Z (slice 0 4 (callData AccountScenario.op_other_selector)) = execute_selector /\
  be_to_Z (slice 132 136 (callData AccountScenario.op_other_selector))
    = AccountScenario.sel_updatePortfolio /\
  @_validateSignature AccountScenario.prims 1000 AccountScenario.op_other_selector
    AccountScenario.userOpHash AccountScenario.s_key = Ok 0 /\
  @_validateSignature AccountScenario.prims 1000 AccountScenario.op_not_execute
    AccountScenario.userOpHash AccountScenario.s_key = Ok 0.
Proof.
  split; [vm_compute; reflexivity|].
  split; [vm_compute; reflexivity|].
  split; [vm_compute; reflexivity|].
  split.
  - apply (@C1_session_key_selectors_not_enforced AccountScenario.prims 1000
             AccountScenario.op_other_selector AccountScenario.userOpHash
             AccountScenario.s_key AccountScenario.sessionKey).
    + vm_compute. lia.
    + vm_compute. reflexivity.
    + vm_compute. discriminate.
    + vm_compute. reflexivity.
    + vm_compute. discriminate.
    + vm_compute. lia.
    + left. split; [vm_compute; lia|].
      split; [vm_compute; reflexivity|].
      vm_compute. left. reflexivity.
  - apply (@C1_session_key_selectors_not_enforced AccountScenario.prims 1000
             AccountScenario.op_not_execute AccountScenario.userOpHash
             AccountScenario.s_key AccountScenario.sessionKey).
    + vm_compute. lia.
    + vm_compute. reflexivity.
    + vm_compute. discriminate.
    + vm_compute. reflexivity.
    + vm_compute. discriminate.
    + vm_compute. lia.
    + right. vm_compute. discriminate.
Defined.

Lemma revokeSessionKey_by_owner key s :
  exists s',
    revokeSessionKey (owner s) key s = Ok s' /\
    sessionKeys s' = <[key := set_active false (sessionKeys s !!! key)]> (sessionKeys s) /\
    activeSessionKeys s' = activeSessionKeys s.
Proof.
  unfold revokeSessionKey. unfold_call. rewrite Z.eqb_refl.
  eexists. split; [reflexivity|]. split; reflexivity.
Qed.

(** Clearing the flag of an inactive key writes back what was stored. *)
Lemma insert_inactive_same (m : gmap Z SessionKey) key k :
  active (m !!! key) = false ->
  <[key := set_active false (m !!! key)]> m !!! k = m !!! k.
Proof.
  intros Hin. destruct (decide (key = k)) as [->|Hne].
  - rewrite lookup_total_insert_eq. destruct (m !!! k) eqn:E.
    simpl in Hin. subst. reflexivity.
  - now rewrite lookup_total_insert_ne.
Qed.

(** C10. Called by the owner, [revokeSessionKey] succeeds for every key;
    afterwards [isSessionKeyActive] is false at every time; when the key was
    already inactive (never created, or revoked before) the session-key state
    is unchanged: every [getSessionKey] and the list of keys read as before.
    In particular a second revocation changes nothing. *)
Theorem C10_revokeSessionKey_total_idempotent key s :
  exists s',
    revokeSessionKey (owner s) key s = Ok s' /\
    (forall now, isSessionKeyActive now key s' = false) /\
    (active (getSessionKey key s) = false ->
       (forall k, getSessionKey k s' = getSessionKey k s)
       /\ activeSessionKeys s' = activeSessionKeys s) /\
    (exists s'',
       revokeSessionKey (owner s') key s' = Ok s''
       /\ (forall k, getSessionKey k s'' = getSessionKey k s')
       /\ activeSessionKeys s'' = activeSessionKeys s').
Proof.
  destruct (revokeSessionKey_by_owner key s) as (s' & Hok & Hkeys & Hlist).
  destruct (revokeSessionKey_by_owner key s') as (s'' & Hok' & Hkeys' & Hlist').
  exists s'. split; [exact Hok|]. split; [|split].
  - intros now. unfold isSessionKeyActive. rewrite Hkeys.
    now rewrite lookup_total_insert_eq.
  - intros Hin. split; [|exact Hlist]. intros k. unfold getSessionKey. rewrite Hkeys.
    now apply insert_inactive_same.
  - exists s''. split; [exact Hok'|]. split; [|exact Hlist'].
    intros k. unfold getSessionKey. rewrite Hkeys'. apply insert_inactive_same.
    rewrite Hkeys. now rewrite lookup_total_insert_eq.
Qed.

(** C10 on a key that was never created. *)
Lemma C10_revokeSessionKey_total_idempotent_witness :
  exists s',
    revokeSessionKey AccountScenario.owner AccountScenario.mallory AccountScenario.s_key
      = Ok s'
    /\ (forall k, getSessionKey k s' = getSessionKey k AccountScenario.s_key)
    /\ activeSessionKeys s' = activeSessionKeys AccountScenario.s_key.
Proof.
  destruct (C10_revokeSessionKey_total_idempotent AccountScenario.mallory
              AccountScenario.s_key) as (s' & Hok & _ & Hsame & _).
  exists s'. split; [exact Hok|]. apply Hsame. vm_compute. reflexivity.
Defined.

End AccountClaims.

(** ** Claims about the fee sponsor *)

Module PaymasterClaims.
Import PhantomPaymaster BytesFacts.

Ltac unfold_call :=
  unfold PhantomPaymaster.onlyOwner, PhantomPaymaster.checked_add, require in *;
  unfold mbind, mret, fmap, result_bind, result_ret, result_fmap in *.

Ltac split_tests :=
  repeat match goal with
  | H : context [if ?b then _ else _] |- _ => destruct b eqn:?; try discriminate H
  | H : context [match ?r with Ok _ => _ | Revert _ => _ end] |- _ =>
      destruct r eqn:?; try discriminate H
  | H : context [match ?r with Some _ => _ | None => _ end] |- _ =>
      destruct r eqn:?; try discriminate H
  end.

Lemma word_at_insert (m : gmap Z Z) k v k' :
  word_at (<[k := v]> m) k' = if decide (k = k') then v else word_at m k'.
Proof. unfold word_at. rewrite lookup_insert. now destruct (decide (k = k')). Qed.

Lemma word_at_empty k : word_at ∅ k = 0.
Proof. unfold word_at. now rewrite lookup_empty. Qed.

(** What a successful limit check did. *)
Lemma _checkAndUpdateDailyLimit_ok now user s s' :
  _checkAndUpdateDailyLimit now user s = Ok s' ->
  maxDailySponsored s' = maxDailySponsored s /\
  ((word_at (dailyResetTime s) user + DAYS < now
    /\ sponsoredTxCount s' = <[user := 1]> (sponsoredTxCount s)
    /\ dailyResetTime s' = <[user := now]> (dailyResetTime s))
   \/
   (now <= word_at (dailyResetTime s) user + DAYS
    /\ word_at (sponsoredTxCount s) user < maxDailySponsored s
    /\ sponsoredTxCount s' = <[user := word_at (sponsoredTxCount s) user + 1]>
                               (sponsoredTxCount s)
    /\ dailyResetTime s' = dailyResetTime s)).
Proof.
  unfold _checkAndUpdateDailyLimit. unfold_call. intros H. split_tests.
  all: injection H as <-; simpl; split; [reflexivity|].
  - left. split; [|split; reflexivity]. apply Z.ltb_lt. change (1 * DAYS) with DAYS in *.
    assumption.
  - right. change (1 * DAYS) with DAYS in *.
    split; [lia|]. split; [lia|]. split; reflexivity.
Qed.

Section WithPrimitives.
Context {prims : Primitives}.

Lemma paymaster_run_cons t txs s : run (t :: txs) s = run txs (step t s).
Proof. reflexivity. Qed.

Lemma validate_within_cap now userOp userOpHash maxCost s s' v :
  _validatePaymasterUserOp now userOp userOpHash maxCost s = Ok (s', v) ->
  within_cap s -> within_cap s'.
Proof.
  unfold _validatePaymasterUserOp. unfold_call. intros H (Hcap & Hcount).
  split_tests. injection H as <- <-.
  match goal with
  | E : _checkAndUpdateDailyLimit _ _ _ = Ok _ |- _ =>
      apply _checkAndUpdateDailyLimit_ok in E as (Hmax & [(_ & Hc & _)|(_ & Hlt & Hc & _)])
  end.
  all: unfold within_cap; rewrite Hmax, Hc; split; [assumption|];
       intros u; rewrite word_at_insert; destruct (decide (sender userOp = u)).
  all: try apply Hcount; lia.
Qed.

Lemma step_within_cap t s :
  match tx_call t with
  | SetMaxDailySponsored m =>
      tx_sender t = admin s -> 1 <= m /\ forall u, word_at (sponsoredTxCount s) u <= m
  | _ => True
  end ->
  within_cap s -> within_cap (step t s).
Proof.
  intros Hguard Hinv. unfold step.
  destruct (exec _ _ _ s) as [s'|e] eqn:E; simpl; [|assumption].
  destruct (tx_call t); simpl in E.
  - unfold validatePaymasterUserOp in E. unfold_call.
    destruct (tx_sender t =? entryPoint s); [|discriminate].
    destruct (_validatePaymasterUserOp _ _ _ _ s) as [[s1 v]|] eqn:Ev; [|discriminate].
    injection E as <-. simpl. eapply validate_within_cap; eauto.
  - unfold setVerifyingSigner in E. unfold_call. split_tests. now injection E as <-.
  - unfold setPhantomVault in E. unfold_call. split_tests. now injection E as <-.
  - unfold setMaxDailySponsored in E. unfold_call.
    destruct (tx_sender t =? admin s) eqn:Ea; [|discriminate E].
    apply Z.eqb_eq in Ea. injection E as <-. exact (Hguard Ea).
  - unfold whitelistSelector in E. unfold_call. split_tests. now injection E as <-.
Qed.

Lemma run_within_cap txs : forall s,
  cap_respected txs s -> within_cap s -> within_cap (run txs s).
Proof.
  induction txs as [|t txs IH]; intros s Hcap Hinv; [assumption|].
  rewrite paymaster_run_cons. destruct Hcap as (Hguard & Hrest).
  apply IH; [assumption|]. now apply step_within_cap.
Qed.

End WithPrimitives.

(** What the sponsor does decide on: an operation is accepted exactly when
    the paymaster data is long enough, the co-signature recovers to the
    verifying signer, the word [_getTarget] reads is the vault, the selector
    [_getSelector] reads is whitelisted, and a new day window opens or the
    count is below the cap. *)
Lemma validatePaymasterUserOp_accepts_iff {prims : Primitives}
    now userOp userOpHash maxCost s :
  word_at (dailyResetTime s) (sender userOp) + DAYS <= MAX_UINT256 ->
  maxDailySponsored s <= MAX_UINT256 ->
  let paymasterData := drop PAYMASTER_DATA_OFFSET (paymasterAndData userOp) in
  is_ok (_validatePaymasterUserOp now userOp userOpHash maxCost s) = true <->
  (PAYMASTER_DATA_OFFSET + 77 <= length (paymasterAndData userOp))%nat /\
  ECDSA_recover
    (toEthSignedMessageHash
       (getHash userOp (be_to_Z (slice 65 71 paymasterData))
          (be_to_Z (slice 71 77 paymasterData)) s))
    (slice 0 65 paymasterData) = Some (verifyingSigner s) /\
  _getTarget (callData userOp) = phantomVault s /\
  flag_at (whitelistedSelectors s) (_getSelector (callData userOp)) = true /\
  (word_at (dailyResetTime s) (sender userOp) + DAYS < now
   \/ word_at (sponsoredTxCount s) (sender userOp) < maxDailySponsored s).
Proof.
  intros Hov Hmax paymasterData. subst paymasterData.
  unfold _validatePaymasterUserOp, _checkAndUpdateDailyLimit. unfold_call.
  change (1 * DAYS) with DAYS.
  apply Z.leb_le in Hov. rewrite Hov.
  destruct (PAYMASTER_DATA_OFFSET <=? length (paymasterAndData userOp))%nat eqn:E1.
  2:{ apply Nat.leb_gt in E1. simpl. split; [discriminate|]. intros (H & _).
      unfold PAYMASTER_DATA_OFFSET in *. lia. }
  apply Nat.leb_le in E1.
  destruct (77 <=? length (drop PAYMASTER_DATA_OFFSET (paymasterAndData userOp)))%nat eqn:E2.
  2:{ apply Nat.leb_gt in E2. rewrite length_drop in E2. simpl.
      split; [discriminate|]. intros (H & _). unfold PAYMASTER_DATA_OFFSET in *. lia. }
  apply Nat.leb_le in E2. rewrite length_drop in E2.
  destruct (ECDSA_recover _ _) as [recovered|] eqn:Er.
  2:{ simpl. split; [discriminate|]. intros (_ & H & _). discriminate. }
  destruct (recovered =? verifyingSigner s) eqn:E3.
  2:{ simpl. apply Z.eqb_neq in E3. split; [discriminate|].
      intros (_ & H & _). congruence. }
  apply Z.eqb_eq in E3. subst recovered.
  destruct (_getTarget (callData userOp) =? phantomVault s) eqn:E4.
  2:{ simpl. apply Z.eqb_neq in E4. split; [discriminate|]. intros (_ & _ & H & _).
      contradiction. }
  apply Z.eqb_eq in E4.
  destruct (flag_at (whitelistedSelectors s) (_getSelector (callData userOp))) eqn:E5.
  2:{ simpl. split; [discriminate|]. intros (_ & _ & _ & H & _). discriminate. }
  destruct (word_at (dailyResetTime s) (sender userOp) + DAYS <? now) eqn:E6.
  { simpl. apply Z.ltb_lt in E6. split; [|reflexivity]. intros _.
    repeat split; try assumption; try (unfold PAYMASTER_DATA_OFFSET in *; lia); try reflexivity.
    all: now left. }
  apply Z.ltb_ge in E6.
  destruct (maxDailySponsored s <=? word_at (sponsoredTxCount s) (sender userOp)) eqn:E7.
  { simpl. apply Z.leb_le in E7. split; [discriminate|]. intros (_ & _ & _ & _ & [H|H]); lia. }
  apply Z.leb_gt in E7.
  destruct (word_at (sponsoredTxCount s) (sender userOp) + 1 <=? MAX_UINT256) eqn:E8.
  2:{ apply Z.leb_gt in E8. lia. }
  simpl. split; [|reflexivity]. intros _.
  repeat split; try assumption; try (unfold PAYMASTER_DATA_OFFSET in *; lia); try reflexivity.
  all: now right.
Qed.
(** C3 (defect of [_getTarget]). The sponsor reads the target at offset 16
    of the call data, where the 20 address bytes of the first argument are
    followed by the 12 high bytes of the second, and compares the low 160
    bits of that word with the vault. So an operation whose call data is an
    ABI call [sel(vault, value, ...)] (the [execute(address,uint256,bytes)]
    format the sponsor is written for), co-signed by the verifying signer,
    is refused with [InvalidTarget], whatever its selector and the sender's
    count. *)
Theorem C3_sponsor_refuses_calls_to_the_vault {prims : Primitives}
    now userOp userOpHash maxCost s sel value rest :
  (PAYMASTER_DATA_OFFSET + 77 <= length (paymasterAndData userOp))%nat ->
  (let paymasterData := drop PAYMASTER_DATA_OFFSET (paymasterAndData userOp) in
   ECDSA_recover
     (toEthSignedMessageHash
        (getHash userOp (be_to_Z (slice 65 71 paymasterData))
           (be_to_Z (slice 71 77 paymasterData)) s))
     (slice 0 65 paymasterData) = Some (verifyingSigner s)) ->
  callData userOp = Z_to_be 4 sel ++ Z_to_be 32 (phantomVault s) ++ Z_to_be 32 value ++ rest ->
  0 < phantomVault s < ADDRESS_MODULUS ->
  0 <= value < 2 ^ 160 ->
  _getTarget (callData userOp) = (phantomVault s mod 2 ^ 64) * 2 ^ 96 /\
  _validatePaymasterUserOp now userOp userOpHash maxCost s = Revert InvalidTarget.
Proof.
  intros Hlen Hsig Hdata Hvault Hvalue. unfold ADDRESS_MODULUS in *.
  assert (Htarget : _getTarget (callData userOp) = (phantomVault s mod 2 ^ 64) * 2 ^ 96).
  { unfold _getTarget. rewrite Hdata.
    rewrite !length_app, !length_Z_to_be.
    destruct (36 <=? 4 + (32 + (32 + length rest)))%nat eqn:E;
      [|apply Nat.leb_gt in E; lia].
    rewrite calldataload_16_of_call.
    rewrite (Z.div_small value) by lia. rewrite Z.mod_0_l by lia. rewrite Z.add_0_r.
    rewrite (Z.mod_small (phantomVault s)) by lia.
    unfold ADDRESS_MODULUS.
    change (2 ^ 160) with (2 ^ 64 * 2 ^ 96).
    rewrite Z.mul_mod_distr_r by lia. reflexivity. }
  split; [exact Htarget|].
  unfold _validatePaymasterUserOp. unfold_call.
  destruct (PAYMASTER_DATA_OFFSET <=? length (paymasterAndData userOp))%nat eqn:E1;
    [|apply Nat.leb_gt in E1; lia].
  destruct (77 <=? length (drop PAYMASTER_DATA_OFFSET (paymasterAndData userOp)))%nat eqn:E2;
    [|apply Nat.leb_gt in E2; rewrite length_drop in E2; lia].
  simpl in Hsig. rewrite Hsig. rewrite Z.eqb_refl. rewrite Htarget.
  destruct (phantomVault s `mod` 2 ^ 64 * 2 ^ 96 =? phantomVault s) eqn:E3; [|reflexivity].
  apply Z.eqb_eq in E3.
  assert (phantomVault s mod 2 ^ 96 = 0).
  { rewrite <- E3 at 1. apply Z.mod_mul. lia. }
  assert (Hq : phantomVault s = 2 ^ 96 * (phantomVault s / 2 ^ 96)).
  { rewrite (Z.div_mod (phantomVault s) (2 ^ 96)) at 1 by lia. lia. }
  assert (Hm : phantomVault s mod 2 ^ 64 = 0).
  { rewrite Hq. change (2 ^ 96) with (2 ^ 64 * 2 ^ 32).
    rewrite <- Z.mul_assoc, Z.mul_comm. apply Z.mod_mul. lia. }
  rewrite Hm in E3. lia.
Qed.

(** The failing input of C3: the agent's call [execute(vault, 0,
    executeStrategy(1))], co-signed, for a sender who was never sponsored, on
    a sponsor where both the selector of [execute] and that of
    [executeStrategy] are whitelisted. *)
Lemma C3_sponsor_refuses_calls_to_the_vault_witness :
  flag_at (whitelistedSelectors PaymasterScenario.s_whitelisted)
    PhantomAccount.execute_selector = true /\
  flag_at (whitelistedSelectors PaymasterScenario.s_whitelisted)
    PaymasterScenario.sel_executeStrategy = true /\
  word_at (sponsoredTxCount PaymasterScenario.s_whitelisted) PaymasterScenario.user = 0 /\
  be_to_Z (slice 4 36 (callData PaymasterScenario.op_execute_vault))
    = phantomVault PaymasterScenario.s_whitelisted /\
  _getTarget (callData PaymasterScenario.op_execute_vault)
    = (phantomVault PaymasterScenario.s_whitelisted mod 2 ^ 64) * 2 ^ 96 /\
  @_validatePaymasterUserOp PaymasterScenario.prims 100000
     PaymasterScenario.op_execute_vault 0 1000 PaymasterScenario.s_whitelisted
    = Revert InvalidTarget.
Proof.
  split; [vm_compute; reflexivity|].
  split; [vm_compute; reflexivity|].
  split; [vm_compute; reflexivity|].
  split; [vm_compute; reflexivity|].
  apply (@C3_sponsor_refuses_calls_to_the_vault PaymasterScenario.prims 100000
           PaymasterScenario.op_execute_vault 0 1000 PaymasterScenario.s_whitelisted
           PhantomAccount.execute_selector 0
           (Z_to_be 32 96 ++ Z_to_be 32 36 ++ Z_to_be 4 PaymasterScenario.sel_executeStrategy
              ++ Z_to_be 32 1 ++ Z_to_be 28 0)).
  - vm_compute. lia.
  - vm_compute. reflexivity.
  - vm_compute. reflexivity.
  - vm_compute. split; reflexivity.
  - vm_compute. split; [discriminate|reflexivity].
Defined.

(** C7, in the form the code satisfies. (i) Under a cap of at least 1, a
    check that opens a new day window succeeds and sets the count of the
    user to 1 and the reset time to now. (ii) Inside an open window a check
    is refused with [DailyLimitExceeded] when the count has reached the cap.
    (iii) From deployment, over any history in which the administrator never
    sets the cap below 1 nor below a count already reached, whatever anyone
    else sends, no count exceeds the cap. *)
Theorem C7_daily_limit {prims : Primitives} :
  (forall now user s,
     1 <= maxDailySponsored s ->
     word_at (dailyResetTime s) user + DAYS <= MAX_UINT256 ->
     word_at (dailyResetTime s) user + DAYS < now ->
     exists s',
       _checkAndUpdateDailyLimit now user s = Ok s'
       /\ word_at (sponsoredTxCount s') user = 1
       /\ word_at (dailyResetTime s') user = now) /\
  (forall now user s,
     word_at (dailyResetTime s) user + DAYS <= MAX_UINT256 ->
     now <= word_at (dailyResetTime s) user + DAYS ->
     maxDailySponsored s <= word_at (sponsoredTxCount s) user ->
     _checkAndUpdateDailyLimit now user s = Revert DailyLimitExceeded) /\
  (forall txs _this _chainid _entryPoint _owner _verifyingSigner _phantomVault,
     let s0 := constructor _this _chainid _entryPoint _owner _verifyingSigner _phantomVault in
     cap_respected txs s0 ->
     forall u, word_at (sponsoredTxCount (run txs s0)) u <= maxDailySponsored (run txs s0)).
Proof.
  split; [|split].
  - intros now user s _ Hov Hnew. unfold _checkAndUpdateDailyLimit. unfold_call.
    change (1 * DAYS) with DAYS.
    apply Z.leb_le in Hov. rewrite Hov. apply Z.ltb_lt in Hnew. rewrite Hnew.
    eexists. split; [reflexivity|]. simpl. rewrite !word_at_insert.
    destruct (decide (user = user)); [split; reflexivity|contradiction].
  - intros now user s Hov Hold Hfull. unfold _checkAndUpdateDailyLimit. unfold_call.
    change (1 * DAYS) with DAYS.
    apply Z.leb_le in Hov. rewrite Hov.
    destruct (word_at (dailyResetTime s) user + DAYS <? now) eqn:E.
    { apply Z.ltb_lt in E. lia. }
    apply Z.leb_le in Hfull. now rewrite Hfull.
  - intros txs _this _chainid _entryPoint _owner _verifyingSigner _phantomVault s0 Hcap u.
    assert (Hinit : within_cap s0).
    { split; [simpl; lia|]. intros v. simpl. rewrite word_at_empty. lia. }
    apply (run_within_cap txs s0 Hcap Hinit).
Qed.

(** C7 on the scenario: the first sponsored operation of the user opens a
    window and is counted as 1; a second one is counted as 2, within the
    default cap of 10, and the user's own [setMaxDailySponsored(0)], which is
    refused, does not count against the history. *)
Lemma C7_daily_limit_witness :
  (exists s', _checkAndUpdateDailyLimit 100000 PaymasterScenario.user PaymasterScenario.s0
                = Ok s'
              /\ word_at (sponsoredTxCount s') PaymasterScenario.user = 1
              /\ word_at (dailyResetTime s') PaymasterScenario.user = 100000) /\
  word_at (sponsoredTxCount
             (@run PaymasterScenario.prims
                [PaymasterScenario.validate 100000 PaymasterScenario.op_crafted;
                 PhantomPaymaster.mkTx PaymasterScenario.user 100001 (SetMaxDailySponsored 0);
                 PaymasterScenario.validate 100002 PaymasterScenario.op_crafted]
                PaymasterScenario.s0)) PaymasterScenario.user
    <= maxDailySponsored
         (@run PaymasterScenario.prims
            [PaymasterScenario.validate 100000 PaymasterScenario.op_crafted;
             PhantomPaymaster.mkTx PaymasterScenario.user 100001 (SetMaxDailySponsored 0);
             PaymasterScenario.validate 100002 PaymasterScenario.op_crafted]
            PaymasterScenario.s0).
Proof.
  destruct (@C7_daily_limit PaymasterScenario.prims) as (H1 & _ & H3).
  split.
  - apply H1; vm_compute; [discriminate|discriminate|reflexivity].
  - apply (H3 [PaymasterScenario.validate 100000 PaymasterScenario.op_crafted;
               PhantomPaymaster.mkTx PaymasterScenario.user 100001 (SetMaxDailySponsored 0);
               PaymasterScenario.validate 100002 PaymasterScenario.op_crafted]
              PaymasterScenario.this 1 PaymasterScenario.entryPoint PaymasterScenario.admin
              PaymasterScenario.signer PaymasterScenario.vault).
    split; [exact I|]. split; [|split; [exact I|exact I]].
    intros Hadmin. vm_compute in Hadmin. discriminate Hadmin.
Defined.

(** C7 as stated fails: after one sponsored operation of the user, the
    administrator sets the daily cap to 0; the count (1) then exceeds the
    cap in a reachable state. *)
Lemma C7_counterexample :
  word_at (sponsoredTxCount
             (@run PaymasterScenario.prims
                [PaymasterScenario.validate 100000 PaymasterScenario.op_crafted;
                 PhantomPaymaster.mkTx PaymasterScenario.admin 100001 (SetMaxDailySponsored 0)]
                PaymasterScenario.s0)) PaymasterScenario.user = 1 /\
  maxDailySponsored
    (@run PaymasterScenario.prims
       [PaymasterScenario.validate 100000 PaymasterScenario.op_crafted;
        PhantomPaymaster.mkTx PaymasterScenario.admin 100001 (SetMaxDailySponsored 0)]
       PaymasterScenario.s0) = 0.
Proof. vm_compute. split; reflexivity. Qed.

End PaymasterClaims.

(** ** Claims about the agent factory *)

Module FactoryClaims.
Import PhantomAccountFactory.

Ltac unfold_call :=
  unfold PhantomAccountFactory.checked_add, PhantomAccount.initialize, require in *;
  unfold mbind, mret, fmap, result_bind, result_ret, result_fmap in *.

Section WithPrimitives.
Context {prims : Primitives}.

Lemma factory_run_cons c calls s : run (c :: calls) s = run calls (step c s).
Proof. reflexivity. Qed.

(** The two outcomes of a successful [createAccount]: the agent was there,
    or it is deployed at the derived address, which held no code. *)
Lemma createAccount_ok owner salt s s' a :
  createAccount owner salt s = Ok (s', a) ->
  a = getAddress owner salt s /\
  this s' = this s /\ accountImplementation s' = accountImplementation s /\
  ((code s !!! a <> [] /\ s' = s)
   \/
   (code s !!! a = [] /\
    code s' = <[a := ERC1967Proxy_runtimeCode]> (code s) /\
    events s' = events s ++ [AccountCreated owner a salt])).
Proof.
  unfold createAccount, new_ERC1967Proxy, proxy_initCode, getAddress. unfold_call.
  set (addr := Create2_computeAddress _ _ _).
  destruct (0 <? length (code s !!! addr))%nat eqn:E0.
  - intros H. injection H as <- <-. repeat split; try reflexivity.
    left. split; [|reflexivity]. apply Nat.ltb_lt in E0.
    intros Hnil. rewrite Hnil in E0. simpl in E0. lia.
  - apply Nat.ltb_ge in E0.
    assert (Hnil : code s !!! addr = []).
    { destruct (code s !!! addr); [reflexivity|simpl in E0; lia]. }
    rewrite Hnil. simpl.
    destruct (0 <? length (code s !!! accountImplementation s))%nat; [|discriminate].
    simpl.
    destruct (totalAccounts s + 1 <=? MAX_UINT256); [|discriminate].
    intros H. injection H as <- <-. simpl. repeat split; try reflexivity.
    right. split; [exact Hnil|]. split; reflexivity.
Qed.

Lemma getAddress_stable owner salt s s' :
  this s' = this s -> accountImplementation s' = accountImplementation s ->
  getAddress owner salt s' = getAddress owner salt s.
Proof. intros Ht Hi. unfold getAddress. now rewrite Ht, Hi. Qed.

Lemma createAccount_present owner salt s :
  code s !!! getAddress owner salt s <> [] ->
  createAccount owner salt s = Ok (s, getAddress owner salt s).
Proof.
  intros Hcode. unfold createAccount.
  destruct (0 <? length (code s !!! getAddress owner salt s))%nat eqn:E0; [reflexivity|].
  apply Nat.ltb_ge in E0. destruct (code s !!! getAddress owner salt s); [contradiction|].
  simpl in E0. lia.
Qed.

Lemma step_invariant c s :
  deployed_once s /\ events_consistent s ->
  deployed_once (step c s) /\ events_consistent (step c s).
Proof.
  intros ((Hnd & Hcode) & Hcons). unfold step.
  destruct (createAccount c.1 c.2 s) as [[s' a]|e] eqn:E; [|now repeat split].
  apply createAccount_ok in E as (Ha & Hthis & Himpl & [(_ & ->)|(Hnil & Hc & He)]);
    [now repeat split|].
  assert (Hfresh : ~ In a (deployed s)).
  { intros Hin. apply Hcode in Hin. contradiction. }
  unfold deployed_once, events_consistent, deployed. rewrite He, Hc.
  rewrite List.map_app. simpl. repeat split.
  - apply NoDup_app. split; [assumption|]. split.
    + intros x Hx Hx1. apply list_elem_of_In in Hx. apply list_elem_of_In in Hx1.
      destruct Hx1 as [<-|[]]. contradiction.
    + apply NoDup_singleton.
  - intros x Hx. apply in_app_or in Hx as [Hx|[<-|[]]].
    + destruct (decide (a = x)) as [<-|Hne]; [contradiction|].
      rewrite lookup_total_insert_ne by assumption. now apply Hcode.
    + rewrite lookup_total_insert_eq. apply ERC1967Proxy_runtimeCode_nonempty.
  - apply Forall_app. split.
    + eapply Forall_impl; [exact Hcons|]. intros [o x sl] Hx.
      now rewrite (getAddress_stable o sl s s' Hthis Himpl).
    + constructor; [|constructor].
      now rewrite (getAddress_stable c.1 c.2 s s' Hthis Himpl).
Qed.

Lemma run_invariant calls : forall s,
  deployed_once s /\ events_consistent s ->
  deployed_once (run calls s) /\ events_consistent (run calls s).
Proof.
  induction calls as [|c calls IH]; intros s Hinv; [assumption|].
  rewrite factory_run_cons. apply IH. now apply step_invariant.
Qed.

End WithPrimitives.

(** C8. (i) A successful [createAccount(owner, salt)] returns the address
    [getAddress(owner, salt)], which is the same before and after the call
    and holds code afterwards; calling it again returns the same address and
    changes nothing. (ii) [createAccount] succeeds whenever the
    implementation is deployed and the account counter is not saturated.
    (iii) Over any history of calls from a factory
    that has deployed nothing, every agent in the log sits at the derived
    address of its owner and salt, and no address is logged twice: at most
    one agent is deployed per owner and salt. *)
Theorem C8_createAccount_deterministic_idempotent {prims : Primitives} :
  (forall owner salt s s' a,
     createAccount owner salt s = Ok (s', a) ->
     a = getAddress owner salt s /\ getAddress owner salt s' = a /\
     code s' !!! a <> [] /\
     createAccount owner salt s' = Ok (s', a)) /\
  (forall owner salt s,
     code s !!! accountImplementation s <> [] ->
     totalAccounts s < MAX_UINT256 ->
     is_ok (createAccount owner salt s) = true) /\
  (forall calls s,
     events s = [] ->
     NoDup (deployed (run calls s)) /\ events_consistent (run calls s)).
Proof.
  split; [|split].
  - intros owner salt s s' a H.
    apply createAccount_ok in H as (Ha & Hthis & Himpl & Hcases).
    assert (Hsame : getAddress owner salt s' = a).
    { rewrite (getAddress_stable owner salt s s' Hthis Himpl). now symmetry. }
    assert (Hcode : code s' !!! a <> []).
    { destruct Hcases as [(Hc & ->)|(_ & Hc & _)]; [assumption|].
      rewrite Hc, lookup_total_insert_eq. apply ERC1967Proxy_runtimeCode_nonempty. }
    repeat split; try assumption.
    rewrite <- Hsame. apply createAccount_present. now rewrite Hsame.
  - intros owner salt s Himpl Hlt.
    unfold createAccount, new_ERC1967Proxy. unfold_call.
    destruct (0 <? length (code s !!! getAddress owner salt s))%nat eqn:E0; [reflexivity|].
    apply Nat.ltb_ge in E0.
    unfold proxy_initCode. fold (getAddress owner salt s).
    destruct (code s !!! getAddress owner salt s) eqn:Ec; [|simpl in E0; lia].
    simpl.
    destruct (code s !!! accountImplementation s) eqn:Ei; [contradiction|].
    simpl.
    destruct (totalAccounts s + 1 <=? MAX_UINT256) eqn:Eov; [reflexivity|].
    apply Z.leb_gt in Eov. lia.
  - intros calls s Hev.
    assert (Hinit : deployed_once s /\ events_consistent s).
    { unfold deployed_once, events_consistent, deployed. rewrite Hev. simpl.
      repeat split; [apply NoDup_nil_2|intros a []|constructor]. }
    destruct (run_invariant calls s Hinit) as ((Hnd & _) & Hcons). now split.
Qed.

(** C8 on the scenario: alice's agent is created once; a second call, by
    anyone, finds it. *)
Lemma C8_createAccount_deterministic_idempotent_witness :
  is_ok (@createAccount FactoryScenario.prims FactoryScenario.alice 7 FactoryScenario.s0)
    = true /\
  NoDup (deployed (@run FactoryScenario.prims
                     [(FactoryScenario.alice, 7); (FactoryScenario.bob, 7);
                      (FactoryScenario.alice, 7)] FactoryScenario.s0)).
Proof.
  destruct (@C8_createAccount_deterministic_idempotent FactoryScenario.prims)
    as (_ & H2 & H3).
  split.
  - apply H2; vm_compute; [discriminate|reflexivity].
  - apply H3. reflexivity.
Defined.

End FactoryClaims.

(** ** Further properties of the vault *)

Module VaultCoverage.
Import Vault PhantomVault PhantomVaultViews VaultFacts.

(** Unfolds every function of the vault in a hypothesis. *)
Ltac open_exec H :=
  unfold createPortfolio, updatePortfolio, submitRiskAnalysis, submitStrategy,
    executeStrategy, triggerAutoRebalance, setTrustedIApp, setTrustedWorkerpool, setFees,
    setMinRebalanceInterval, pause, unpause, _verifyTEESignature,
    _verifyStrategySignature, _executeRebalance in H;
  unfold_call.

Lemma count_app p l e :
  count p (l ++ [e]) = count p l + (if p e then 1 else 0).
Proof.
  unfold count. rewrite List.filter_app, length_app. simpl.
  destruct (p e); simpl; lia.
Qed.

(** X1. [createPortfolio] succeeds exactly when the vault is not paused, the
    data reference is not zero, the threshold is at most 5000 and the
    portfolio counter is not saturated; it then stores the record
    [(sender, id, 0, 0, autoRebalance, threshold, now)] for the caller, adds
    one to [totalPortfolios], and leaves every other portfolio, the
    strategies and the risk histories as they were. *)
Theorem X1_createPortfolio_round_trip msg_sender now id auto threshold s :
  (is_ok (createPortfolio msg_sender now id auto threshold s) = true <->
   paused s = false /\ id <> 0 /\ threshold <= 5000 /\ totalPortfolios s < MAX_UINT256) /\
  (forall s', createPortfolio msg_sender now id auto threshold s = Ok s' ->
     getPortfolio msg_sender s' = mkPortfolio msg_sender id 0 0 auto threshold now /\
     (forall u, u <> msg_sender -> getPortfolio u s' = getPortfolio u s) /\
     totalPortfolios s' = totalPortfolios s + 1 /\
     strategies s' = strategies s /\ riskHistory s' = riskHistory s).
Proof.
  unfold createPortfolio, getPortfolio. unfold_call. split.
  - destruct (paused s); simpl; [split; [discriminate|intros (? & _); discriminate]|].
    destruct (id =? 0) eqn:Ei; simpl.
    { apply Z.eqb_eq in Ei. split; [discriminate|intros (_ & ? & _); contradiction]. }
    apply Z.eqb_neq in Ei.
    destruct (5000 <? threshold) eqn:Et; simpl.
    { apply Z.ltb_lt in Et. split; [discriminate|intros (_ & _ & ? & _); lia]. }
    apply Z.ltb_ge in Et.
    destruct (totalPortfolios s + 1 <=? MAX_UINT256) eqn:Eo; simpl.
    + apply Z.leb_le in Eo. split; [intros _; repeat split; auto; lia|reflexivity].
    + apply Z.leb_gt in Eo. split; [discriminate|intros (_ & _ & _ & ?); lia].
  - intros s' H. split_tests. injection H as <-. simpl.
    rewrite lookup_total_insert_eq. repeat split.
    intros u Hu. now rewrite lookup_total_insert_ne.
Qed.

(** X1 on the scenario: alice's portfolio reads back as created. *)
Lemma X1_createPortfolio_round_trip_witness :
  getPortfolio VaultScenario.alice VaultScenario.s_created
    = mkPortfolio VaultScenario.alice 77 0 0 true 500 1000.
Proof.
  destruct (proj2 (X1_createPortfolio_round_trip VaultScenario.alice 1000 77 true 500
                     VaultScenario.s0) VaultScenario.s_created) as (H & _).
  - vm_compute. reflexivity.
  - exact H.
Defined.

(** X2. [updatePortfolio] fails with [PortfolioNotFound] for a caller without
    a portfolio; otherwise, on an unpaused vault, it succeeds, keeps the
    stored data reference when the new one is zero and replaces it otherwise,
    writes the flag and the threshold, and keeps owner, last analysis, risk
    score and creation time; portfolios of other users are untouched. *)
Theorem X2_updatePortfolio_effects msg_sender now newId auto threshold s :
  paused s = false ->
  (owner (getPortfolio msg_sender s) = 0 ->
   updatePortfolio msg_sender now newId auto threshold s = Revert PortfolioNotFound) /\
  (owner (getPortfolio msg_sender s) <> 0 ->
   exists s', updatePortfolio msg_sender now newId auto threshold s = Ok s' /\
     getPortfolio msg_sender s'
       = mkPortfolio (owner (getPortfolio msg_sender s))
           (if newId =? 0 then protectedDataId (getPortfolio msg_sender s) else newId)
           (lastAnalysis (getPortfolio msg_sender s)) (riskScore (getPortfolio msg_sender s))
           auto threshold (createdAt (getPortfolio msg_sender s)) /\
     (forall u, u <> msg_sender -> getPortfolio u s' = getPortfolio u s) /\
     totalPortfolios s' = totalPortfolios s).
Proof.
  intros Hp. unfold updatePortfolio, getPortfolio. unfold_call. rewrite Hp. simpl. split.
  - intros H0. now rewrite H0.
  - intros Hne. apply Z.eqb_neq in Hne. rewrite Hne. simpl.
    eexists. split; [reflexivity|]. simpl. rewrite lookup_total_insert_eq.
    split; [now destruct (newId =? 0)|]. split; [|reflexivity].
    intros u Hu. now rewrite lookup_total_insert_ne.
Qed.

(** X2 on the scenario: bob has no portfolio; alice's data reference is kept
    when the new one is zero. *)
Lemma X2_updatePortfolio_effects_witness :
  updatePortfolio VaultScenario.bob 2000 5 true 100 VaultScenario.s_created
    = Revert PortfolioNotFound /\
  exists s', updatePortfolio VaultScenario.alice 2000 0 false 200 VaultScenario.s_created
               = Ok s'
             /\ protectedDataId (getPortfolio VaultScenario.alice s') = 77.
Proof.
  destruct (X2_updatePortfolio_effects VaultScenario.bob 2000 5 true 100
              VaultScenario.s_created) as (Hnone & _); [vm_compute; reflexivity|].
  destruct (X2_updatePortfolio_effects VaultScenario.alice 2000 0 false 200
              VaultScenario.s_created) as (_ & Hsome); [vm_compute; reflexivity|].
  split.
  - apply Hnone. vm_compute. reflexivity.
  - destruct Hsome as (s' & Hok & Hget & _); [vm_compute; discriminate|].
    exists s'. split; [exact Hok|]. rewrite Hget. vm_compute. reflexivity.
Defined.


Section WithPrimitives.
Context {prims : Primitives}.

(** What a successful [submitRiskAnalysis] did. *)
Lemma submitRiskAnalysis_ok msg_sender now user report sig s s' :
  submitRiskAnalysis msg_sender now user report sig s = Ok s' ->
  paused s = false /\
  _verifyTEESignature (trustedIApp s) user report sig = Ok true /\
  owner (portfolios s !!! user) <> 0 /\
  portfolios s' = <[user := mkPortfolio (owner (portfolios s !!! user))
                      (protectedDataId (portfolios s !!! user)) now (portfolioScore report)
                      (autoRebalance (portfolios s !!! user))
                      (rebalanceThreshold (portfolios s !!! user))
                      (createdAt (portfolios s !!! user))]> (portfolios s) /\
  riskHistory s' = <[user := (riskHistory s !!! user) ++ [report]]> (riskHistory s) /\
  strategies s' = strategies s /\ config s' = config s /\
  totalPortfolios s' = totalPortfolios s /\
  totalStrategiesExecuted s' = totalStrategiesExecuted s.
Proof.
  unfold submitRiskAnalysis. unfold_call. intros H.
  destruct (paused s) eqn:Hp; [discriminate|]. simpl in H.
  destruct (_verifyTEESignature _ _ _ _) as [[|]|] eqn:Hv; try discriminate. simpl in H.
  destruct (owner (portfolios s !!! user) =? 0) eqn:Ho; [discriminate|]. simpl in H.
  apply Z.eqb_neq in Ho. injection H as <-. simpl.
  unfold config. simpl. rewrite Hp. repeat split; auto.
Qed.

(** What a successful [submitRiskAnalysis] leaves to read. *)
Lemma submitRiskAnalysis_history msg_sender now user report sig s s' :
  submitRiskAnalysis msg_sender now user report sig s = Ok s' ->
  getRiskHistory user s' = getRiskHistory user s ++ [report] /\
  getLatestRiskReport user s' = report /\
  lastAnalysis (getPortfolio user s') = now /\
  owner (getPortfolio user s') = owner (getPortfolio user s).
Proof.
  intros H. apply submitRiskAnalysis_ok in H as (_ & _ & _ & Hp & Hh & _).
  unfold getRiskHistory, getLatestRiskReport, getPortfolio.
  rewrite Hp, Hh, !lookup_total_insert_eq. simpl.
  repeat split.
  rewrite length_app. simpl.
  destruct (length (riskHistory s !!! user) + 1 =? 0)%nat eqn:E;
    [apply Nat.eqb_eq in E; lia|].
  replace (length (riskHistory s !!! user) + 1 - 1)%nat
    with (length (riskHistory s !!! user) + 0)%nat by lia.
  rewrite lookup_total_app_r by lia.
  replace (length (riskHistory s !!! user) + 0 - length (riskHistory s !!! user))%nat
    with 0%nat by lia.
  reflexivity.
Qed.

(** X3. A successful [submitRiskAnalysis] appends the report to the history
    of the user, so that [getLatestRiskReport] returns it, and mirrors it in
    the portfolio: [lastAnalysis] is the current time and [riskScore] the
    score of the report; the other fields of the portfolio (owner, data
    reference, auto-rebalance flag, threshold, creation time), the
    portfolios and histories of other users and the strategies are
    untouched. *)
Theorem X3_submitRiskAnalysis_effects msg_sender now user report sig s s' :
  submitRiskAnalysis msg_sender now user report sig s = Ok s' ->
  getRiskHistory user s' = getRiskHistory user s ++ [report] /\
  getLatestRiskReport user s' = report /\
  lastAnalysis (getPortfolio user s') = now /\
  riskScore (getPortfolio user s') = portfolioScore report /\
  owner (getPortfolio user s') = owner (getPortfolio user s) /\
  protectedDataId (getPortfolio user s') = protectedDataId (getPortfolio user s) /\
  autoRebalance (getPortfolio user s') = autoRebalance (getPortfolio user s) /\
  rebalanceThreshold (getPortfolio user s') = rebalanceThreshold (getPortfolio user s) /\
  createdAt (getPortfolio user s') = createdAt (getPortfolio user s) /\
  (forall u, u <> user ->
     getPortfolio u s' = getPortfolio u s /\ getRiskHistory u s' = getRiskHistory u s) /\
  strategies s' = strategies s.
Proof.
  intros H. apply submitRiskAnalysis_ok in H as (_ & _ & _ & Hp & Hh & Hs & _).
  unfold getRiskHistory, getLatestRiskReport, getPortfolio.
  rewrite Hp, Hh, !lookup_total_insert_eq. simpl.
  repeat split; try assumption.
  - rewrite length_app. simpl.
    destruct (length (riskHistory s !!! user) + 1 =? 0)%nat eqn:E;
      [apply Nat.eqb_eq in E; lia|].
    replace (length (riskHistory s !!! user) + 1 - 1)%nat
      with (length (riskHistory s !!! user) + 0)%nat by lia.
    rewrite lookup_total_app_r by lia.
    replace (length (riskHistory s !!! user) + 0 - length (riskHistory s !!! user))%nat
      with 0%nat by lia.
    reflexivity.
  - now rewrite lookup_total_insert_ne.
  - now rewrite lookup_total_insert_ne.
Qed.

(** X4. The risk history of a user is append-only: over every history of
    calls, what was recorded stays a prefix of what is recorded. *)
Theorem X4_riskHistory_append_only txs : forall s user,
  getRiskHistory user s `prefix_of` getRiskHistory user (run txs s).
Proof.
  induction txs as [|t txs IH]; intros s user; [reflexivity|].
  rewrite vault_run_cons. etransitivity; [|apply IH].
  unfold step, getRiskHistory.
  destruct (exec _ _ _ s) as [s'|e] eqn:E; simpl; [|reflexivity].
  destruct (tx_call t); simpl in E.
  3:{ apply submitRiskAnalysis_ok in E as (_ & _ & _ & _ & -> & _).
      destruct (decide (user0 = user)) as [->|Hne].
      - rewrite lookup_total_insert_eq. now apply prefix_app_r.
      - now rewrite lookup_total_insert_ne. }
  3:{ destruct (submitStrategy _ _ _ _ _ _ s) as [[s1 h]|] eqn:E1; [|discriminate].
      injection E as <-. open_exec E1. split_tests. now injection E1 as <- _. }
  all: open_exec E; split_tests; injection E as <-; reflexivity.
Qed.

(** X5. An accepted risk report can be submitted again: after a successful
    [submitRiskAnalysis], the same call, by any sender at any time, succeeds
    on the resulting state and appends the report once more. *)
Theorem X5_risk_report_replay msg_sender now user report sig s s' :
  submitRiskAnalysis msg_sender now user report sig s = Ok s' ->
  forall msg_sender' now',
  exists s'', submitRiskAnalysis msg_sender' now' user report sig s' = Ok s'' /\
    getRiskHistory user s'' = getRiskHistory user s ++ [report; report] /\
    lastAnalysis (getPortfolio user s'') = now'.
Proof.
  intros H msg_sender' now'.
  pose proof (submitRiskAnalysis_history _ _ _ _ _ _ _ H) as (Hh & _ & _ & Ho).
  apply submitRiskAnalysis_ok in H as (Hp & Hv & Hne & _ & _ & _ & Hc & _).
  assert (Hc' : paused s' = false /\ trustedIApp s' = trustedIApp s).
  { unfold config in Hc. injection Hc as -> _ _ _ _ -> _. auto. }
  destruct Hc' as (Hp' & Hi').
  destruct (submitRiskAnalysis msg_sender' now' user report sig s') as [s''|e] eqn:E.
  - exists s''. split; [reflexivity|].
    pose proof (submitRiskAnalysis_history _ _ _ _ _ _ _ E) as (Hh' & _ & Hl & _).
    rewrite Hh', Hh, <- app_assoc. auto.
  - exfalso. unfold submitRiskAnalysis in E. unfold_call.
    rewrite Hp', Hi', Hv in E. simpl in E.
    unfold getPortfolio in Ho. rewrite Ho in E.
    apply Z.eqb_neq in Hne. rewrite Hne in E. discriminate.
Qed.


(** What a successful [submitStrategy] did. *)
Lemma submitStrategy_ok msg_sender now assets allocs sig period s s' h :
  submitStrategy msg_sender now assets allocs sig period s = Ok (s', h) ->
  paused s = false /\ length assets = length allocs /\ period <= 24 * HOURS /\
  owner (portfolios s !!! msg_sender) <> 0 /\
  h = keccak256 (abi_encode_strategy_key msg_sender assets allocs now) /\
  strategies s' = <[h := mkStrategy h assets allocs sig (now + period) false]> (strategies s) /\
  portfolios s' = portfolios s /\ riskHistory s' = riskHistory s /\ config s' = config s /\
  totalPortfolios s' = totalPortfolios s /\
  totalStrategiesExecuted s' = totalStrategiesExecuted s /\
  events s' = events s ++ [StrategySubmitted msg_sender h (now + period)].
Proof.
  unfold submitStrategy. unfold_call. intros H.
  destruct (paused s) eqn:Hp; [discriminate|]. simpl in H.
  destruct (length assets =? length allocs)%nat eqn:El; [|discriminate]. simpl in H.
  destruct (24 * HOURS <? period) eqn:Ep; [discriminate|]. simpl in H.
  destruct (owner (portfolios s !!! msg_sender) =? 0) eqn:Ho; [discriminate|]. simpl in H.
  destruct (now + period <=? MAX_UINT256); [|discriminate].
  injection H as <- <-. simpl. unfold config. simpl. rewrite Hp.
  apply Nat.eqb_eq in El. apply Z.ltb_ge in Ep. apply Z.eqb_neq in Ho.
  repeat split; auto.
Qed.

(** X6. A successful [submitStrategy] returns the hash of (sender, assets,
    allocations, time); the arrays have the same length and the period is at
    most 24 hours; the record is stored unexecuted with deadline
    [now + period], so when the hash is not zero the strategy is valid at
    every time up to the deadline and at none after it. *)
Theorem X6_submitStrategy_round_trip msg_sender now assets allocs sig period s s' h :
  submitStrategy msg_sender now assets allocs sig period s = Ok (s', h) ->
  h = keccak256 (abi_encode_strategy_key msg_sender assets allocs now) /\
  length assets = length allocs /\ period <= 24 * HOURS /\
  strategies s' !!! h = mkStrategy h assets allocs sig (now + period) false /\
  (forall k, k <> h -> strategies s' !!! k = strategies s !!! k) /\
  (h <> 0 -> forall t, isStrategyValid t h s' = (t <=? now + period)).
Proof.
  intros H. apply submitStrategy_ok in H as (_ & Hl & Hp & _ & Hh & Hs & _).
  rewrite Hs. repeat split; try assumption.
  - now rewrite lookup_total_insert_eq.
  - intros k Hk. now rewrite lookup_total_insert_ne.
  - intros Hne t. unfold isStrategyValid. rewrite ?Hs, lookup_total_insert_eq. simpl.
    apply Z.eqb_neq in Hne. now rewrite Hne.
Qed.

Lemma step_keyed t s : keyed s -> keyed (step t s).
Proof.
  intros Hk. unfold step.
  destruct (exec _ _ _ s) as [s'|e] eqn:E; simpl; [|assumption].
  destruct (is_submit (tx_call t)) eqn:Hs;
    [|destruct (is_execute (tx_call t)) eqn:He; [|destruct (is_trigger (tx_call t)) eqn:Ht]].
  - destruct (tx_call t); try discriminate. simpl in E.
    destruct (submitStrategy _ _ _ _ _ _ s) as [[s1 h]|] eqn:E1; [|discriminate].
    injection E as <-. apply submitStrategy_ok in E1 as (_ & _ & _ & _ & _ & Hs1 & _).
    intros k. rewrite Hs1. destruct (decide (h = k)) as [->|Hne].
    + rewrite lookup_total_insert_eq. now right.
    + rewrite lookup_total_insert_ne by assumption. apply Hk.
  - destruct (tx_call t); try discriminate. simpl in E.
    apply executeStrategy_ok in E as (_ & _ & _ & _ & Hs1 & _).
    intros k. rewrite Hs1. destruct (decide (h = k)) as [->|Hne].
    + rewrite lookup_total_insert_eq. apply Hk.
    + rewrite lookup_total_insert_ne by assumption. apply Hk.
  - destruct (tx_call t); try discriminate. simpl in E.
    apply triggerAutoRebalance_strategies in E as Hs1.
    intros k. rewrite Hs1. destruct (decide (strategyHash strategy = k)) as [<-|Hne].
    + rewrite lookup_total_insert_eq. now right.
    + rewrite lookup_total_insert_ne by assumption. apply Hk.
  - intros k. rewrite (exec_other_strategies _ _ _ _ _ Hs Ht He E). apply Hk.
Qed.

(** X7. In every state reached from deployment, the record stored under a
    key is empty (hash zero) or carries that key as its hash: [submitStrategy]
    and [triggerAutoRebalance] both file a strategy under its own hash. *)
Theorem X7_strategies_keyed_by_hash txs deployer iApp pool recipient k :
  let s := run txs (constructor deployer iApp pool recipient) in
  strategyHash (strategies s !!! k) = 0 \/ strategyHash (strategies s !!! k) = k.
Proof.
  simpl. revert k.
  assert (H : forall s, keyed s -> keyed (run txs s)).
  { induction txs as [|t txs IH]; intros s Hs; [assumption|].
    rewrite vault_run_cons. apply IH. now apply step_keyed. }
  apply H. intros k. left. simpl. now rewrite lookup_total_empty.
Qed.

(** The effect of a successful call on the counters and the log. *)
Lemma exec_counters msg_sender now c s s' :
  exec msg_sender now c s = Ok s' ->
  totalPortfolios s' - count is_PortfolioCreated (events s')
    = totalPortfolios s - count is_PortfolioCreated (events s) /\
  totalStrategiesExecuted s' - count is_execution (events s')
    = totalStrategiesExecuted s - count is_execution (events s).
Proof.
  intros E. destruct c; simpl in E.
  4:{ destruct (submitStrategy _ _ _ _ _ _ s) as [[s1 h]|] eqn:E1; [|discriminate].
      injection E as <-.
      apply submitStrategy_ok in E1 as (_ & _ & _ & _ & _ & _ & _ & _ & _ & -> & -> & ->).
      rewrite !count_app. simpl. lia. }
  all: open_exec E; split_tests; injection E as <-; simpl; rewrite ?count_app; simpl;
       split; lia.
Qed.

(** X8. In every state reached from deployment, [totalPortfolios] is the
    number of [PortfolioCreated] events, that is of successful
    [createPortfolio] calls (a user who creates a portfolio twice is counted
    twice), and [totalStrategiesExecuted] is the number of [StrategyExecuted]
    and [AutoRebalanceTriggered] events. *)
Theorem X8_counters_count_events txs deployer iApp pool recipient :
  let s := run txs (constructor deployer iApp pool recipient) in
  totalPortfolios s = count is_PortfolioCreated (events s) /\
  totalStrategiesExecuted s = count is_execution (events s).
Proof.
  simpl.
  assert (H : forall s,
    totalPortfolios (run txs s) - count is_PortfolioCreated (events (run txs s))
      = totalPortfolios s - count is_PortfolioCreated (events s) /\
    totalStrategiesExecuted (run txs s) - count is_execution (events (run txs s))
      = totalStrategiesExecuted s - count is_execution (events s)).
  { induction txs as [|t txs IH]; intros s; [split; reflexivity|].
    rewrite vault_run_cons. destruct (IH (step t s)) as (H1 & H2). rewrite H1, H2.
    unfold step. destruct (exec _ _ _ s) as [s'|e] eqn:E; simpl; [|split; reflexivity].
    now apply exec_counters in E. }
  destruct (H (constructor deployer iApp pool recipient)) as (H1 & H2).
  simpl in H1, H2. unfold count in H1 at 2. unfold count in H2 at 2. simpl in H1, H2.
  split; lia.
Qed.

(** The effect of a successful call on the settings. *)
Lemma exec_config msg_sender now c s s' :
  exec msg_sender now c s = Ok s' ->
  (config s' = config s \/ msg_sender = admin s) /\
  (executionFeeBps s <= 100 -> executionFeeBps s' <= 100).
Proof.
  intros E. destruct c; simpl in E.
  4:{ destruct (submitStrategy _ _ _ _ _ _ s) as [[s1 h]|] eqn:E1; [|discriminate].
      injection E as <-.
      apply submitStrategy_ok in E1 as (_ & _ & _ & _ & _ & _ & _ & _ & Hc & _).
      split; [now left|]. unfold config in Hc. injection Hc as _ _ _ -> _ _ _. auto. }
  all: open_exec E; split_tests; injection E as <-; unfold config; simpl.
  all: try (split; [now left|auto]).
  all: split; [right; now apply Z.eqb_eq|intros; try assumption].
  apply Z.leb_le. assumption.
Qed.

(** X9. In every state reached from deployment the execution fee is at most
    100 basis points; and a call whose sender is not the administrator never
    changes the settings of the vault (trusted iApp, workerpool, minimum
    interval, fee, fee recipient, pause flag, administrator). *)
Theorem X9_settings_are_the_administrators txs deployer iApp pool recipient :
  executionFeeBps (run txs (constructor deployer iApp pool recipient)) <= 100 /\
  (forall t s, tx_sender t <> admin s -> config (step t s) = config s).
Proof.
  split.
  - assert (H : forall s, executionFeeBps s <= 100 -> executionFeeBps (run txs s) <= 100).
    { induction txs as [|t txs IH]; intros s Hs; [assumption|].
      rewrite vault_run_cons. apply IH. unfold step.
      destruct (exec _ _ _ s) as [s'|e] eqn:E; simpl; [|assumption].
      apply exec_config in E as (_ & Hf). auto. }
    apply H. simpl. lia.
  - intros t s Hne. unfold step.
    destruct (exec _ _ _ s) as [s'|e] eqn:E; simpl; [|reflexivity].
    apply exec_config in E as ([Hc|Ha] & _); [assumption|contradiction].
Qed.

(** X10. While the vault is paused, [createPortfolio], [updatePortfolio],
    [submitRiskAnalysis], [submitStrategy], [executeStrategy] and
    [triggerAutoRebalance] all fail with [EnforcedPause], whatever their
    arguments; and pausing then unpausing gives back the same ledger (only
    the event log grows). *)
Theorem X10_pause_blocks_user_calls msg_sender now c s :
  (paused s = true -> is_guarded c = true ->
   exec msg_sender now c s = Revert EnforcedPause) /\
  (forall s1, pause msg_sender s = Ok s1 ->
     exists s2, unpause msg_sender s1 = Ok s2 /\ ledger s2 = ledger s).
Proof.
  split.
  - intros Hp Hg. destruct c; try discriminate; simpl.
    all: unfold createPortfolio, updatePortfolio, submitRiskAnalysis, submitStrategy,
           executeStrategy, triggerAutoRebalance; unfold_call; now rewrite Hp.
  - intros s1 H. unfold pause in H. unfold_call.
    destruct (msg_sender =? admin s) eqn:Ea; [|discriminate]. simpl in H.
    destruct (paused s) eqn:Hp; [discriminate|]. simpl in H. injection H as <-.
    unfold unpause. unfold_call. simpl. rewrite Ea. simpl.
    eexists. split; [reflexivity|]. unfold ledger. simpl. now rewrite Hp.
Qed.

(** When [triggerAutoRebalance] succeeds. *)
Lemma triggerAutoRebalance_ok_iff msg_sender now user deviation strategy sig s :
  is_ok (triggerAutoRebalance msg_sender now user deviation strategy sig s) = true <->
  paused s = false /\
  autoRebalance (portfolios s !!! user) = true /\
  rebalanceThreshold (portfolios s !!! user) <= deviation /\
  lastAnalysis (portfolios s !!! user) + minRebalanceInterval s <= MAX_UINT256 /\
  lastAnalysis (portfolios s !!! user) + minRebalanceInterval s <= now /\
  _verifyStrategySignature (trustedIApp s) user strategy sig = Ok true /\
  totalStrategiesExecuted s < MAX_UINT256.
Proof.
  unfold triggerAutoRebalance, _executeRebalance. unfold_call.
  destruct (paused s); simpl; [split; [discriminate|intros (? & _); discriminate]|].
  destruct (autoRebalance (portfolios s !!! user)); simpl;
    [|split; [discriminate|intros (_ & ? & _); discriminate]].
  destruct (deviation <? rebalanceThreshold (portfolios s !!! user)) eqn:Ed; simpl.
  { apply Z.ltb_lt in Ed. split; [discriminate|intros (_ & _ & ? & _); lia]. }
  apply Z.ltb_ge in Ed.
  destruct (lastAnalysis (portfolios s !!! user) + minRebalanceInterval s <=? MAX_UINT256)
    eqn:Eo; simpl.
  2:{ apply Z.leb_gt in Eo. split; [discriminate|intros (_ & _ & _ & ? & _); lia]. }
  apply Z.leb_le in Eo.
  destruct (now <? lastAnalysis (portfolios s !!! user) + minRebalanceInterval s) eqn:Et;
    simpl.
  { apply Z.ltb_lt in Et. split; [discriminate|intros (_ & _ & _ & _ & ? & _); lia]. }
  apply Z.ltb_ge in Et.
  destruct (_verifyStrategySignature (trustedIApp s) user strategy sig) as [[|]|] eqn:Ev;
    simpl.
  2,3: split; [discriminate|intros (_ & _ & _ & _ & _ & ? & _); discriminate].
  destruct (totalStrategiesExecuted s + 1 <=? MAX_UINT256) eqn:Ec; simpl.
  - apply Z.leb_le in Ec. split; [intros _; repeat split; auto; lia|reflexivity].
  - apply Z.leb_gt in Ec. split; [discriminate|intros (_ & _ & _ & _ & _ & _ & ?); lia].
Qed.

(** What a successful [triggerAutoRebalance] left alone. *)
Lemma triggerAutoRebalance_frame msg_sender now user deviation strategy sig s s' :
  triggerAutoRebalance msg_sender now user deviation strategy sig s = Ok s' ->
  portfolios s' = portfolios s /\ config s' = config s /\
  totalStrategiesExecuted s' = totalStrategiesExecuted s + 1.
Proof.
  intros H.
  assert (Hp : paused s = false).
  { assert (Hok : is_ok (triggerAutoRebalance msg_sender now user deviation strategy sig s)
                  = true) by now rewrite H.
    now apply triggerAutoRebalance_ok_iff in Hok. }
  open_exec H. split_tests. injection H as <-. unfold config. simpl.
  rewrite Hp. auto.
Qed.

(** X11. [triggerAutoRebalance] does not touch the portfolio it acts for: the
    interval it enforces runs from the last risk analysis, not from the last
    rebalance. So after a successful call, the same call (same user,
    deviation, strategy and attestation) succeeds again at once and at every
    later time, by any sender, as long as the execution counter is not
    saturated; each success adds one to [totalStrategiesExecuted]. *)
Theorem X11_triggerAutoRebalance_repeats msg_sender now user deviation strategy sig s s' :
  triggerAutoRebalance msg_sender now user deviation strategy sig s = Ok s' ->
  getPortfolio user s' = getPortfolio user s /\
  executed (strategies s' !!! strategyHash strategy) = true /\
  totalStrategiesExecuted s' = totalStrategiesExecuted s + 1 /\
  (forall msg_sender' now',
     now <= now' -> totalStrategiesExecuted s' < MAX_UINT256 ->
     is_ok (triggerAutoRebalance msg_sender' now' user deviation strategy sig s') = true).
Proof.
  intros H.
  pose proof (triggerAutoRebalance_frame _ _ _ _ _ _ _ _ H) as (Hp & Hc & Ht).
  pose proof (triggerAutoRebalance_strategies _ _ _ _ _ _ _ _ H) as Hs.
  assert (Hok : is_ok (triggerAutoRebalance msg_sender now user deviation strategy sig s)
                = true) by now rewrite H.
  apply triggerAutoRebalance_ok_iff in Hok as (H1 & H2 & H3 & H4 & H5 & H6 & _).
  unfold getPortfolio. rewrite Hp, Hs, lookup_total_insert_eq.
  repeat split; try assumption.
  intros msg_sender' now' Hlater Hroom.
  apply triggerAutoRebalance_ok_iff. rewrite Hp.
  unfold config in Hc. injection Hc as -> _ -> _ _ -> _.
  repeat split; try assumption. lia.
Qed.

(** X12. The attestation check compares the recovered address with
    [trustedIApp], and [ecrecover] yields the zero address on a signature it
    cannot recover. While [trustedIApp] is the zero address, as the
    deployment script leaves it, a 65-byte signature that recovers to nothing
    passes the check: a risk report carrying it is accepted for any user who
    has a portfolio. *)
Theorem X12_zero_iApp_accepts_unrecoverable msg_sender now user report sig s :
  trustedIApp s = 0 ->
  paused s = false ->
  owner (getPortfolio user s) <> 0 ->
  length sig = 65%nat ->
  ecrecover (toEthSignedMessageHash (keccak256 (abi_encode_user_report user report)))
    (calldataload sig 64 / 2 ^ 248) (calldataload sig 0) (calldataload sig 32) = 0 ->
  _verifyTEESignature (trustedIApp s) user report sig = Ok true /\
  exists s', submitRiskAnalysis msg_sender now user report sig s = Ok s' /\
             getLatestRiskReport user s' = report.
Proof.
  intros Hi Hp Ho Hl Hrec.
  assert (Hv : _verifyTEESignature (trustedIApp s) user report sig = Ok true).
  { unfold _verifyTEESignature, _recoverSigner. unfold_call.
    rewrite Hl. simpl. rewrite Hrec, Hi. reflexivity. }
  split; [exact Hv|].
  destruct (submitRiskAnalysis msg_sender now user report sig s) as [s'|e] eqn:E.
  - exists s'. split; [reflexivity|].
    now apply submitRiskAnalysis_history in E as (_ & ? & _).
  - exfalso. unfold submitRiskAnalysis in E. unfold_call.
    rewrite Hp, Hv in E. simpl in E. unfold getPortfolio in Ho.
    apply Z.eqb_neq in Ho. rewrite Ho in E. discriminate.
Qed.

End WithPrimitives.

(** X6 on the scenario: alice's strategy, submitted at 1000 for an hour. *)
Lemma X6_submitStrategy_round_trip_witness :
  isStrategyValid 4600 VaultScenario.fingerprint VaultScenario.s_submitted = true /\
  isStrategyValid 4601 VaultScenario.fingerprint VaultScenario.s_submitted = false.
Proof.
  assert (H : @submitStrategy VaultScenario.prims VaultScenario.alice 1000 [11; 12]
                [6000; 4000] [] 3600 VaultScenario.s_created
              = Ok (VaultScenario.s_submitted, VaultScenario.fingerprint))
    by (vm_compute; reflexivity).
  apply X6_submitStrategy_round_trip in H as (_ & _ & _ & _ & _ & Hv).
  split; rewrite Hv; try (vm_compute; reflexivity); vm_compute; discriminate.
Defined.

(** X9 on the scenario: bob cannot pause the vault. *)
Lemma X9_settings_are_the_administrators_witness :
  config (@step VaultScenario.prims (mkTx VaultScenario.bob 2000 Pause) VaultScenario.s_created)
    = config VaultScenario.s_created.
Proof.
  apply (proj2 (@X9_settings_are_the_administrators VaultScenario.prims [] 0 0 0 0)).
  vm_compute. discriminate.
Defined.

(** X10 on the scenario: once the deployer has paused the vault, alice's
    strategy cannot be executed, and no portfolio can be created. *)
Lemma X10_pause_blocks_user_calls_witness :
  @exec VaultScenario.prims VaultScenario.bob 2000 (ExecuteStrategy VaultScenario.fingerprint)
    (@run VaultScenario.prims [mkTx VaultScenario.deployer 1500 Pause]
       VaultScenario.s_submitted) = Revert EnforcedPause.
Proof.
  apply (proj1 (@X10_pause_blocks_user_calls VaultScenario.prims VaultScenario.bob 2000
                  (ExecuteStrategy VaultScenario.fingerprint)
                  (@run VaultScenario.prims [mkTx VaultScenario.deployer 1500 Pause]
                     VaultScenario.s_submitted))).
  - vm_compute. reflexivity.
  - reflexivity.
Defined.

(** X3 on the scenario: the iApp attests a report for alice. *)
Lemma X3_submitRiskAnalysis_effects_witness :
  exists s', @submitRiskAnalysis CoverageScenario.prims VaultScenario.bob 1500
               VaultScenario.alice CoverageScenario.report
               CoverageScenario.report_attestation VaultScenario.s_created = Ok s'
    /\ getLatestRiskReport VaultScenario.alice s' = CoverageScenario.report
    /\ riskScore (getPortfolio VaultScenario.alice s') = 80.
Proof.
  assert (Hok : is_ok (@submitRiskAnalysis CoverageScenario.prims VaultScenario.bob 1500
              VaultScenario.alice CoverageScenario.report
              CoverageScenario.report_attestation VaultScenario.s_created) = true)
    by (vm_compute; reflexivity).
  destruct (@submitRiskAnalysis CoverageScenario.prims VaultScenario.bob 1500
              VaultScenario.alice CoverageScenario.report
              CoverageScenario.report_attestation VaultScenario.s_created)
    as [s'|e] eqn:E; [|discriminate Hok]. clear Hok.
  exists s'. split; [reflexivity|].
  apply (@X3_submitRiskAnalysis_effects CoverageScenario.prims) in E
    as (_ & Hl & _ & Hr & _).
  split; [exact Hl|exact Hr].
Defined.

(** X5 on the scenario: the same attested report is accepted twice. *)
Lemma X5_risk_report_replay_witness :
  exists s' s'',
    @submitRiskAnalysis CoverageScenario.prims VaultScenario.bob 1500
       VaultScenario.alice CoverageScenario.report
       CoverageScenario.report_attestation VaultScenario.s_created = Ok s' /\
    @submitRiskAnalysis CoverageScenario.prims VaultScenario.bob 1600
       VaultScenario.alice CoverageScenario.report
       CoverageScenario.report_attestation s' = Ok s'' /\
    getRiskHistory VaultScenario.alice s''
      = [CoverageScenario.report; CoverageScenario.report].
Proof.
  assert (Hok : is_ok (@submitRiskAnalysis CoverageScenario.prims VaultScenario.bob 1500
              VaultScenario.alice CoverageScenario.report
              CoverageScenario.report_attestation VaultScenario.s_created) = true)
    by (vm_compute; reflexivity).
  destruct (@submitRiskAnalysis CoverageScenario.prims VaultScenario.bob 1500
              VaultScenario.alice CoverageScenario.report
              CoverageScenario.report_attestation VaultScenario.s_created)
    as [s'|e] eqn:E; [|discriminate Hok]. clear Hok.
  destruct (@X5_risk_report_replay CoverageScenario.prims _ _ _ _ _ _ _ E
              VaultScenario.bob 1600) as (s'' & Hok & Hh & _).
  exists s', s''. split; [reflexivity|]. split; [exact Hok|].
  rewrite Hh. reflexivity.
Defined.

(** X11 on the scenario: the late trigger of alice's attested strategy
    succeeds twice in a row. *)
Lemma X11_triggerAutoRebalance_repeats_witness :
  exists s',
    @triggerAutoRebalance VaultScenario.prims VaultScenario.bob 9000 VaultScenario.alice 600
       VaultScenario.attested VaultScenario.attestation VaultScenario.s_submitted = Ok s' /\
    is_ok (@triggerAutoRebalance VaultScenario.prims VaultScenario.bob 9000
             VaultScenario.alice 600 VaultScenario.attested VaultScenario.attestation s')
      = true.
Proof.
  assert (Hok : is_ok (@triggerAutoRebalance VaultScenario.prims VaultScenario.bob 9000
              VaultScenario.alice 600 VaultScenario.attested VaultScenario.attestation
              VaultScenario.s_submitted) = true)
    by (vm_compute; reflexivity).
  destruct (@triggerAutoRebalance VaultScenario.prims VaultScenario.bob 9000
              VaultScenario.alice 600 VaultScenario.attested VaultScenario.attestation
              VaultScenario.s_submitted)
    as [s'|e] eqn:E; [|discriminate Hok]. clear Hok.
  exists s'. split; [reflexivity|].
  pose proof (@X11_triggerAutoRebalance_repeats VaultScenario.prims _ _ _ _ _ _ _ _ E)
    as (_ & _ & Ht & Hagain).
  apply Hagain; [lia|]. rewrite Ht. vm_compute. reflexivity.
Defined.

(** X12 on the scenario: on the vault as deployed, a report for alice with
    65 zero bytes as attestation is accepted. *)
Lemma X12_zero_iApp_accepts_unrecoverable_witness :
  trustedIApp CoverageScenario.s_deployed = 0 /\
  exists s', @submitRiskAnalysis CoverageScenario.prims VaultScenario.bob 1500
               VaultScenario.alice CoverageScenario.report CoverageScenario.garbage
               CoverageScenario.s_deployed = Ok s'
             /\ getLatestRiskReport VaultScenario.alice s' = CoverageScenario.report.
Proof.
  split; [vm_compute; reflexivity|].
  apply (@X12_zero_iApp_accepts_unrecoverable CoverageScenario.prims).
  - vm_compute. reflexivity.
  - vm_compute. reflexivity.
  - vm_compute. discriminate.
  - vm_compute. reflexivity.
  - vm_compute. reflexivity.
Defined.

End VaultCoverage.

(** ** Further properties of the execution agent *)

Module AccountCoverage.
Import Account PhantomAccount AccountHistory AccountViews AccountClaims.

Ltac open_exec H :=
  unfold initialize, createSessionKey, createPhantomSessionKey, revokeSessionKey in H;
  unfold_call.

Ltac split_tests :=
  repeat match goal with
  | H : context [if ?b then _ else _] |- _ => destruct b eqn:?; try discriminate H
  | H : context [match ?r with Ok _ => _ | Revert _ => _ end] |- _ =>
      destruct r eqn:?; try discriminate H
  end.

Lemma created_keys_app log e :
  created_keys (log ++ [e])
  = created_keys log ++ match e with SessionKeyCreated k _ _ => [k] | _ => [] end.
Proof.
  induction log as [|x log IH]; simpl.
  - destruct e; reflexivity.
  - destruct x; simpl; now rewrite IH.
Qed.

Section WithPrimitives.
Context {prims : Primitives}.

Lemma account_run_cons t txs s : run (t :: txs) s = run txs (step t s).
Proof. reflexivity. Qed.

(** What an authorized operation is. *)
Lemma _validateSignature_ok now userOp userOpHash s :
  _validateSignature now userOp userOpHash s = Ok 0 ->
  (65 <= length (signature userOp))%nat /\
  exists k,
    ECDSA_recover (toEthSignedMessageHash userOpHash) (signature userOp) = Some k /\
    (k = owner s \/
     (active (sessionKeys s !!! k) = true /\ now <= validUntil (sessionKeys s !!! k) /\
      (4 <= length (callData userOp))%nat /\
      (be_to_Z (slice 0 4 (callData userOp)) = execute_selector ->
       (36 <= length (callData userOp))%nat /\
       In (be_to_Z (slice 4 36 (callData userOp)))
          (allowedTargets (sessionKeys s !!! k))))).
Proof.
  unfold _validateSignature.
  destruct (length (signature userOp) <? 65)%nat eqn:E; [discriminate|].
  apply Nat.ltb_ge in E.
  destruct (ECDSA_recover _ _) as [k|]; [|discriminate].
  intros H. split; [assumption|]. exists k. split; [reflexivity|].
  destruct (k =? owner s) eqn:Eo; [left; now apply Z.eqb_eq|]. right.
  destruct (active (sessionKeys s !!! k)); [|discriminate]. simpl in H.
  destruct (now <=? validUntil (sessionKeys s !!! k)) eqn:Et; [|discriminate].
  apply Z.leb_le in Et. split; [reflexivity|]. split; [assumption|].
  unfold _validateSessionKeyOp in H.
  destruct (length (callData userOp) <? 4)%nat eqn:E4; [discriminate|].
  apply Nat.ltb_ge in E4. split; [assumption|]. intros Hsel.
  rewrite Hsel, Z.eqb_refl in H.
  destruct (length (callData userOp) <? 36)%nat eqn:E36; [discriminate|].
  apply Nat.ltb_ge in E36. split; [assumption|].
  unfold abi_decode_address in H. unfold_call.
  destruct (be_to_Z (slice 4 36 (callData userOp)) <? ADDRESS_MODULUS); [|discriminate].
  destruct (targetAllowed _ _) eqn:Ea; [|discriminate].
  now apply targetAllowed_In.
Qed.

(** X13. [_validateSignature] authorizes (returns 0) every operation signed
    by the owner, whatever it calls; and it authorizes nothing else than an
    operation of at least 65 signature bytes whose recovered signer is the
    owner, or a session key that is active and unexpired, with call data of
    at least four bytes that, when it is an [execute] call, names a target of
    the key's allowed-target list. *)
Theorem X13_authorization_sound now userOp userOpHash s :
  (forall k, (65 <= length (signature userOp))%nat ->
     ECDSA_recover (toEthSignedMessageHash userOpHash) (signature userOp) = Some k ->
     k = owner s -> _validateSignature now userOp userOpHash s = Ok 0) /\
  (_validateSignature now userOp userOpHash s = Ok 0 ->
   (65 <= length (signature userOp))%nat /\
   exists k,
     ECDSA_recover (toEthSignedMessageHash userOpHash) (signature userOp) = Some k /\
     (k = owner s \/
      (active (sessionKeys s !!! k) = true /\ now <= validUntil (sessionKeys s !!! k) /\
       (4 <= length (callData userOp))%nat /\
       (be_to_Z (slice 0 4 (callData userOp)) = execute_selector ->
        (36 <= length (callData userOp))%nat /\
        In (be_to_Z (slice 4 36 (callData userOp)))
           (allowedTargets (sessionKeys s !!! k)))))).
Proof.
  split; [|apply _validateSignature_ok].
  unfold _validateSignature. intros k Hlen Hrec ->.
  destruct (length (signature userOp) <? 65)%nat eqn:E; [apply Nat.ltb_lt in E; lia|].
  rewrite Hrec. now rewrite Z.eqb_refl.
Qed.

(** X14. [createSessionKey] succeeds exactly for the owner. It then stores
    the key with [spent = 0] and [active = true], whatever was stored before
    (a revoked key is active again), so the key is active at every time up to
    [validUntil] and at none after; it appends the key to
    [activeSessionKeys] and leaves every other key as it was. *)
Theorem X14_createSessionKey_round_trip msg_sender key validUntil spendLimit targets sels s :
  (msg_sender <> owner s ->
   createSessionKey msg_sender key validUntil spendLimit targets sels s = Revert NotOwner) /\
  (msg_sender = owner s ->
   exists s',
     createSessionKey msg_sender key validUntil spendLimit targets sels s = Ok s' /\
     getSessionKey key s' = mkSessionKey key validUntil spendLimit 0 targets sels true /\
     (forall t, isSessionKeyActive t key s' = (t <=? validUntil)) /\
     (forall k, k <> key -> getSessionKey k s' = getSessionKey k s) /\
     activeSessionKeys s' = activeSessionKeys s ++ [key] /\
     owner s' = owner s).
Proof.
  unfold createSessionKey, getSessionKey, isSessionKeyActive. unfold_call. split.
  - intros Hne. apply Z.eqb_neq in Hne. now rewrite Hne.
  - intros ->. rewrite Z.eqb_refl. eexists. split; [reflexivity|]. simpl.
    rewrite lookup_total_insert_eq. simpl. repeat split.
    intros k Hk. now rewrite lookup_total_insert_ne.
Qed.

(** X15. [createPhantomSessionKey] succeeds for the owner when
    [now + duration] fits a word, and scopes the key to the vault: an
    [execute] call signed by that key (which is not the owner's) is
    authorized exactly when the time is at most [now + duration] and the
    decoded target is the vault. *)
Theorem X15_automation_key_scope msg_sender now key duration s s' :
  createPhantomSessionKey msg_sender now key duration s = Ok s' ->
  msg_sender = owner s /\
  validUntil (getSessionKey key s') = now + duration /\
  allowedTargets (getSessionKey key s') = [phantomVault s] /\
  spendLimit (getSessionKey key s') = MAX_UINT256 /\
  (forall t userOp userOpHash,
     (65 <= length (signature userOp))%nat ->
     ECDSA_recover (toEthSignedMessageHash userOpHash) (signature userOp) = Some key ->
     key <> owner s ->
     is_execute_call userOp ->
     (_validateSignature t userOp userOpHash s' = Ok 0 <->
      t <= now + duration /\ be_to_Z (slice 4 36 (callData userOp)) = phantomVault s)).
Proof.
  intros H. unfold createPhantomSessionKey in H. unfold_call.
  destruct (msg_sender =? owner s) eqn:Eo; [|discriminate]. simpl in H.
  destruct (now + duration <=? MAX_UINT256); [|discriminate].
  injection H as <-. apply Z.eqb_eq in Eo.
  unfold getSessionKey. simpl. rewrite lookup_total_insert_eq. simpl.
  split; [assumption|]. split; [reflexivity|]. split; [reflexivity|].
  split; [reflexivity|].
  intros t userOp userOpHash Hlen Hrec Hkey (H36 & Hsel & Hword). split.
  - intros Hok.
    apply _validateSignature_ok in Hok as (_ & k & Hk & Hcases).
    simpl in Hcases.
    assert (k = key) by congruence. subst k.
    destruct Hcases as [->|(_ & Ht & _ & Htarget)]; [contradiction|].
    rewrite lookup_total_insert_eq in Ht, Htarget. simpl in Ht, Htarget.
    split; [exact Ht|].
    destruct (Htarget Hsel) as (_ & [Hin|[]]). now symmetry.
  - intros (Ht & Htarget).
    unfold _validateSignature. simpl.
    destruct (length (signature userOp) <? 65)%nat eqn:E; [apply Nat.ltb_lt in E; lia|].
    rewrite Hrec. apply Z.eqb_neq in Hkey. rewrite Hkey.
    rewrite lookup_total_insert_eq. simpl.
    apply Z.leb_le in Ht. rewrite Ht.
    unfold _validateSessionKeyOp.
    destruct (length (callData userOp) <? 4)%nat eqn:E4; [apply Nat.ltb_lt in E4; lia|].
    rewrite Hsel, Z.eqb_refl.
    destruct (length (callData userOp) <? 36)%nat eqn:E36; [apply Nat.ltb_lt in E36; lia|].
    unfold abi_decode_address. apply Z.ltb_lt in Hword. rewrite Hword. unfold_call.
    simpl. rewrite Htarget, Z.eqb_refl. reflexivity.
Qed.

(** The effect of a successful call of the agent. *)
Lemma account_exec_effects msg_sender now c s s' :
  exec msg_sender now c s = Ok s' ->
  ((forall k, spent (sessionKeys s !!! k) = 0) ->
   forall k, spent (sessionKeys s' !!! k) = 0) /\
  (exists new, activeSessionKeys s' = activeSessionKeys s ++ new
               /\ created_keys (events s') = created_keys (events s) ++ new) /\
  (initialized s = true -> owner s' = owner s /\ initialized s' = true) /\
  (sessionKeys s' = sessionKeys s /\ activeSessionKeys s' = activeSessionKeys s
   \/ msg_sender = owner s).
Proof.
  intros E. destruct c as [o|key' v l ts sels|key' d|key']; simpl in E; open_exec E; split_tests; injection E as <-;
    simpl; rewrite ?created_keys_app; simpl.
  - split; [auto|]. split; [exists []; now rewrite !app_nil_r|].
    split; [intros Hi; destruct (initialized s); discriminate|now left].
  - split; [|split; [eexists; split; reflexivity|split; [auto|right; now apply Z.eqb_eq]]].
    intros Hspent k. destruct (decide (key' = k)) as [->|Hne].
    + now rewrite lookup_total_insert_eq.
    + rewrite lookup_total_insert_ne by assumption. apply Hspent.
  - split; [|split; [eexists; split; reflexivity|split; [auto|right; now apply Z.eqb_eq]]].
    intros Hspent k. destruct (decide (key' = k)) as [->|Hne].
    + now rewrite lookup_total_insert_eq.
    + rewrite lookup_total_insert_ne by assumption. apply Hspent.
  - split; [|split; [exists []; now rewrite !app_nil_r
                    |split; [auto|right; now apply Z.eqb_eq]]].
    intros Hspent k. destruct (decide (key' = k)) as [->|Hne].
    + rewrite lookup_total_insert_eq. simpl. apply Hspent.
    + rewrite lookup_total_insert_ne by assumption. apply Hspent.
Qed.

(** The invariants of an agent's history. *)
Lemma account_run_effects txs : forall s,
  ((forall k, spent (sessionKeys s !!! k) = 0) ->
   forall k, spent (sessionKeys (run txs s) !!! k) = 0) /\
  (exists new, activeSessionKeys (run txs s) = activeSessionKeys s ++ new
               /\ created_keys (events (run txs s)) = created_keys (events s) ++ new) /\
  (initialized s = true -> owner (run txs s) = owner s /\ initialized (run txs s) = true).
Proof.
  induction txs as [|t txs IH]; intros s.
  - split; [auto|]. split; [exists []; now rewrite !app_nil_r|auto].
  - rewrite account_run_cons. destruct (IH (step t s)) as (IH1 & (new2 & IH2 & IH3) & IH4).
    unfold step in *.
    destruct (exec _ _ _ s) as [s'|e] eqn:E; simpl in *.
    + apply account_exec_effects in E as (E1 & (new1 & E2 & E3) & E4 & _).
      split; [auto|]. split.
      * exists (new1 ++ new2). rewrite IH2, IH3, E2, E3, !app_assoc. auto.
      * intros Hi. destruct (E4 Hi) as (Ho & Hi'). destruct (IH4 Hi') as (Ho' & Hi'').
        split; [congruence|assumption].
    + split; [auto|]. split; [exists new2; auto|auto].
Qed.

(** X16. In every state an agent reaches from its fresh storage by calls of
    [initialize], [createSessionKey], [createPhantomSessionKey] and
    [revokeSessionKey] (the functions of the contract that write its
    storage), the [spent] counter of every session key is zero: none of them
    adds to it, and validation does not write, so the spend limit of a key
    restricts nothing. *)
Theorem X16_spent_is_never_counted txs _entryPoint _vault k :
  spent (getSessionKey k (run txs (fresh _entryPoint _vault))) = 0.
Proof.
  unfold getSessionKey.
  apply (proj1 (account_run_effects txs (fresh _entryPoint _vault))).
  intros k'. simpl. now rewrite lookup_total_empty.
Qed.

(** X17. Once an agent is initialized, it stays initialized and its owner
    never changes, over every history of calls of [initialize] and the
    key-management functions; a second [initialize] fails with
    [InvalidInitialization], whoever sends it. *)
Theorem X17_owner_is_set_once txs s :
  initialized s = true ->
  owner (run txs s) = owner s /\ initialized (run txs s) = true /\
  (forall o, initialize o (run txs s) = Revert InvalidInitialization).
Proof.
  intros Hi. destruct (account_run_effects txs s) as (_ & _ & H). destruct (H Hi) as (Ho & Hi').
  repeat split; try assumption.
  intros o. unfold initialize. unfold_call. now rewrite Hi'.
Qed.

(** X18. [activeSessionKeys] is append-only: in every state an agent reaches
    from its fresh storage it lists the keys of the [SessionKeyCreated]
    events in order, one entry per creation; a revocation removes nothing
    from it, so a key that is listed stays listed, active or not. *)
Theorem X18_key_list_is_the_creation_log txs _entryPoint _vault :
  activeSessionKeys (run txs (fresh _entryPoint _vault))
    = created_keys (events (run txs (fresh _entryPoint _vault))) /\
  (forall s key more,
     In key (activeSessionKeys s) -> In key (activeSessionKeys (run more s))).
Proof.
  split.
  - destruct (account_run_effects txs (fresh _entryPoint _vault)) as (_ & (new & H1 & H2) & _).
    rewrite H1, H2. reflexivity.
  - intros s key more Hin.
    destruct (account_run_effects more s) as (_ & (new & H1 & _) & _).
    rewrite H1. apply in_or_app. now left.
Qed.

(** X19. A call whose sender is not the owner never changes the session
    keys: neither the stored keys nor the list. *)
Theorem X19_keys_are_the_owners t s :
  tx_sender t <> owner s ->
  sessionKeys (step t s) = sessionKeys s /\
  activeSessionKeys (step t s) = activeSessionKeys s.
Proof.
  intros Hne. unfold step.
  destruct (exec _ _ _ s) as [s'|e] eqn:E; simpl; [|auto].
  apply account_exec_effects in E as (_ & _ & _ & [H|H]); [assumption|contradiction].
Qed.

End WithPrimitives.

(** X13 on the scenario: the owner's signature authorizes a call to any
    target. *)
Lemma X13_authorization_sound_witness :
  @_validateSignature AccountScenario.prims 1000 AgentScenario.op_owner
    AccountScenario.userOpHash AccountScenario.s0 = Ok 0.
Proof.
  pose proof (proj1 (@X13_authorization_sound AccountScenario.prims 1000
                       AgentScenario.op_owner AccountScenario.userOpHash AccountScenario.s0)
                AccountScenario.owner) as H.
  apply H.
  - vm_compute. lia.
  - vm_compute. reflexivity.
  - reflexivity.
Defined.

(** X14 on the scenario: the owner issues a key valid until 5000; mallory
    cannot. *)
Lemma X14_createSessionKey_round_trip_witness :
  (exists s', createSessionKey AccountScenario.owner AccountScenario.sessionKey 5000 0
                [AccountScenario.vault] [AccountScenario.sel_executeStrategy]
                AccountScenario.s0 = Ok s'
     /\ isSessionKeyActive 5000 AccountScenario.sessionKey s' = true
     /\ isSessionKeyActive 5001 AccountScenario.sessionKey s' = false) /\
  createSessionKey AccountScenario.mallory AccountScenario.sessionKey 5000 0
    [AccountScenario.vault] [AccountScenario.sel_executeStrategy] AccountScenario.s0
  = Revert NotOwner.
Proof.
  split.
  - destruct (proj2 (X14_createSessionKey_round_trip AccountScenario.owner
                       AccountScenario.sessionKey 5000 0 [AccountScenario.vault]
                       [AccountScenario.sel_executeStrategy] AccountScenario.s0))
      as (s' & Hok & _ & Hact & _); [reflexivity|].
    exists s'. split; [exact Hok|]. rewrite !Hact. split; reflexivity.
  - apply (proj1 (X14_createSessionKey_round_trip AccountScenario.mallory
                    AccountScenario.sessionKey 5000 0 [AccountScenario.vault]
                    [AccountScenario.sel_executeStrategy] AccountScenario.s0)).
    vm_compute. discriminate.
Defined.

(** X15 on the scenario: the automation key issued at time 1000 for an hour
    authorizes a call to the vault at time 4600 and not at time 4601. *)
Lemma X15_automation_key_scope_witness :
  @_validateSignature AccountScenario.prims 4600 AgentScenario.op_key_vault
    AccountScenario.userOpHash AgentScenario.s_automated = Ok 0 /\
  @_validateSignature AccountScenario.prims 4601 AgentScenario.op_key_vault
    AccountScenario.userOpHash AgentScenario.s_automated <> Ok 0.
Proof.
  assert (H : @createPhantomSessionKey AccountScenario.prims AccountScenario.owner 1000
                AccountScenario.sessionKey 3600 AccountScenario.s0
              = Ok AgentScenario.s_automated)
    by (vm_compute; reflexivity).
  apply (@X15_automation_key_scope AccountScenario.prims) in H as (_ & _ & _ & _ & H).
  assert (Hlen : (65 <= length (signature AgentScenario.op_key_vault))%nat)
    by (vm_compute; lia).
  assert (Hrec : @ECDSA_recover AccountScenario.prims
                   (@toEthSignedMessageHash AccountScenario.prims AccountScenario.userOpHash)
                   (signature AgentScenario.op_key_vault) = Some AccountScenario.sessionKey)
    by (vm_compute; reflexivity).
  assert (Hkey : AccountScenario.sessionKey <> owner AccountScenario.s0)
    by (vm_compute; discriminate).
  assert (Hcall : is_execute_call AgentScenario.op_key_vault).
  { split; [vm_compute; lia|]. split; vm_compute; reflexivity. }
  split.
  - apply (proj2 (H 4600 AgentScenario.op_key_vault AccountScenario.userOpHash
                    Hlen Hrec Hkey Hcall)).
    split; [vm_compute; discriminate|vm_compute; reflexivity].
  - intros Hok.
    apply (proj1 (H 4601 AgentScenario.op_key_vault AccountScenario.userOpHash
                    Hlen Hrec Hkey Hcall)) in Hok as (Ht & _).
    vm_compute in Ht. apply Ht. reflexivity.
Defined.

(** X17 on the scenario: mallory's [initialize] does not take the agent
    over. *)
Lemma X17_owner_is_set_once_witness :
  owner (@run AccountScenario.prims
           [mkTx AccountScenario.mallory 10 (Initialize AccountScenario.mallory)]
           AccountScenario.s0) = AccountScenario.owner.
Proof.
  destruct (@X17_owner_is_set_once AccountScenario.prims
              [mkTx AccountScenario.mallory 10 (Initialize AccountScenario.mallory)]
              AccountScenario.s0) as (H & _); [reflexivity|].
  rewrite H. reflexivity.
Defined.

(** X18 on the scenario: the revoked key is still listed. *)
Lemma X18_key_list_is_the_creation_log_witness :
  In AccountScenario.sessionKey
    (activeSessionKeys
       (@run AccountScenario.prims
          [mkTx AccountScenario.owner 2000 (RevokeSessionKey AccountScenario.sessionKey)]
          AccountScenario.s_key)).
Proof.
  apply (proj2 (@X18_key_list_is_the_creation_log AccountScenario.prims [] 0 0)).
  vm_compute. left. reflexivity.
Defined.

(** X19 on the scenario: mallory cannot revoke the owner's key. *)
Lemma X19_keys_are_the_owners_witness :
  sessionKeys (@step AccountScenario.prims
                 (mkTx AccountScenario.mallory 2000
                    (RevokeSessionKey AccountScenario.sessionKey)) AccountScenario.s_key)
  = sessionKeys AccountScenario.s_key.
Proof.
  apply (@X19_keys_are_the_owners AccountScenario.prims). vm_compute. discriminate.
Defined.

End AccountCoverage.

(** ** Further properties of the agent factory *)

Module FactoryCoverage.
Import PhantomAccountFactory FactoryViews FactoryClaims.

Section WithPrimitives.
Context {prims : Primitives}.

(** What a deploying [createAccount] wrote. *)
Lemma createAccount_new owner salt s s' a :
  createAccount owner salt s = Ok (s', a) ->
  code s !!! a = [] ->
  ownerToAccount s' = <[owner := a]> (ownerToAccount s) /\
  totalAccounts s' = totalAccounts s + 1 /\
  accounts s' = <[a := deployed_agent owner s]> (accounts s) /\
  entryPoint s' = entryPoint s /\ phantomVault s' = phantomVault s.
Proof.
  intros H Hnil.
  pose proof (createAccount_ok _ _ _ _ _ H) as (Ha & _). subst a.
  unfold createAccount, new_ERC1967Proxy, proxy_initCode in H. unfold_call.
  fold (getAddress owner salt s) in H. rewrite Hnil in H. simpl in H.
  destruct (0 <? length (code s !!! accountImplementation s))%nat; [|discriminate].
  simpl in H.
  destruct (totalAccounts s + 1 <=? MAX_UINT256); [|discriminate].
  injection H as <-. simpl. repeat split.
Qed.

(** X20. When [createAccount] deploys (the derived address held no code), it
    records the agent as the owner's account, adds one to [totalAccounts],
    and the agent it creates is initialized, owned by [owner], bound to the
    factory's entry point and vault, and has no session key. The record of
    other owners is untouched, and an owner's record is overwritten by their
    next deployment: [ownerToAccount] keeps the latest agent only. *)
Theorem X20_createAccount_bookkeeping owner salt s s' a :
  createAccount owner salt s = Ok (s', a) ->
  code s !!! a = [] ->
  word_at (ownerToAccount s') owner = a /\
  (forall o, o <> owner -> word_at (ownerToAccount s') o = word_at (ownerToAccount s) o) /\
  totalAccounts s' = totalAccounts s + 1 /\
  (exists agent, accounts s' !! a = Some agent /\
     PhantomAccount.owner agent = owner /\ PhantomAccount.initialized agent = true /\
     PhantomAccount.entryPoint agent = entryPoint s /\
     PhantomAccount.phantomVault agent = phantomVault s /\
     PhantomAccount.sessionKeys agent = ∅ /\ PhantomAccount.activeSessionKeys agent = []) /\
  (forall salt' s'' a',
     createAccount owner salt' s' = Ok (s'', a') -> code s' !!! a' = [] ->
     word_at (ownerToAccount s'') owner = a').
Proof.
  intros H Hnil. apply createAccount_new in H as (Ho & Ht & Ha & _); [|assumption].
  unfold word_at. rewrite Ho, Ha, !lookup_insert_eq. simpl. repeat split; try assumption.
  - intros o Hne. now rewrite lookup_insert_ne.
  - eexists. split; [reflexivity|]. simpl. repeat split.
  - intros salt' s'' a' H' Hnil'.
    apply createAccount_new in H' as (Ho' & _); [|assumption].
    fold (word_at (ownerToAccount s'') owner). unfold word_at.
    now rewrite Ho', lookup_insert_eq.
Qed.

Lemma step_agents_stored c s : agents_stored s -> agents_stored (step c s).
Proof.
  intros (Hst & Htot). unfold step.
  destruct (createAccount c.1 c.2 s) as [[s' a]|e] eqn:E; [|now split].
  pose proof (createAccount_ok _ _ _ _ _ E) as (_ & _ & _ & [(_ & ->)|(Hnil & Hc & He)]);
    [now split|].
  apply createAccount_new in E as (_ & Ht & Ha & _); [|assumption].
  unfold agents_stored. rewrite He, Ha, Hc, Ht, length_app. simpl. split; [|lia].
  intros o x sl Hin. apply in_app_or in Hin as [Hin|[Heq|[]]].
  - destruct (Hst o x sl Hin) as (Hcode & agent & Hx & Hown).
    assert (Hne : a <> x) by (intros <-; contradiction).
    rewrite lookup_total_insert_ne, lookup_insert_ne by assumption.
    split; [assumption|]. now exists agent.
  - injection Heq as <- <- <-.
    rewrite lookup_total_insert_eq, lookup_insert_eq.
    split; [apply ERC1967Proxy_runtimeCode_nonempty|].
    eexists. split; [reflexivity|]. simpl. auto.
Qed.

(** X21. In every state reached from a factory that has deployed nothing,
    [totalAccounts] is the number of [AccountCreated] events, and every
    agent in the log has code at its address and is stored initialized with
    the owner it was created for: a later call, for any owner and salt,
    never re-initializes or replaces a deployed agent. *)
Theorem X21_deployed_agents_are_kept calls s :
  events s = [] -> totalAccounts s = 0 ->
  totalAccounts (run calls s) = Z.of_nat (length (deployed (run calls s))) /\
  (forall o a salt, In (AccountCreated o a salt) (events (run calls s)) ->
     code (run calls s) !!! a <> [] /\
     exists agent, accounts (run calls s) !! a = Some agent
       /\ PhantomAccount.owner agent = o /\ PhantomAccount.initialized agent = true).
Proof.
  intros Hev Htot.
  assert (H : forall calls s, agents_stored s -> agents_stored (run calls s)).
  { clear. induction calls as [|c calls IH]; intros s Hs; [assumption|].
    rewrite factory_run_cons. apply IH. now apply step_agents_stored. }
  destruct (H calls s) as (Hst & Hcount).
  { split; [rewrite Hev; intros ? ? ? []|rewrite Hev, Htot; reflexivity]. }
  split; [|exact Hst]. unfold deployed. now rewrite length_map.
Qed.

End WithPrimitives.

(** X20 on the scenario: the factory deploys alice's agent. *)
Lemma X20_createAccount_bookkeeping_witness :
  word_at (ownerToAccount (@run FactoryScenario.prims [(FactoryScenario.alice, 7)]
                             FactoryScenario.s0)) FactoryScenario.alice
    = @getAddress FactoryScenario.prims FactoryScenario.alice 7 FactoryScenario.s0 /\
  totalAccounts (@run FactoryScenario.prims [(FactoryScenario.alice, 7)] FactoryScenario.s0)
    = 1.
Proof.
  assert (H : @createAccount FactoryScenario.prims FactoryScenario.alice 7 FactoryScenario.s0
              = Ok (@run FactoryScenario.prims [(FactoryScenario.alice, 7)] FactoryScenario.s0,
                    @getAddress FactoryScenario.prims FactoryScenario.alice 7
                      FactoryScenario.s0))
    by (vm_compute; reflexivity).
  apply (@X20_createAccount_bookkeeping FactoryScenario.prims) in H as (Ho & _ & Ht & _);
    [|vm_compute; reflexivity].
  split; [exact Ho|]. rewrite Ht. reflexivity.
Defined.

(** X21 on the scenario: three calls, two deployments. *)
Lemma X21_deployed_agents_are_kept_witness :
  totalAccounts
    (@run FactoryScenario.prims
       [(FactoryScenario.alice, 7); (FactoryScenario.alice, 7); (FactoryScenario.bob, 7)]
       FactoryScenario.s0)
  = Z.of_nat (length (deployed
       (@run FactoryScenario.prims
          [(FactoryScenario.alice, 7); (FactoryScenario.alice, 7); (FactoryScenario.bob, 7)]
          FactoryScenario.s0))).
Proof.
  apply (proj1 (@X21_deployed_agents_are_kept FactoryScenario.prims
                  [(FactoryScenario.alice, 7); (FactoryScenario.alice, 7);
                   (FactoryScenario.bob, 7)] FactoryScenario.s0 eq_refl eq_refl)).
Defined.

End FactoryCoverage.

(** ** Further properties of the fee sponsor *)

Module PaymasterCoverage.
Import PhantomPaymaster PaymasterQuota PaymasterClaims BytesFacts.

(** Two values with no common bit add up to their bitwise or. *)
Lemma lor_disjoint a b : Z.land a b = 0 -> Z.lor a b = a + b.
Proof.
  intros H. rewrite <- Z.lxor_lor by assumption. symmetry. now apply Z.add_nocarry_lxor.
Qed.

(** The packing of a validity window, read back. *)
Lemma _packValidationData_window validUntil validAfter :
  0 <= validUntil < 2 ^ 48 -> 0 <= validAfter < 2 ^ 48 ->
  _packValidationData false validUntil validAfter
  = validUntil * 2 ^ 160 + validAfter * 2 ^ 208.
Proof.
  intros Hu Ha. unfold _packValidationData. rewrite Z.lor_0_l.
  rewrite lor_disjoint; [now rewrite !Z.shiftl_mul_pow2 by lia|].
  apply Z.bits_inj'. intros n Hn. rewrite Z.land_spec, Z.bits_0.
  destruct (Z.lt_ge_cases n 208) as [Hlt|Hge].
  - rewrite (Z.shiftl_spec_low validAfter) by assumption. apply andb_false_r.
  - rewrite Z.shiftl_spec by assumption.
    destruct (Z.eq_dec validUntil 0) as [->|Hnz]; [now rewrite Z.bits_0|].
    rewrite (Z.bits_above_log2 validUntil); [reflexivity|lia|].
    assert (Z.log2 validUntil < 48) by (apply Z.log2_lt_pow2; lia). lia.
Qed.

(** The selector read from call data that starts with the four bytes of
    [sel]. *)
Lemma _getSelector_of_call sel rest :
  _getSelector (Z_to_be 4 sel ++ rest) = sel mod 2 ^ 32.
Proof.
  unfold _getSelector, calldataload.
  assert (Hl : (4 <=? length (Z_to_be 4 sel ++ rest))%nat = true).
  { apply Nat.leb_le. rewrite length_app, length_Z_to_be. lia. }
  rewrite Hl. rewrite drop_0, <- app_assoc.
  rewrite take_app_ge by (rewrite length_Z_to_be; lia).
  rewrite length_Z_to_be. change (32 - 4)%nat with 28%nat.
  rewrite be_to_Z_app, be_to_Z_to_be.
  pose proof (be_to_Z_range (take 28 (rest ++ repeat x00 32))) as Hr.
  assert (Hlen : length (take 28 (rest ++ repeat x00 32)) = 28%nat).
  { rewrite length_take, length_app, repeat_length. lia. }
  rewrite Hlen in *.
  change (256 ^ Z.of_nat 4) with (2 ^ 32). change (256 ^ Z.of_nat 28) with (2 ^ 224) in *.
  rewrite Z.div_add_l by lia. rewrite Z.div_small by lia. lia.
Qed.

Section WithPrimitives.
Context {prims : Primitives}.

(** What a successful validation did. *)
Lemma _validatePaymasterUserOp_ok now userOp userOpHash maxCost s s' v :
  _validatePaymasterUserOp now userOp userOpHash maxCost s = Ok (s', v) ->
  (PAYMASTER_DATA_OFFSET + 77 <= length (paymasterAndData userOp))%nat /\
  _getTarget (callData userOp) = phantomVault s /\
  flag_at (whitelistedSelectors s) (_getSelector (callData userOp)) = true /\
  _checkAndUpdateDailyLimit now (sender userOp) s = Ok s' /\
  v = mkValidation (sender userOp, maxCost)
        (_packValidationData false
           (be_to_Z (slice 65 71 (drop PAYMASTER_DATA_OFFSET (paymasterAndData userOp))))
           (be_to_Z (slice 71 77 (drop PAYMASTER_DATA_OFFSET (paymasterAndData userOp))))).
Proof.
  unfold _validatePaymasterUserOp. unfold_call. intros H.
  destruct (PAYMASTER_DATA_OFFSET <=? length (paymasterAndData userOp))%nat eqn:E1;
    [|discriminate H].
  destruct (77 <=? length (drop PAYMASTER_DATA_OFFSET (paymasterAndData userOp)))%nat eqn:E2;
    [|discriminate H].
  apply Nat.leb_le in E1, E2. rewrite length_drop in E2.
  destruct (ECDSA_recover _ _) as [recovered|]; [|discriminate H].
  destruct (recovered =? verifyingSigner s); [|discriminate H].
  destruct (_getTarget (callData userOp) =? phantomVault s) eqn:Et; [|discriminate H].
  apply Z.eqb_eq in Et.
  destruct (flag_at (whitelistedSelectors s) (_getSelector (callData userOp))) eqn:Ef;
    [|discriminate H].
  destruct (_checkAndUpdateDailyLimit now (sender userOp) s) as [s1|]; [|discriminate H].
  injection H as <- <-. split; [lia|]. repeat split; assumption.
Qed.

(** X22. The entry point's call [validatePaymasterUserOp] is accepted
    exactly when the caller is the entry point, the paymaster data holds at
    least 77 bytes, the co-signature recovers to the verifying signer, the
    word [_getTarget] reads is the vault, the selector [_getSelector] reads
    is whitelisted, and either a new day window opens or the sender's count
    is below the cap. Every other call is reverted: the sponsor never
    answers with a signature-failure code. *)
Theorem X22_sponsor_accepts_iff msg_sender now userOp userOpHash maxCost s :
  word_at (dailyResetTime s) (sender userOp) + DAYS <= MAX_UINT256 ->
  maxDailySponsored s <= MAX_UINT256 ->
  let paymasterData := drop PAYMASTER_DATA_OFFSET (paymasterAndData userOp) in
  is_ok (validatePaymasterUserOp msg_sender now userOp userOpHash maxCost s) = true <->
  msg_sender = entryPoint s /\
  (PAYMASTER_DATA_OFFSET + 77 <= length (paymasterAndData userOp))%nat /\
  ECDSA_recover
    (toEthSignedMessageHash
       (getHash userOp (be_to_Z (slice 65 71 paymasterData))
          (be_to_Z (slice 71 77 paymasterData)) s))
    (slice 0 65 paymasterData) = Some (verifyingSigner s) /\
  _getTarget (callData userOp) = phantomVault s /\
  flag_at (whitelistedSelectors s) (_getSelector (callData userOp)) = true /\
  (word_at (dailyResetTime s) (sender userOp) + DAYS < now
   \/ word_at (sponsoredTxCount s) (sender userOp) < maxDailySponsored s).
Proof.
  intros Hov Hmax paymasterData.
  pose proof (validatePaymasterUserOp_accepts_iff now userOp userOpHash maxCost s Hov Hmax)
    as H. simpl in H. fold paymasterData in H.
  unfold validatePaymasterUserOp. unfold_call.
  destruct (msg_sender =? entryPoint s) eqn:Ee.
  - apply Z.eqb_eq in Ee. rewrite H. tauto.
  - apply Z.eqb_neq in Ee. simpl. split; [discriminate|]. intros (Hc & _). contradiction.
Qed.

(** X23. An accepted operation returns the sender and the maximum cost as
    context, and validation data that signal no signature failure (the low
    160 bits are zero) and carry the validity window read from bytes 65 to
    77 of the paymaster data: [validUntil] in bits 160 to 207 and
    [validAfter] from bit 208 on. *)
Theorem X23_validation_data_round_trip now userOp userOpHash maxCost s s' v :
  _validatePaymasterUserOp now userOp userOpHash maxCost s = Ok (s', v) ->
  let paymasterData := drop PAYMASTER_DATA_OFFSET (paymasterAndData userOp) in
  context v = (sender userOp, maxCost) /\
  validationData v mod 2 ^ 160 = 0 /\
  (validationData v / 2 ^ 160) mod 2 ^ 48 = be_to_Z (slice 65 71 paymasterData) /\
  validationData v / 2 ^ 208 = be_to_Z (slice 71 77 paymasterData).
Proof.
  intros H paymasterData.
  apply _validatePaymasterUserOp_ok in H as (Hlen & _ & _ & _ & ->).
  fold paymasterData. simpl.
  assert (Hpd : (77 <= length paymasterData)%nat).
  { unfold paymasterData. rewrite length_drop. lia. }
  assert (Hu : 0 <= be_to_Z (slice 65 71 paymasterData) < 2 ^ 48).
  { pose proof (be_to_Z_range (slice 65 71 paymasterData)) as Hr.
    unfold slice in *. rewrite length_take, length_drop in Hr.
    replace (Init.Nat.min (71 - 65) (length paymasterData - 65)) with 6%nat in Hr by lia.
    exact Hr. }
  assert (Ha : 0 <= be_to_Z (slice 71 77 paymasterData) < 2 ^ 48).
  { pose proof (be_to_Z_range (slice 71 77 paymasterData)) as Hr.
    unfold slice in *. rewrite length_take, length_drop in Hr.
    replace (Init.Nat.min (77 - 71) (length paymasterData - 71)) with 6%nat in Hr by lia.
    exact Hr. }
  rewrite _packValidationData_window by assumption.
  set (vu := be_to_Z (slice 65 71 paymasterData)) in *.
  set (va := be_to_Z (slice 71 77 paymasterData)) in *.
  split; [reflexivity|].
  assert (E : vu * 2 ^ 160 + va * 2 ^ 208 = (vu + va * 2 ^ 48) * 2 ^ 160).
  { change (2 ^ 208) with (2 ^ 48 * 2 ^ 160). ring. }
  assert (E' : vu * 2 ^ 160 + va * 2 ^ 208 = va * 2 ^ 208 + vu * 2 ^ 160) by ring.
  split; [rewrite E; apply Z.mod_mul; lia|]. split.
  - rewrite E, Z.div_mul by lia. rewrite Z.mod_add by lia. apply Z.mod_small. lia.
  - rewrite E', Z.div_add_l by lia. rewrite Z.div_small; [lia|].
    change (2 ^ 208) with (2 ^ 48 * 2 ^ 160). nia.
Qed.

(** X24. The sponsor's decision reads four fields of the operation: sender,
    nonce, call data and paymaster data. Two operations that agree on them
    get the same result in the same state, whatever their init code, gas
    limits, gas fees, signature and operation hash: the co-signature does
    not cover those. *)
Theorem X24_decision_reads_four_fields now op1 op2 hash1 hash2 maxCost s :
  sender op1 = sender op2 -> nonce op1 = nonce op2 ->
  callData op1 = callData op2 -> paymasterAndData op1 = paymasterAndData op2 ->
  _validatePaymasterUserOp now op1 hash1 maxCost s
  = _validatePaymasterUserOp now op2 hash2 maxCost s.
Proof.
  intros Hs Hn Hc Hp. unfold _validatePaymasterUserOp, getHash.
  now rewrite Hs, Hn, Hc, Hp.
Qed.

(** X26. The selector the sponsor looks up is the first four bytes of the
    operation's call data: an operation whose call data starts with the
    bytes of [sel] is accepted only if [sel] itself is whitelisted, whatever
    the rest of the call data holds. For an agent's [execute(vault, value,
    data)] this is the selector of [execute], not the selector of the vault
    function in [data]. *)
Theorem X26_selector_is_the_outer_one now sel rest userOp userOpHash maxCost s :
  callData userOp = Z_to_be 4 sel ++ rest ->
  0 <= sel < 2 ^ 32 ->
  _getSelector (callData userOp) = sel /\
  (is_ok (_validatePaymasterUserOp now userOp userOpHash maxCost s) = true ->
   flag_at (whitelistedSelectors s) sel = true) /\
  (flag_at (whitelistedSelectors s) sel = false ->
   exists e, _validatePaymasterUserOp now userOp userOpHash maxCost s = Revert e).
Proof.
  intros Hcd Hsel.
  assert (Hs : _getSelector (callData userOp) = sel).
  { rewrite Hcd, _getSelector_of_call. apply Z.mod_small. assumption. }
  split; [assumption|].
  destruct (_validatePaymasterUserOp now userOp userOpHash maxCost s) as [[s' v]|e] eqn:E.
  - apply _validatePaymasterUserOp_ok in E as (_ & _ & Hf & _). rewrite Hs in Hf.
    split; [intros _; assumption|]. intros Hn. congruence.
  - split; [discriminate|]. intros _. now exists e.
Qed.

(** The effect of a successful call of the sponsor. *)
Lemma paymaster_exec_effects msg_sender now c s s' :
  exec msg_sender now c s = Ok s' ->
  (msg_sender = admin s \/
   msg_sender = entryPoint s /\ config s' = config s /\ events s' = events s) /\
  admin s' = admin s /\ entryPoint s' = entryPoint s /\
  (forall u, (forall op h m, c = ValidatePaymasterUserOp op h m -> sender op <> u) ->
     word_at (sponsoredTxCount s') u = word_at (sponsoredTxCount s) u /\
     word_at (dailyResetTime s') u = word_at (dailyResetTime s) u).
Proof.
  intros E. destruct c as [op h m| | | |]; simpl in E.
  - unfold validatePaymasterUserOp in E. unfold_call.
    destruct (msg_sender =? entryPoint s) eqn:Ee; [|discriminate E].
    apply Z.eqb_eq in Ee.
    destruct (_validatePaymasterUserOp now op h m s) as [[s1 v]|] eqn:Ev; [|discriminate E].
    injection E as <-.
    apply _validatePaymasterUserOp_ok in Ev as (_ & _ & _ & Hc & _).
    assert (Hframe : config s1 = config s /\ events s1 = events s /\ admin s1 = admin s
                     /\ entryPoint s1 = entryPoint s
                     /\ (sponsoredTxCount s1 = sponsoredTxCount s
                         \/ exists n, sponsoredTxCount s1 = <[sender op := n]> (sponsoredTxCount s))
                     /\ (dailyResetTime s1 = dailyResetTime s
                         \/ exists n, dailyResetTime s1 = <[sender op := n]> (dailyResetTime s))).
    { unfold _checkAndUpdateDailyLimit in Hc. unfold_call. split_tests.
      all: injection Hc as <-; simpl; repeat split; eauto. }
    destruct Hframe as (Hcfg & Hev & Ha & Hep & Hcount & Hreset).
    split; [right; auto|]. split; [assumption|]. split; [assumption|].
    intros u Hu. assert (Hne : sender op <> u) by (eapply Hu; reflexivity).
    split.
    + destruct Hcount as [->|(n & ->)]; [reflexivity|].
      rewrite word_at_insert. destruct (decide (sender op = u)); [contradiction|reflexivity].
    + destruct Hreset as [->|(n & ->)]; [reflexivity|].
      rewrite word_at_insert. destruct (decide (sender op = u)); [contradiction|reflexivity].
  - unfold setVerifyingSigner in E. unfold_call.
    destruct (msg_sender =? admin s) eqn:Ea; [|discriminate E]. apply Z.eqb_eq in Ea.
    injection E as <-. simpl. auto.
  - unfold setPhantomVault in E. unfold_call.
    destruct (msg_sender =? admin s) eqn:Ea; [|discriminate E]. apply Z.eqb_eq in Ea.
    injection E as <-. simpl. auto.
  - unfold setMaxDailySponsored in E. unfold_call.
    destruct (msg_sender =? admin s) eqn:Ea; [|discriminate E]. apply Z.eqb_eq in Ea.
    injection E as <-. simpl. auto.
  - unfold whitelistSelector in E. unfold_call.
    destruct (msg_sender =? admin s) eqn:Ea; [|discriminate E]. apply Z.eqb_eq in Ea.
    injection E as <-. simpl. auto.
Qed.

(** X27. The signer, the vault, the daily cap and the selector whitelist
    change only in a call sent by the administrator; a call sent by neither
    the administrator nor the entry point changes nothing at all; and no
    call touches the count or the day window of a user other than the
    sender of the operation it validates. *)
Theorem X27_only_the_administrator_configures t s :
  (tx_sender t <> admin s -> config (step t s) = config s /\ events (step t s) = events s) /\
  (tx_sender t <> admin s -> tx_sender t <> entryPoint s -> step t s = s) /\
  (forall u,
     (forall op h m, tx_call t = ValidatePaymasterUserOp op h m -> sender op <> u) ->
     word_at (sponsoredTxCount (step t s)) u = word_at (sponsoredTxCount s) u /\
     word_at (dailyResetTime (step t s)) u = word_at (dailyResetTime s) u).
Proof.
  unfold step.
  destruct (exec (tx_sender t) (tx_time t) (tx_call t) s) as [s'|e] eqn:E; simpl;
    [|repeat split; auto].
  apply paymaster_exec_effects in E as (Hwho & _ & _ & Hframe).
  split; [|split].
  - intros Hne. destruct Hwho as [Ha|(_ & Hc & He)]; [contradiction|auto].
  - intros Hne Hnp. destruct Hwho as [Ha|(Hp & _)]; contradiction.
  - exact Hframe.
Qed.

End WithPrimitives.

(** A check inside an open day window: refused at the cap, and otherwise
    the count goes up by one and nothing else of the quota changes. *)
Lemma _checkAndUpdateDailyLimit_open now user s :
  word_at (dailyResetTime s) user + DAYS <= MAX_UINT256 ->
  now <= word_at (dailyResetTime s) user + DAYS ->
  maxDailySponsored s <= MAX_UINT256 ->
  (maxDailySponsored s <= word_at (sponsoredTxCount s) user /\
   _checkAndUpdateDailyLimit now user s = Revert DailyLimitExceeded) \/
  (word_at (sponsoredTxCount s) user < maxDailySponsored s /\
   exists s', _checkAndUpdateDailyLimit now user s = Ok s' /\
     word_at (sponsoredTxCount s') user = word_at (sponsoredTxCount s) user + 1 /\
     dailyResetTime s' = dailyResetTime s /\ maxDailySponsored s' = maxDailySponsored s).
Proof.
  intros Hov Hopen Hc. unfold _checkAndUpdateDailyLimit. unfold_call.
  change (1 * DAYS) with DAYS.
  apply Z.leb_le in Hov. rewrite Hov.
  assert (E2 : (word_at (dailyResetTime s) user + DAYS <? now) = false) by (apply Z.ltb_ge; lia).
  rewrite E2.
  destruct (maxDailySponsored s <=? word_at (sponsoredTxCount s) user) eqn:E3.
  - left. apply Z.leb_le in E3. split; [assumption|reflexivity].
  - right. apply Z.leb_gt in E3. split; [assumption|].
    assert (E4 : (word_at (sponsoredTxCount s) user + 1 <=? MAX_UINT256) = true)
      by (apply Z.leb_le; lia).
    rewrite E4. eexists. split; [reflexivity|]. simpl. rewrite word_at_insert.
    destruct (decide (user = user)); [|contradiction]. repeat split.
Qed.

(** X25. Inside an open day window, a user whose count is [c] under a cap
    [m] gets exactly [m - c] further checks through: [n] successive checks
    succeed when [n <= m - c], leaving the count at [c + n] and the window
    as it was, and fail with [DailyLimitExceeded] when [n > m - c]. *)
Theorem X25_quota_is_exact n : forall now user s,
  word_at (dailyResetTime s) user + DAYS <= MAX_UINT256 ->
  now <= word_at (dailyResetTime s) user + DAYS ->
  word_at (sponsoredTxCount s) user <= maxDailySponsored s <= MAX_UINT256 ->
  (Z.of_nat n <= maxDailySponsored s - word_at (sponsoredTxCount s) user ->
   exists s', checks n now user s = Ok s' /\
     word_at (sponsoredTxCount s') user = word_at (sponsoredTxCount s) user + Z.of_nat n /\
     dailyResetTime s' = dailyResetTime s /\ maxDailySponsored s' = maxDailySponsored s) /\
  (maxDailySponsored s - word_at (sponsoredTxCount s) user < Z.of_nat n ->
   checks n now user s = Revert DailyLimitExceeded).
Proof.
  induction n as [|n IH]; intros now user s Hov Hopen Hcap.
  - split; [|lia]. intros _. exists s. simpl checks. change (Z.of_nat 0) with 0.
    split; [reflexivity|]. split; [lia|]. split; reflexivity.
  - simpl checks. unfold mbind, result_bind.
    destruct (_checkAndUpdateDailyLimit_open now user s Hov Hopen) as [(Hfull & ->)|Hroom];
      [lia| |].
    + split; [lia|reflexivity].
    + destruct Hroom as (Hlt & s1 & -> & Hc1 & Hr & Hmax).
      destruct (IH now user s1) as (IHok & IHfail); rewrite ?Hr, ?Hmax, ?Hc1; try lia.
      split.
      * intros Hn. destruct IHok as (s' & Hok & Hcount & Hreset & Hm); [lia|].
        exists s'. rewrite Hok, Hcount, Hreset, Hm, Hc1, Hr, Hmax.
        repeat split. lia.
      * intros Hn. apply IHfail. lia.
Qed.

(** X22 on the scenario: the entry point's call is accepted; the same call
    from the administrator is not. *)
Lemma X22_sponsor_accepts_iff_witness :
  _getTarget (callData PaymasterScenario.op_crafted) = phantomVault PaymasterScenario.s0 /\
  is_ok (@validatePaymasterUserOp PaymasterScenario.prims PaymasterScenario.admin 100000
           PaymasterScenario.op_crafted 0 1000 PaymasterScenario.s0) = false.
Proof.
  assert (Hov : word_at (dailyResetTime PaymasterScenario.s0)
                  (sender PaymasterScenario.op_crafted) + DAYS <= MAX_UINT256)
    by (vm_compute; discriminate).
  assert (Hmax : maxDailySponsored PaymasterScenario.s0 <= MAX_UINT256)
    by (vm_compute; discriminate).
  pose proof (@X22_sponsor_accepts_iff PaymasterScenario.prims PaymasterScenario.entryPoint
                100000 PaymasterScenario.op_crafted 0 1000 PaymasterScenario.s0 Hov Hmax)
    as H1.
  pose proof (@X22_sponsor_accepts_iff PaymasterScenario.prims PaymasterScenario.admin
                100000 PaymasterScenario.op_crafted 0 1000 PaymasterScenario.s0 Hov Hmax)
    as H2.
  cbv zeta in H1, H2.
  assert (Hok : is_ok (@validatePaymasterUserOp PaymasterScenario.prims
                         PaymasterScenario.entryPoint 100000 PaymasterScenario.op_crafted
                         0 1000 PaymasterScenario.s0) = true)
    by (vm_compute; reflexivity).
  split.
  - destruct (proj1 H1 Hok) as (_ & _ & _ & Ht & _). exact Ht.
  - apply not_true_is_false. intros E.
    destruct (proj1 H2 E) as (Hc & _). vm_compute in Hc. discriminate Hc.
Defined.

(** X23 on the scenario: the window of [op_crafted] is read back. *)
Lemma X23_validation_data_round_trip_witness :
  exists s' v,
    @_validatePaymasterUserOp PaymasterScenario.prims 100000 PaymasterScenario.op_crafted
      0 1000 PaymasterScenario.s0 = Ok (s', v)
    /\ context v = (PaymasterScenario.user, 1000)
    /\ (validationData v / 2 ^ 160) mod 2 ^ 48 = 9999999
    /\ validationData v / 2 ^ 208 = 0.
Proof.
  assert (Hok : is_ok (@_validatePaymasterUserOp PaymasterScenario.prims 100000
                         PaymasterScenario.op_crafted 0 1000 PaymasterScenario.s0) = true)
    by (vm_compute; reflexivity).
  destruct (@_validatePaymasterUserOp PaymasterScenario.prims 100000
              PaymasterScenario.op_crafted 0 1000 PaymasterScenario.s0)
    as [[s' v]|e] eqn:E; [|discriminate Hok]. clear Hok.
  exists s', v. split; [reflexivity|].
  apply (@X23_validation_data_round_trip PaymasterScenario.prims) in E
    as (Hc & _ & Hu & Ha).
  split; [exact Hc|]. split.
  - rewrite Hu. vm_compute. reflexivity.
  - rewrite Ha. vm_compute. reflexivity.
Defined.

(** X24 on the scenario: other gas fields, init code and signature, and
    another operation hash, give the same decision. *)
Lemma X24_decision_reads_four_fields_witness :
  @_validatePaymasterUserOp PaymasterScenario.prims 100000 PaymasterScenario.op_crafted
    0 1000 PaymasterScenario.s0
  = @_validatePaymasterUserOp PaymasterScenario.prims 100000 SponsorScenario.op_regassed
      5 1000 PaymasterScenario.s0.
Proof.
  apply (@X24_decision_reads_four_fields PaymasterScenario.prims); reflexivity.
Defined.

(** X25 on the scenario: after one sponsored operation under the cap 10,
    nine more checks pass and a tenth does not. *)
Lemma X25_quota_is_exact_witness :
  (exists s', checks 9 100001 PaymasterScenario.user SponsorScenario.s_once = Ok s'
              /\ word_at (sponsoredTxCount s') PaymasterScenario.user = 10) /\
  checks 10 100001 PaymasterScenario.user SponsorScenario.s_once = Revert DailyLimitExceeded.
Proof.
  split.
  - destruct (X25_quota_is_exact 9 100001 PaymasterScenario.user SponsorScenario.s_once)
      as (Hok & _).
    + vm_compute. discriminate.
    + vm_compute. discriminate.
    + split; vm_compute; discriminate.
    + destruct Hok as (s' & Hs & Hc & _); [vm_compute; discriminate|].
      exists s'. split; [exact Hs|]. rewrite Hc. vm_compute. reflexivity.
  - destruct (X25_quota_is_exact 10 100001 PaymasterScenario.user SponsorScenario.s_once)
      as (_ & Hfail).
    + vm_compute. discriminate.
    + vm_compute. discriminate.
    + split; vm_compute; discriminate.
    + apply Hfail. vm_compute. reflexivity.
Defined.

(** X26 on the scenario: for the agent's [execute] call to the vault the
    selector looked up is that of [execute], which the constructor does not
    whitelist. *)
Lemma X26_selector_is_the_outer_one_witness :
  _getSelector (callData PaymasterScenario.op_execute_vault) = PhantomAccount.execute_selector /\
  exists e, @_validatePaymasterUserOp PaymasterScenario.prims 100000
              PaymasterScenario.op_execute_vault 0 1000 PaymasterScenario.s0 = Revert e.
Proof.
  destruct (@X26_selector_is_the_outer_one PaymasterScenario.prims 100000
              PhantomAccount.execute_selector
              (Z_to_be 32 PaymasterScenario.vault ++ Z_to_be 32 0 ++ Z_to_be 32 96
                 ++ Z_to_be 32 36 ++ Z_to_be 4 PaymasterScenario.sel_executeStrategy
                 ++ Z_to_be 32 1 ++ Z_to_be 28 0)
              PaymasterScenario.op_execute_vault 0 1000 PaymasterScenario.s0)
    as (Hsel & _ & Hrej).
  - reflexivity.
  - vm_compute. split; [discriminate|reflexivity].
  - split; [exact Hsel|]. apply Hrej. vm_compute. reflexivity.
Defined.

(** X27 on the scenario: the user cannot raise the daily cap. *)
Lemma X27_only_the_administrator_configures_witness :
  @step PaymasterScenario.prims
    (mkTx PaymasterScenario.user 100001 (SetMaxDailySponsored 1000)) SponsorScenario.s_once
  = SponsorScenario.s_once.
Proof.
  destruct (@X27_only_the_administrator_configures PaymasterScenario.prims
              (mkTx PaymasterScenario.user 100001 (SetMaxDailySponsored 1000))
              SponsorScenario.s_once) as (_ & H & _).
  apply H; vm_compute; discriminate.
Defined.

End PaymasterCoverage.
